(** * Autonomous Lab TA: execution, error classification, grading and hints

    A shallow embedding of the core of the backend:
    - [backend/main.py]: [execute_python_code], [execute_javascript_code],
      [classify_error] and the class [ManualCodeChecker];
    - [backend/services/rag_service.py]: the class [RAGService];
    - [backend/services/code_executor.py]: [CodeExecutor._execute_local],
      [execute] and [_execute_docker];
    - [backend/services/code_analyzer.py]: [CodeAnalyzer.analyze_code] and
      [_calculate_logic_similarity];
    - [backend/main.py], the endpoints: [get_hint], [debug_code],
      [execute_code], [manual_check_code], [upload_manual_solution],
      [get_user_manuals], [delete_manual], [get_lab_task] and
      [get_all_labs].

    Modelling conventions.
    - Python [str] is [string]; the text is taken to be ASCII, so that
      [lower], [\w], [\d] and [\s] are the ASCII ones.
    - Python [float] scores are exact rationals ([Q]); equality of scores is
      [Qeq].  Where a score is rounded to hundredths, the side a float
      falls to next to the middle between two hundredths is a parameter
      ([Floats]).
    - What the operating system, [difflib], [sqlite3] and [docker] do is a
      parameter: whether a temporary file can be written, the outcome of a
      child process, the number of characters matched by
      [difflib.SequenceMatcher], the rows a query returns, what becomes of
      a container.
    - The database [labta.db] of the endpoints is a record of its tables,
      passed to an endpoint and returned by it.  A submitted text runs
      unconfined beside it, so what a run leaves of the database is a
      parameter too.  A query fails when [sqlite3.connect] raises and when
      an integer it binds does not fit 64 bits. *)

From Stdlib Require Import String Ascii List ZArith QArith Qround Qminmax Lia Lqa Bool Sorted.
From stdpp Require Import base gmap strings pretty.
Import ListNotations.

Local Open Scope string_scope.

(** ** Python string primitives *)

Module Py.

Definition nl : string := String (ascii_of_nat 10) EmptyString.
Definition dquote : ascii := ascii_of_nat 34.
Definition squote : ascii := ascii_of_nat 39.

Definition code_in (lo hi : nat) (c : ascii) : bool :=
  let n := nat_of_ascii c in (lo <=? n)%nat && (n <=? hi)%nat.

Definition isupper (c : ascii) : bool := code_in 65 90 c.
Definition islower (c : ascii) : bool := code_in 97 122 c.
Definition isdigit (c : ascii) : bool := code_in 48 57 c.

(** [str.isspace] on one character, which is also [\s]: tab, line feed,
    vertical tab, form feed, carriage return, the four separators
    0x1c..0x1f and the space. *)
Definition isspace (c : ascii) : bool := code_in 9 13 c || code_in 28 32 c.

(** [\w]: letters, digits and the underscore. *)
Definition isword (c : ascii) : bool :=
  isupper c || islower c || isdigit c || Ascii.eqb c "_".

Definition lower_char (c : ascii) : ascii :=
  if isupper c then ascii_of_nat (nat_of_ascii c + 32) else c.

(** [s.lower()] *)
Fixpoint lower (s : string) : string :=
  match s with
  | EmptyString => EmptyString
  | String c r => String (lower_char c) (lower r)
  end.

(** [not s] for a string: emptiness. *)
Definition is_empty (s : string) : bool :=
  match s with EmptyString => true | _ => false end.

(** [s.startswith(p)] *)
Fixpoint startswith (p s : string) : bool :=
  match p, s with
  | EmptyString, _ => true
  | String a p', String b s' => Ascii.eqb a b && startswith p' s'
  | String _ _, EmptyString => false
  end.

(** [sub in s] *)
Fixpoint contains (sub s : string) : bool :=
  startswith sub s ||
  match s with
  | EmptyString => false
  | String _ r => contains sub r
  end.

(** [s.lstrip()], [s.rstrip()], [s.strip()] *)
Fixpoint lstrip (s : string) : string :=
  match s with
  | EmptyString => EmptyString
  | String c r => if isspace c then lstrip r else s
  end.

Fixpoint rstrip (s : string) : string :=
  match s with
  | EmptyString => EmptyString
  | String c r =>
      let r' := rstrip r in
      if isspace c && is_empty r' then EmptyString else String c r'
  end.

Definition strip (s : string) : string := rstrip (lstrip s).

(** [s[:n]] *)
Fixpoint take (n : nat) (s : string) : string :=
  match n, s with
  | S k, String c r => String c (take k r)
  | _, _ => EmptyString
  end.

(** [s.split(sep)] for a non-empty [sep]: the pieces between the
    occurrences of [sep], found from the left without overlap.  [skip]
    counts the characters of an occurrence still to be passed over; the
    result is the piece under construction and the pieces after it. *)
Fixpoint split_aux (sep : string) (skip : nat) (s : string) : string * list string :=
  match s with
  | EmptyString => (EmptyString, [])
  | String c r =>
      match skip with
      | S k => split_aux sep k r
      | O =>
          if startswith sep s then
            let '(p, ps) := split_aux sep (String.length sep - 1) r in
            (EmptyString, p :: ps)
          else
            let '(p, ps) := split_aux sep 0 r in
            (String c p, ps)
      end
  end.

Definition split (sep s : string) : list string :=
  let '(p, ps) := split_aux sep 0 s in p :: ps.

(** [s.split(sep)[0]] *)
Definition split_head (sep s : string) : string := fst (split_aux sep 0 s).

(** [s.split(sep, 1)] when [sep in s]: the text before the first
    occurrence and the text after it. *)
Fixpoint split_once (sep s : string) : option (string * string) :=
  if startswith sep s then
    Some (EmptyString, String.substring (String.length sep) (String.length s) s)
  else
    match s with
    | EmptyString => None
    | String c r =>
        match split_once sep r with
        | Some (a, b) => Some (String c a, b)
        | None => None
        end
    end.

(** [s.replace(old, new)] for a non-empty [old]. *)
Fixpoint replace_aux (old new : string) (skip : nat) (s : string) : string :=
  match s with
  | EmptyString => EmptyString
  | String c r =>
      match skip with
      | S k => replace_aux old new k r
      | O =>
          if startswith old s then new ++ replace_aux old new (String.length old - 1) r
          else String c (replace_aux old new 0 r)
      end
  end.

Definition replace (old new s : string) : string := replace_aux old new 0 s.

(** [sep.join(parts)] *)
Definition join (sep : string) (parts : list string) : string := String.concat sep parts.

(** *** The regular expressions of the program *)

(** [re.findall(r'\b\w+\b', s)]: the maximal runs of word characters.
    The first component is the run that starts at the head of [s]. *)
Fixpoint findall_words_aux (s : string) : string * list string :=
  match s with
  | EmptyString => (EmptyString, [])
  | String c r =>
      let '(w, ts) := findall_words_aux r in
      if isword c then (String c w, ts)
      else (EmptyString, if is_empty w then ts else w :: ts)
  end.

Definition findall_words (s : string) : list string :=
  let '(w, ts) := findall_words_aux s in
  if is_empty w then ts else w :: ts.

(** [re.findall(r'\d+\.?\d*', s)]: a run of digits, then a dot if there is
    one, then the digits after it. *)
Inductive num_state := NumOut | NumInt | NumFrac.

Fixpoint findall_numbers_aux (st : num_state) (cur : string) (s : string) : list string :=
  match s with
  | EmptyString => match st with NumOut => [] | _ => [cur] end
  | String c r =>
      match st with
      | NumOut =>
          if isdigit c then findall_numbers_aux NumInt (String c EmptyString) r
          else findall_numbers_aux NumOut EmptyString r
      | NumInt =>
          if isdigit c then findall_numbers_aux NumInt (cur ++ String c EmptyString) r
          else if Ascii.eqb c "." then findall_numbers_aux NumFrac (cur ++ ".") r
          else cur :: findall_numbers_aux NumOut EmptyString r
      | NumFrac =>
          if isdigit c then findall_numbers_aux NumFrac (cur ++ String c EmptyString) r
          else cur :: findall_numbers_aux NumOut EmptyString r
      end
  end.

Definition findall_numbers (s : string) : list string :=
  findall_numbers_aux NumOut EmptyString s.

(** [re.sub(r'#.*$', '', s, flags=re.MULTILINE)]: from a [#] to the end of
    its line, the line feed kept. *)
Fixpoint sub_comments_aux (in_comment : bool) (s : string) : string :=
  match s with
  | EmptyString => EmptyString
  | String c r =>
      if Ascii.eqb c (ascii_of_nat 10) then String c (sub_comments_aux false r)
      else if in_comment then sub_comments_aux true r
      else if Ascii.eqb c "#" then sub_comments_aux true r
      else String c (sub_comments_aux false r)
  end.

Definition sub_comments (s : string) : string := sub_comments_aux false s.

(** [re.sub(r'\s+', ' ', s)] *)
Fixpoint sub_spaces_aux (in_run : bool) (s : string) : string :=
  match s with
  | EmptyString => EmptyString
  | String c r =>
      if isspace c then
        if in_run then sub_spaces_aux true r
        else String " " (sub_spaces_aux true r)
      else String c (sub_spaces_aux false r)
  end.

Definition sub_spaces (s : string) : string := sub_spaces_aux false s.

(** [re.sub(q + '[^' + q + ']*' + q, q + q, s)] for a quote character [q]:
    every closed literal loses its contents; a last quote that is never
    closed stays with the text after it.  [open] holds the text read since
    an opening quote. *)
Fixpoint sub_quoted_aux (q : ascii) (open : option string) (s : string) : string :=
  match s with
  | EmptyString =>
      match open with
      | None => EmptyString
      | Some buf => String q buf
      end
  | String c r =>
      match open with
      | None =>
          if Ascii.eqb c q then sub_quoted_aux q (Some EmptyString) r
          else String c (sub_quoted_aux q None r)
      | Some buf =>
          if Ascii.eqb c q then String q (String q (sub_quoted_aux q None r))
          else sub_quoted_aux q (Some (buf ++ String c EmptyString)) r
      end
  end.

Definition sub_quoted (q : ascii) (s : string) : string := sub_quoted_aux q None s.

End Py.

(** ** The host: files, child processes, exceptions *)

(** The exceptions the program distinguishes in its [except] clauses:
    [subprocess.TimeoutExpired], [FileNotFoundError] (raised by
    [subprocess.run] when the program is not installed, and by [os.unlink]
    on a missing path), and any other [Exception].  Every handler that
    could meet a [TimeoutExpired] names it and does not read its text. *)
Inductive exn : Type :=
| TimeoutExpired
| FileNotFoundError (msg : string)
| Exception (msg : string).

(** [str(e)] *)
Definition exn_str (e : exn) : string :=
  match e with
  | TimeoutExpired => "Command timed out"
  | FileNotFoundError msg => msg
  | Exception msg => msg
  end.

(** [subprocess.CompletedProcess] with [capture_output=True, text=True]. *)
Record CompletedProcess : Type := {
  returncode : Z;
  stdout : string;
  stderr : string
}.

(** What becomes of [with tempfile.NamedTemporaryFile(...) as f:
    f.write(code)]: the file is written; or [NamedTemporaryFile] raises and
    there is no file; or [f.write] raises, as it does on a text that cannot
    be encoded, and the file, made with [delete=False], stays. *)
Inductive stored : Type :=
| Written
| NotCreated (e : exn)
| NotWritten (e : exn).

(** What the machine does: the path [tempfile.NamedTemporaryFile] picks,
    given the existing paths and the suffix, what [subprocess.run] does
    with an argument vector, the source text the command is about and the
    timeout, if one is given, and what becomes of writing a text to a
    temporary file. *)
Record Host : Type := {
  mktemp : gset string → string → string;
  spawn : list string → string → option nat → exn + CompletedProcess;
  store : string → stored
}.

(** Computations that read and write the set of existing paths and may
    raise. *)
Definition IO (A : Type) : Type := gset string → (exn + A) * gset string.

Definition io_ret {A} (a : A) : IO A := λ fs, (inr a, fs).

Definition io_raise {A} (e : exn) : IO A := λ fs, (inl e, fs).

Definition io_bind {A B} (m : IO A) (k : A → IO B) : IO B :=
  λ fs, match m fs with
        | (inr a, fs') => k a fs'
        | (inl e, fs') => (inl e, fs')
        end.

(** [try: m except e: handler e] *)
Definition io_try {A} (m : IO A) (handler : exn → IO A) : IO A :=
  λ fs, match m fs with
        | (inr a, fs') => (inr a, fs')
        | (inl e, fs') => handler e fs'
        end.

(** [try: m finally: cleanup]: the clean-up runs on every way out of [m];
    an exception of the clean-up itself replaces the outcome of [m]. *)
Definition io_finally {A} (m : IO A) (cleanup : IO unit) : IO A :=
  λ fs, match m fs with
        | (r, fs') =>
            match cleanup fs' with
            | (inr _, fs'') => (r, fs'')
            | (inl e, fs'') => (inl e, fs'')
            end
        end.

#[global] Instance io_mret : MRet IO := @io_ret.
#[global] Instance io_mbind : MBind IO := λ A B k m, io_bind m k.

(** [with tempfile.NamedTemporaryFile(mode='w', suffix=suffix, delete=False)
    as f: f.write(code); temp_file = f.name].  When the block raises, no
    path is bound, and a file that was created stays. *)
Definition named_temporary_file (h : Host) (suffix code : string) : IO string :=
  λ fs, let p := mktemp h fs suffix in
        match store h code with
        | Written => (inr p, {[p]} ∪ fs)
        | NotCreated e => (inl e, fs)
        | NotWritten e => (inl e, {[p]} ∪ fs)
        end.

(** [subprocess.run(argv, capture_output=True, text=True, timeout=t)] *)
Definition subprocess_run (h : Host) (argv : list string) (source : string)
    (t : option nat) : IO CompletedProcess :=
  λ fs, (spawn h argv source t, fs).

(** [os.unlink(p)] *)
Definition os_unlink (p : string) : IO unit :=
  λ fs, if decide (p ∈ fs) then (inr tt, fs ∖ {[p]})
        else (inl (FileNotFoundError ("No such file or directory: " ++ p)), fs).

(** [os.path.exists(p)] *)
Definition os_path_exists (p : string) : IO bool :=
  λ fs, (inr (bool_decide (p ∈ fs)), fs).

(** A file that comes into being, such as the executable [gcc] writes. *)
Definition creates (p : string) : IO unit :=
  λ fs, (inr tt, {[p]} ∪ fs).

(** ** [backend/main.py]: classification and execution *)

(** [classify_error] *)
Definition classify_error (error_message : string) : string :=
  if Py.is_empty error_message then "UnknownError"
  else
    let error_lower := Py.lower error_message in
    if Py.contains "indexerror" error_lower || Py.contains "arrayindexoutofbounds" error_lower
    then "IndexError"
    else if Py.contains "syntaxerror" error_lower then "SyntaxError"
    else if Py.contains "nameerror" error_lower || Py.contains "cannot find symbol" error_lower
    then "NameError"
    else if Py.contains "typeerror" error_lower then "TypeError"
    else if Py.contains "indentationerror" error_lower then "IndentationError"
    else if Py.contains "zerodivisionerror" error_lower || Py.contains "divide by zero" error_lower
    then "ZeroDivisionError"
    else if Py.contains "keyerror" error_lower then "KeyError"
    else if Py.contains "attributeerror" error_lower then "AttributeError"
    else if Py.contains "valueerror" error_lower then "ValueError"
    else if Py.contains "timeout" error_lower then "TimeoutError"
    else if Py.contains "off by one" error_lower
            || (Py.contains "index" error_lower && Py.contains "range" error_lower)
    then "off_by_one"
    else if Py.contains "missing return" error_lower || Py.contains "does not return" error_lower
    then "missing_return"
    else if Py.contains "infinite loop" error_lower || Py.contains "while true" error_lower
    then "infinite_loop"
    else
      match Py.split Py.nl (Py.strip error_message) with
      | first_line :: _ =>
          if Py.contains ":" first_line then Py.split_head ":" first_line
          else "RuntimeError"
      | [] => "RuntimeError"
      end.

(** The dictionaries the execution functions return.  A key that a
    dictionary does not have, or has with the value [None], is [None]. *)
Record ExecResult : Type := {
  success : bool;
  output : string;
  error : option string;
  error_type : option string;
  return_code : option Z
}.

(** The dictionary built from a finished child process, in both
    [execute_python_code] and [execute_javascript_code]. *)
Definition finished (result : CompletedProcess) (with_return_code : bool) : ExecResult :=
  let ok := (returncode result =? 0)%Z in
  {| success := ok;
     output := stdout result;
     error := if ok then None else Some (stderr result);
     error_type := if ok then None else Some (classify_error (stderr result));
     return_code := if with_return_code then Some (returncode result) else None |}.

Definition failed (message kind : string) : ExecResult :=
  {| success := false; output := EmptyString; error := Some message;
     error_type := Some kind; return_code := None |}.

Definition timed_out (timeout : nat) : ExecResult :=
  failed ("Execution timed out after " ++ pretty timeout ++ " seconds") "TimeoutError".

(** [execute_python_code] *)
Definition execute_python_code (h : Host) (code : string) (timeout : nat) : IO ExecResult :=
  io_try
    (temp_file ← named_temporary_file h ".py" code;
     result ← subprocess_run h ["python"; temp_file] code (Some timeout);
     os_unlink temp_file;;
     mret (finished result true))
    (λ e, match e with
          | TimeoutExpired => io_ret (timed_out timeout)
          | _ => io_ret (failed (exn_str e) "ExecutionError")
          end).

(** The dictionary [execute_python_code] returns for each thing that can
    become of the child process. *)
Definition python_outcome (timeout : nat) (o : exn + CompletedProcess) : ExecResult :=
  match o with
  | inr result => finished result true
  | inl TimeoutExpired => timed_out timeout
  | inl e => failed (exn_str e) "ExecutionError"
  end.

(** [execute_javascript_code] *)
Definition execute_javascript_code (h : Host) (code : string) (timeout : nat) : IO ExecResult :=
  io_try
    (temp_file ← named_temporary_file h ".js" code;
     result ← subprocess_run h ["node"; temp_file] code (Some timeout);
     os_unlink temp_file;;
     mret (finished result false))
    (λ e, match e with
          | FileNotFoundError _ =>
              io_ret (failed "Node.js is not installed. Please install Node.js to run JavaScript code."
                             "RuntimeMissing")
          | TimeoutExpired => io_ret (timed_out timeout)
          | Exception _ => io_ret (failed (exn_str e) "ExecutionError")
          end).

(** The dictionary [execute_javascript_code] returns for each thing that
    can become of the child process. *)
Definition javascript_outcome (timeout : nat) (o : exn + CompletedProcess) : ExecResult :=
  match o with
  | inr result => finished result false
  | inl (FileNotFoundError _) =>
      failed "Node.js is not installed. Please install Node.js to run JavaScript code."
             "RuntimeMissing"
  | inl TimeoutExpired => timed_out timeout
  | inl (Exception msg) => failed msg "ExecutionError"
  end.

(** ** [backend/main.py]: the class [ManualCodeChecker] *)

(** [round(x)] on an exact value: to the nearest integer, a tie to the even
    one. *)
Definition round_half_even (x : Q) : Z :=
  let f := Qfloor x in
  match (x - inject_Z f ?= (1 # 2))%Q with
  | Lt => f
  | Gt => (f + 1)%Z
  | Eq => if Z.even f then f else (f + 1)%Z
  end.

(** What binary floating point decides where exact arithmetic cannot:
    whether a score that lies at, or next to, the middle between two
    hundredths is rounded to the upper one. *)
Record Floats : Type := {
  rounds_up : Q → bool
}.

(** How near the middle between two hundredths, in hundredths, a score
    must lie for its float to fall on either side of it.  The floats of
    the scores are off their exact values by less than 2^-48: they lie in
    [0,1] and come from fewer than twenty operations, each correct to
    2^-53. *)
Definition tie_margin : Q := 1 # 1000000000.

(** [round(x, 2)].  Python rounds the binary value of the float to the
    nearest hundredth; on the exact score that is the nearest hundredth,
    and either of the two nearest when the score is within [tie_margin]
    of the middle between them. *)
Definition round2 (fl : Floats) (x : Q) : Q :=
  let f := Qfloor (x * 100) in
  let t := (x * 100 - inject_Z f)%Q in
  let up := if Qle_bool t ((1 # 2) - tie_margin) then false
            else if Qle_bool ((1 # 2) + tie_margin) t then true
            else rounds_up fl (Qred x) in
  (inject_Z (if up then f + 1 else f) / 100)%Q.

(** [x < y] and [x >= y] on scores. *)
Definition Qltb (x y : Q) : bool := negb (Qle_bool y x).
Definition Qgeb (x y : Q) : bool := Qle_bool y x.

(** [difflib.SequenceMatcher(None, a, b).ratio()]: twice the number of
    matched characters over the total length, and 1.0 for two empty
    strings.  [matches a b] is the total size of the matching blocks
    [difflib] finds. *)
Definition sequence_ratio (matches : string → string → nat) (a b : string) : Q :=
  let length := (String.length a + String.length b)%nat in
  if (length =? 0)%nat then 1%Q
  else (inject_Z (2 * Z.of_nat (matches a b)) / inject_Z (Z.of_nat length))%Q.

(** One entry of [code_differences]. *)
Record Difference : Type := {
  diff_line : nat;
  diff_student : string;
  diff_manual : string;
  diff_type : string
}.

(** The dictionary [compare] returns when nothing raises. *)
Record ComparisonReport : Type := {
  syntax_match : Q;
  structure_match : Q;
  logic_match : Q;
  output_match : Q;
  errors : list string;
  similarity_score : Q;
  code_differences : list Difference;
  student_execution : ExecResult;
  manual_execution : ExecResult;
  suggestions : list string;
  grade : string;
  overall_score : Q
}.

(** [compare] returns the report, or the dictionary with the single key
    ["error"]. *)
Inductive CompareResult : Type :=
| Report (r : ComparisonReport)
| CompareError (message : string).

Module ManualCodeChecker.

(** [_normalize_code] *)
Definition _normalize_code (code : string) : string :=
  let code := Py.sub_comments code in
  let code := Py.sub_spaces code in
  let code := Py.sub_quoted Py.dquote code in
  let code := Py.sub_quoted Py.squote code in
  Py.lower (Py.strip code).

(** [_check_syntax_match] *)
Definition _check_syntax_match (code1 code2 : string) : Q :=
  let tokens1 := Py.findall_words (_normalize_code code1) in
  let tokens2 := Py.findall_words (_normalize_code code2) in
  match tokens1, tokens2 with
  | [], _ | _, [] => 0%Q
  | _ :: _, _ :: _ =>
      let set1 : gset string := list_to_set tokens1 in
      let set2 : gset string := list_to_set tokens2 in
      let intersection := size (set1 ∩ set2) in
      let union := size (set1 ∪ set2) in
      if (0 <? union)%nat
      then (inject_Z (Z.of_nat intersection) / inject_Z (Z.of_nat union))%Q
      else 0%Q
  end.

Definition elements : list string :=
  ["def "; "if "; "for "; "while "; "return "; "import "; "from "; "class "].

(** [sum(1 for elem in elements if elem in code)] *)
Definition count_elements (elems : list string) (code : string) : Z :=
  Z.of_nat (List.length (List.filter (λ elem, Py.contains elem code) elems)).

(** [_check_structure_match] *)
Definition _check_structure_match (code1 code2 : string) : Q :=
  let count1 := count_elements elements code1 in
  let count2 := count_elements elements code2 in
  if (count1 =? 0)%Z && (count2 =? 0)%Z then 1%Q
  else
    let diff := Z.abs (count1 - count2) in
    let max_count := Z.max (Z.max count1 count2) 1 in
    (1 - inject_Z diff / inject_Z max_count)%Q.

Definition logic_indicators : gmap string (list string) :=
  list_to_map
    [("python", ["def "; "return "; "for "; "while "; "if "; "else "; "elif "; "in "; "range("; "len("]);
     ("javascript", ["function "; "return "; "for "; "while "; "if "; "else "; "const "; "let "; "var "]);
     ("java", ["public "; "private "; "return "; "for "; "while "; "if "; "else "; "class "; "void "])].

(** One turn of the loop of [_check_logic_match]. *)
Definition logic_step (student_code manual_code : string) (score : Q) (indicator : string) : Q :=
  let in_student := Py.contains indicator student_code in
  let in_manual := Py.contains indicator manual_code in
  if in_student && in_manual then (score + (1 # 10))%Q
  else if (in_student && negb in_manual) || (negb in_student && in_manual)
       then (score + (1 # 20))%Q
       else score.

(** [_check_logic_match] *)
Definition _check_logic_match (student_code manual_code language : string) : Q :=
  let indicators := default [] (logic_indicators !! language) in
  let score := fold_left (logic_step student_code manual_code) indicators 0%Q in
  Qmin score 1.

(** [_compare_outputs] *)
Definition _compare_outputs (matches : string → string → nat) (output1 output2 : string) : Q :=
  if Py.is_empty output1 || Py.is_empty output2 then 0%Q
  else
    let output1_clean := Py.lower (Py.strip output1) in
    let output2_clean := Py.lower (Py.strip output2) in
    if String.eqb output1_clean output2_clean then 1%Q
    else
      let nums1 := Py.findall_numbers output1_clean in
      let nums2 := Py.findall_numbers output2_clean in
      if negb (bool_decide (nums1 = [])) && negb (bool_decide (nums2 = []))
         && bool_decide (nums1 = nums2)
      then (4 # 5)%Q
      else sequence_ratio matches output1_clean output2_clean.

(** The identifiers [re.findall] extracts in [_find_errors] (a letter or an
    underscore, then letters, digits and underscores, between two word
    boundaries), on a lower-cased text: the runs of word characters that do
    not start with a digit. *)
Definition findall_identifiers (s : string) : list string :=
  List.filter (λ w, match w with
                    | String c _ => negb (Py.isdigit c)
                    | EmptyString => false
                    end)
              (Py.findall_words s).

(** [_find_errors] *)
Definition _find_errors (student_code manual_code language : string) : list string :=
  (if Py.contains "pass" student_code && Py.contains "def " student_code
      && negb (Py.contains "pass" manual_code)
   then ["Function not implemented (using 'pass')"] else [])
  ++ (if Py.contains "def " manual_code && negb (Py.contains "def " student_code)
      then ["Missing function definition"] else [])
  ++ (if Py.contains "return " manual_code && negb (Py.contains "return " student_code)
      then ["Missing return statement"] else [])
  ++ (if String.eqb language "python" then
        let student_vars := findall_identifiers (Py.lower student_code) in
        let single_letter_vars :=
          List.filter (λ var, (String.length var =? 1)%nat
                              && negb (bool_decide (var ∈ ["i"; "j"; "k"; "x"; "y"; "z"])))
                      student_vars in
        match single_letter_vars with
        | [] => []
        | _ :: _ => ["Poor variable naming: " ++ Py.join ", " single_letter_vars]
        end
      else [])
  ++ (if Py.contains "range(1," student_code && Py.contains "range(0," manual_code
      then ["Potential off-by-one error in range"] else []).

(** [_calculate_similarity_score] *)
Definition _calculate_similarity_score (fl : Floats) (matches : string → string → nat)
    (code1 code2 : string) : Q :=
  round2 fl (sequence_ratio matches code1 code2).

(** [_find_code_differences] *)
Definition _find_code_differences (code1 code2 : string) : list Difference :=
  let lines1 := Py.split Py.nl code1 in
  let lines2 := Py.split Py.nl code2 in
  let max_lines := Nat.max (List.length lines1) (List.length lines2) in
  let differences :=
    flat_map
      (λ i, let line1 := nth i lines1 EmptyString in
            let line2 := nth i lines2 EmptyString in
            if String.eqb line1 line2 then []
            else [{| diff_line := i + 1;
                     diff_student := line1;
                     diff_manual := line2;
                     diff_type :=
                       if negb (Py.is_empty line1) && negb (Py.is_empty line2) then "different"
                       else if Py.is_empty line1 then "missing" else "extra" |}])
      (seq 0 max_lines) in
  firstn 20 differences.

(** [_calculate_grade] *)
Definition _calculate_grade (score : Q) : string :=
  if Qgeb score (9 # 10) then "A"
  else if Qgeb score (8 # 10) then "B"
  else if Qgeb score (7 # 10) then "C"
  else if Qgeb score (6 # 10) then "D"
  else "F".

(** [_generate_suggestions], from the entries of [results] it reads. *)
Definition _generate_suggestions (output_match syntax_match logic_match : Q)
    (errors : list string) (student_code manual_code : string) : list string :=
  (if Qltb output_match (1 # 2) then ["Focus on getting the correct output first"] else [])
  ++ (if Qltb syntax_match (7 # 10) then ["Review basic syntax and structure"] else [])
  ++ (if Qltb logic_match (6 # 10) then ["Work on understanding the logic flow"] else [])
  ++ (match errors with
      | [] => []
      | _ :: _ => ["Fix the identified errors: " ++ Py.join ", " (firstn 3 errors)]
      end)
  ++ (if Py.contains "pass" student_code && Py.contains "def " student_code
      then ["Replace 'pass' with actual implementation"] else [])
  ++ (if (2 * String.length student_code <? String.length manual_code)%nat
      then ["Your solution might be too simple. Check if you're missing important parts"]
      else []).

(** The literal [{"success": False, "output": ""}] that stands for an
    execution when the language is not python. *)
Definition not_executed : ExecResult :=
  {| success := false; output := EmptyString; error := None;
     error_type := None; return_code := None |}.

(** [sum(scores)] *)
Definition sum_scores (scores : list Q) : Q := fold_left Qplus scores 0%Q.

(** [compare].  [execute_python_code] is called with its default timeout
    of 5 seconds. *)
Definition compare (fl : Floats) (h : Host) (matches : string → string → nat)
    (student_code manual_code language : string) : IO CompareResult :=
  io_try
    (student_exec ← (if String.eqb language "python"
                     then execute_python_code h student_code 5
                     else mret not_executed);
     manual_exec ← (if String.eqb language "python"
                    then execute_python_code h manual_code 5
                    else mret not_executed);
     let syntax := _check_syntax_match student_code manual_code in
     let structure := _check_structure_match student_code manual_code in
     let logic := _check_logic_match student_code manual_code language in
     let outputs := _compare_outputs matches (output student_exec) (output manual_exec) in
     let found := _find_errors student_code manual_code language in
     let scores := [syntax * (1 # 4); structure * (1 # 4); logic * (1 # 4); outputs * (1 # 4)]%Q in
     let overall := sum_scores scores in
     mret (Report
       {| syntax_match := syntax;
          structure_match := structure;
          logic_match := logic;
          output_match := outputs;
          errors := found;
          similarity_score := _calculate_similarity_score fl matches student_code manual_code;
          code_differences := _find_code_differences student_code manual_code;
          student_execution := student_exec;
          manual_execution := manual_exec;
          suggestions := _generate_suggestions outputs syntax logic found student_code manual_code;
          grade := _calculate_grade overall;
          overall_score := round2 fl overall |}))
    (λ e, mret (CompareError ("Manual comparison failed: " ++ exn_str e))).

(** The dictionary of a call that returned. *)
Definition returned (x : exn + ExecResult) : ExecResult :=
  match x with
  | inr r => r
  | inl _ => not_executed
  end.

(** The two executions of [compare]: the dictionaries and the paths left. *)
Definition executions (h : Host) (student_code manual_code language : string)
    (fs : gset string) : ExecResult * ExecResult * gset string :=
  if String.eqb language "python" then
    let first := execute_python_code h student_code 5 fs in
    let second := execute_python_code h manual_code 5 (snd first) in
    (returned (fst first), returned (fst second), snd second)
  else (not_executed, not_executed, fs).

End ManualCodeChecker.

(** ** [backend/services/rag_service.py]: the class [RAGService] *)

Module RAGService.

(** A row of the table [rag_solutions], as [_store_solution_patterns]
    writes it and as the [SELECT] of [_search_by_patterns] reads it.  The
    column [embedding_hash] (Python's salted [hash]) and the table
    [code_patterns], which no query of the class reads, are left out. *)
Record Solution : Type := {
  sol_id : nat;
  sol_task_id : option string;
  sol_language : string;
  sol_code : string;
  sol_error_type : string;
  sol_hint : string;
  sol_patterns : list string
}.

(** What [sqlite3] does: the exception [connect] raises, if it does, and
    the rows the [SELECT ... WHERE where_clause ORDER BY created_at DESC
    LIMIT 5] returns on a table, [None] when [execute] raises. *)
Record Database : Type := {
  db_connect : option exn;
  db_select : list Solution → string → option (list Solution)
}.

(** One entry of the list [_search_by_patterns] returns. *)
Record Candidate : Type := {
  cand_id : nat;
  cand_task_id : option string;
  cand_code : string;
  cand_error_type : string;
  cand_hint : string;
  cand_score : Q
}.

(** The dictionary [generate_hint] returns; [patterns_found] is absent on
    the fallback path and ["error"] on the main one. *)
Record HintResult : Type := {
  hint : string;
  hint_similarity_score : Q;
  similar_solutions : list Candidate;
  rag_used : bool;
  patterns_found : option nat;
  hint_error : option string
}.

(** The patterns one stripped line contributes, in the order of the
    [if] statements. *)
Definition line_patterns (language line : string) : list string :=
  (if String.eqb language "python" && Py.startswith "def " line
   then ["function_def:" ++ Py.replace "def " EmptyString (Py.split_head "(" line)] else [])
  ++ (if Py.contains "for " line || Py.contains "while " line
      then ["loop_statement"] else [])
  ++ (if Py.startswith "if " line || Py.startswith "elif " line || Py.contains "else:" line
      then ["conditional_statement"] else [])
  ++ (if Py.contains "return " line then ["return_statement"] else [])
  ++ (if Py.contains " = " line && negb (Py.startswith "def " line)
      then let var_name := Py.strip (Py.split_head " = " line) in
           if Py.is_empty var_name then [] else ["var_assignment:" ++ var_name]
      else []).

(** [_extract_patterns].  [list(set(patterns))] keeps one copy of each
    pattern in an order Python does not fix; here it is the order of the
    last occurrences. *)
Definition _extract_patterns (code language : string) : list string :=
  let lines := Py.split Py.nl (Py.strip code) in
  let patterns :=
    flat_map (λ line, let line := Py.strip line in
                      if Py.is_empty line || Py.startswith "#" line then []
                      else line_patterns language line)
             lines in
  remove_dups patterns.

(** What one pattern adds to [matches] in
    [_calculate_pattern_match_score]. *)
Definition pattern_weight (code pattern : string) : nat :=
  if Py.contains ":" pattern then
    match Py.split_once ":" pattern with
    | Some (key, value) =>
        if String.eqb key "function_def" && Py.contains ("def " ++ value) code then 2
        else if String.eqb key "var_assignment" && Py.contains (value ++ " = ") code then 1
        else 0
    | None => 0
    end
  else if Py.contains pattern code then 1 else 0.

(** [_calculate_pattern_match_score] *)
Definition _calculate_pattern_match_score (patterns : list string) (code : string) : Q :=
  match patterns with
  | [] => 0%Q
  | _ :: _ =>
      let matches := fold_left (λ matches pattern, matches + pattern_weight code pattern)
                               patterns 0 in
      (inject_Z (Z.of_nat matches) / inject_Z (Z.of_nat (List.length patterns)))%Q
  end.

(** The [LIKE] condition a pattern contributes, if any. *)
Definition pattern_condition (pattern : string) : list string :=
  if Py.contains ":" pattern then
    match Py.split_once ":" pattern with
    | Some (key, value) =>
        if String.eqb key "function_def" then ["code LIKE '%def " ++ value ++ "%'"]
        else if String.eqb key "var_assignment" then ["code LIKE '%" ++ value ++ " = %'"]
        else []
    | None => []
    end
  else ["code LIKE '%" ++ pattern ++ "%'"].

(** The [WHERE] clause of [_search_by_patterns]. *)
Definition where_clause (patterns : list string) (language : string)
    (task_id : option string) (error : string) : string :=
  let pattern_conditions := flat_map pattern_condition patterns in
  "language = '" ++ language ++ "'"
  ++ (match task_id with
      | Some t => if Py.is_empty t then EmptyString else " AND task_id = '" ++ t ++ "'"
      | None => EmptyString
      end)
  ++ (if Py.is_empty error then EmptyString
      else " AND error_type LIKE '%" ++ Py.take 20 error ++ "%'")
  ++ (match pattern_conditions with
      | [] => EmptyString
      | _ :: _ => " AND (" ++ Py.join " OR " (firstn 3 pattern_conditions) ++ ")"
      end).

(** [solutions.sort(key=lambda x: x['score'], reverse=True)]: a stable
    sort by falling score. *)
Fixpoint insert_by_score (c : Candidate) (l : list Candidate) : list Candidate :=
  match l with
  | [] => [c]
  | d :: l' =>
      if Qle_bool (cand_score d) (cand_score c) then c :: d :: l'
      else d :: insert_by_score c l'
  end.

Definition sort_by_score (l : list Candidate) : list Candidate :=
  fold_right insert_by_score [] l.

(** A ranking: no candidate has a lower score than one after it, so the
    first has the highest score. *)
Definition ranked (l : list Candidate) : Prop :=
  StronglySorted (λ x y, (cand_score y <= cand_score x)%Q) l.

(** The entry built from a row, kept when its score is above 0.1. *)
Definition candidate_of (patterns : list string) (row : Solution) : list Candidate :=
  let score := _calculate_pattern_match_score patterns (sol_code row) in
  if Qltb (1 # 10) score then
    [{| cand_id := sol_id row;
        cand_task_id := sol_task_id row;
        cand_code := if (200 <? String.length (sol_code row))%nat
                     then Py.take 200 (sol_code row) ++ "..." else sol_code row;
        cand_error_type := sol_error_type row;
        cand_hint := sol_hint row;
        cand_score := score |}]
  else [].

(** [_search_by_patterns]: an exception of [sqlite3.connect] leaves the
    function, one of [cursor.execute] gives no rows. *)
Definition _search_by_patterns (db : Database) (table : list Solution)
    (patterns : list string) (language : string) (task_id : option string)
    (error : string) : exn + list Candidate :=
  match db_connect db with
  | Some e => inl e
  | None =>
      match patterns with
      | [] => inr []
      | _ :: _ =>
          let rows := default [] (db_select db table (where_clause patterns language task_id error)) in
          inr (sort_by_score (flat_map (candidate_of patterns) rows))
      end
  end.

Definition python_rules : list string :=
  ["1. Check for syntax errors (missing colons, parentheses)";
   "2. Verify indentation (use 4 spaces)";
   "3. Make sure variables are defined before use";
   "4. Check function names and arguments";
   "5. Use print() to debug variable values"].

Definition java_rules : list string :=
  ["1. Check for missing semicolons ;";
   "2. Verify braces {} are balanced";
   "3. Make sure class and method names match";
   "4. Check variable types";
   "5. Ensure proper imports"].

Definition javascript_rules : list string :=
  ["1. Check console for errors";
   "2. Verify variable declarations (let/const/var)";
   "3. Check function definitions and calls";
   "4. Look for undefined variables";
   "5. Check bracket/parenthesis matching"].

Definition c_rules : list string :=
  ["1. Check #include statements";
   "2. Verify semicolons after statements";
   "3. Check function prototypes";
   "4. Look for uninitialized variables";
   "5. Check pointer usage"].

Definition rules : gmap string (list string) :=
  list_to_map [("python", python_rules); ("java", java_rules);
               ("javascript", javascript_rules); ("c", c_rules)].

(** The advice [_generate_rule_based_hint] appends for a [sum] exercise
    left as [pass]. *)
Definition sum_advice (code : string) : string :=
  if Py.contains "sum" (Py.lower code) && Py.contains "pass" code
  then Py.nl ++ Py.nl ++ "For sum function: Implement the loop or use sum() function"
  else EmptyString.

(** [_generate_rule_based_hint]; it does not read [error]. *)
Definition _generate_rule_based_hint (error language code : string) : string :=
  let lang_rules := default python_rules (rules !! language) in
  "Debugging " ++ language ++ " code:" ++ Py.nl ++ Py.join Py.nl lang_rules ++ sum_advice code.

(** [f"{x:.0%}"] *)
Definition percent (x : Q) : string := pretty (round_half_even (x * 100)) ++ "%".

(** [_generate_pattern_based_hint] *)
Definition _generate_pattern_based_hint (student_code error : string)
    (similar_solutions : list Candidate) : string :=
  match similar_solutions with
  | [] => _generate_rule_based_hint error "python" student_code
  | best_match :: _ =>
      let error_lower := Py.lower error in
      let header :=
        "Found similar code pattern (" ++ percent (cand_score best_match) ++ " match):" in
      let related : list string :=
        if Py.is_empty (cand_hint best_match) then []
        else [Py.nl ++ "Related hint from similar code:";
              String Py.dquote (Py.take 200 (cand_hint best_match) ++ "...")
              ++ String Py.dquote EmptyString] in
      let hint_parts : list string :=
        ([header]
         ++ (if existsb (λ word, Py.contains word error_lower) ["syntax"; "invalid"]
             then ["• Check syntax: parentheses, brackets, colons";
                   "• Verify indentation is consistent"] else [])
         ++ (if Py.contains "not defined" error_lower || Py.contains "name" error_lower
             then ["• Check variable/function names for typos";
                   "• Make sure variables are declared before use"] else [])
         ++ (if Py.contains "index" error_lower
             then ["• Check array/list bounds";
                   "• Remember indices start at 0"] else [])
         ++ (if Py.contains "pass" student_code
             then ["• Replace 'pass' with actual implementation"] else [])
         ++ related)%list in
      Py.join Py.nl hint_parts
  end.

(** [_store_solution_patterns]: one more row at the end of the table; an
    exception of [sqlite3.connect] is caught and nothing is written. *)
Definition _store_solution_patterns (db : Database) (table : list Solution)
    (code error language : string) (task_id : option string) (hint : string)
    (patterns : list string) : list Solution :=
  match db_connect db with
  | Some _ => table
  | None =>
      table ++ [{| sol_id := S (List.length table);
                   sol_task_id := task_id;
                   sol_language := language;
                   sol_code := Py.take 1000 code;
                   sol_error_type := if Py.is_empty error then "no_error" else Py.take 100 error;
                   sol_hint := Py.take 500 hint;
                   sol_patterns := firstn 10 patterns |}]
  end.

(** [generate_hint], on a table: the outcome (an exception that leaves the
    function, or the dictionary) and the table afterwards. *)
Definition generate_hint (db : Database) (table : list Solution)
    (student_code error language : string) (task_id : option string)
    : (exn + HintResult) * list Solution :=
  let patterns := _extract_patterns student_code language in
  match _search_by_patterns db table patterns language task_id error with
  | inr similar =>
      let text := _generate_pattern_based_hint student_code error similar in
      let table' := _store_solution_patterns db table student_code error language
                                             task_id text patterns in
      (inr {| hint := text;
              hint_similarity_score :=
                match similar with
                | best :: _ => cand_score best
                | [] => 0%Q
                end;
              similar_solutions := firstn 2 similar;
              rag_used := true;
              patterns_found := Some (List.length patterns);
              hint_error := None |},
       table')
  | inl e =>
      (inr {| hint := _generate_rule_based_hint error language student_code;
              hint_similarity_score := 0%Q;
              similar_solutions := [];
              rag_used := false;
              patterns_found := None;
              hint_error := Some (exn_str e) |},
       table)
  end.

End RAGService.

(** ** [backend/services/code_executor.py]: local execution *)

Module CodeExecutor.

(** [p[:p.rfind('/') + 1]] *)
Fixpoint upto_last_slash (p : string) : string :=
  match p with
  | EmptyString => EmptyString
  | String c r =>
      let t := upto_last_slash r in
      if Py.is_empty t then (if Ascii.eqb c "/" then "/" else EmptyString)
      else String c t
  end.

Fixpoint all_slashes (p : string) : bool :=
  match p with
  | EmptyString => true
  | String c r => Ascii.eqb c "/" && all_slashes r
  end.

Fixpoint rstrip_slashes (p : string) : string :=
  match p with
  | EmptyString => EmptyString
  | String c r =>
      let r' := rstrip_slashes r in
      if Ascii.eqb c "/" && Py.is_empty r' then EmptyString else String c r'
  end.

(** [os.path.dirname] on a POSIX path. *)
Definition dirname (p : string) : string :=
  let head := upto_last_slash p in
  if negb (Py.is_empty head) && negb (all_slashes head) then rstrip_slashes head else head.

(** The dictionaries of [_execute_local]; [output] is absent from those
    built on a failure, and [execution_time], a reading of the clock, is
    left out. *)
Record LocalResult : Type := {
  local_success : bool;
  local_output : option string;
  local_error : string;
  local_sandboxed : bool
}.

Definition suffixes : gmap string string :=
  list_to_map [("python", ".py"); ("java", ".java"); ("javascript", ".js"); ("c", ".c")].

(** [_get_suffix] *)
Definition _get_suffix (language : string) : string := default ".txt" (suffixes !! language).

Definition local_failure (message : string) : LocalResult :=
  {| local_success := false; local_output := None; local_error := message;
     local_sandboxed := false |}.

Definition local_finished (result : CompletedProcess) : LocalResult :=
  let ok := (returncode result =? 0)%Z in
  {| local_success := ok;
     local_output := Some (stdout result);
     local_error := if ok then EmptyString else stderr result;
     local_sandboxed := false |}.

(** The body of the [try] of [_execute_local], after the temporary file is
    written.  A [gcc] that returns 0 has written its output file. *)
Definition run_local (h : Host) (code language temp_file : string) : IO LocalResult :=
  if String.eqb language "python" then
    result ← subprocess_run h ["python"; temp_file] code (Some 10);
    mret (local_finished result)
  else if String.eqb language "java" then
    compile_result ← subprocess_run h ["javac"; temp_file] code None;
    if negb (returncode compile_result =? 0)%Z
    then mret (local_failure (stderr compile_result))
    else
      result ← subprocess_run h ["java"; "-cp"; dirname temp_file; "Main"] code (Some 10);
      mret (local_finished result)
  else if String.eqb language "javascript" then
    result ← subprocess_run h ["node"; temp_file] code (Some 10);
    mret (local_finished result)
  else if String.eqb language "c" then
    compile_result ← subprocess_run h ["gcc"; temp_file; "-o"; temp_file ++ ".out"] code None;
    if negb (returncode compile_result =? 0)%Z
    then mret (local_failure (stderr compile_result))
    else
      creates (temp_file ++ ".out");;
      result ← subprocess_run h [temp_file ++ ".out"] code (Some 10);
      mret (local_finished result)
  else mret (local_failure ("Unsupported language: " ++ language)).

(** [if os.path.exists(p): os.unlink(p)] *)
Definition unlink_if_exists (p : string) : IO unit :=
  present ← os_path_exists p;
  if (present : bool) then os_unlink p else mret tt.

(** The [finally] clause of [_execute_local]: whatever it raises is
    swallowed. *)
Definition cleanup (language temp_file : string) : IO unit :=
  io_try
    (os_unlink temp_file;;
     if String.eqb language "java" then
       unlink_if_exists (Py.replace ".java" ".class" temp_file)
     else if String.eqb language "c" then
       unlink_if_exists (temp_file ++ ".out")
     else mret tt)
    (λ _, mret tt).

(** The two [except] clauses of [_execute_local]. *)
Definition local_handler (e : exn) : IO LocalResult :=
  match e with
  | TimeoutExpired => mret (local_failure "Execution timed out (10 seconds)")
  | _ => mret (local_failure (exn_str e))
  end.

(** [_execute_local].  The temporary file is written inside the [try]:
    when that raises, [temp_file] is not bound, so the [os.unlink] of the
    [finally] clause raises a [NameError], which is swallowed, and nothing
    is removed. *)
Definition _execute_local (h : Host) (code language : string) : IO LocalResult :=
  λ fs, match named_temporary_file h (_get_suffix language) code fs with
        | (inl e, fs') => local_handler e fs'
        | (inr temp_file, fs') =>
            io_finally (io_try (run_local h code language temp_file) local_handler)
                       (cleanup language temp_file) fs'
        end.

End CodeExecutor.

(** ** Hosts and tables used in the examples *)

Module Sample.

(** Temporary files are numbered by the count of the paths that exist. *)
Definition numbered (fs : gset string) (suffix : string) : string :=
  "/tmp/tmp" ++ pretty (size fs) ++ suffix.

(** A machine on which every program runs to its end and prints [42]. *)
Definition printing_host : Host :=
  {| mktemp := numbered;
     spawn := λ _ _ _, inr {| returncode := 0; stdout := "42" ++ Py.nl; stderr := EmptyString |};
     store := λ _, Written |}.


(** A machine on which no child process ends before its timeout. *)
Definition slow_host : Host :=
  {| mktemp := numbered; spawn := λ _ _ _, inl TimeoutExpired; store := λ _, Written |}.

(** Floats that take a score in the middle between two hundredths to the
    even one. *)
Definition ties_to_even : Floats :=
  {| rounds_up := λ x, Z.odd (Qfloor (x * 100)) |}.

(** A machine with no interpreter or compiler installed. *)
Definition bare_host : Host :=
  {| mktemp := numbered;
     spawn := λ argv _ _,
       inl (FileNotFoundError ("[Errno 2] No such file or directory: '" ++ hd EmptyString argv ++ "'"));
     store := λ _, Written |}.

(** The length of the longest common prefix of two strings. *)
Fixpoint common_prefix (a b : string) : nat :=
  match a, b with
  | String x a', String y b' => if Ascii.eqb x y then S (common_prefix a' b') else 0
  | _, _ => 0
  end.

(** [s[n:]] *)
Fixpoint drop (n : nat) (s : string) : string :=
  match n, s with
  | S k, String _ r => drop k r
  | _, _ => s
  end.

(** The matcher of [difflib.SequenceMatcher(None, a, b)] when [b] has
    fewer than 200 characters, so that no character is set aside as too
    frequent.

    [best_in a b j]: where in [b], counting from [j], the longest prefix of
    [a] is found and how long it is; of two as long, the first. *)
Fixpoint best_in (a b : string) (j : nat) : nat * nat :=
  match b with
  | EmptyString => (j, 0)
  | String _ b' =>
      let k := common_prefix a b in
      let '(j', k') := best_in a b' (S j) in
      if (k' <=? k)%nat then (j, k) else (j', k')
  end.

(** [longest_from a b i]: the longest block common to [a] and [b], with
    its starts in both (that in [a] counted from [i]); of two as long, the
    one that starts first in [a], then first in [b]. *)
Fixpoint longest_from (a b : string) (i : nat) : nat * nat * nat :=
  match a with
  | EmptyString => (i, 0, 0)
  | String _ a' =>
      let '(j, k) := best_in a b 0 in
      let '(i', j', k') := longest_from a' b (S i) in
      if (k' <=? k)%nat then (i, j, k) else (i', j', k')
  end.

(** [find_longest_match(0, len(a), 0, len(b))] *)
Definition find_longest_match (a b : string) : nat * nat * nat := longest_from a b 0.

(** The total size of [get_matching_blocks()]: the longest block, then the
    blocks to its left and to its right.  Each step shortens [a], so a fuel
    above its length is never used up. *)
Fixpoint matching (fuel : nat) (a b : string) : nat :=
  match fuel with
  | 0 => 0
  | S fuel' =>
      let '(i, j, k) := find_longest_match a b in
      if (k =? 0)%nat then 0
      else k + matching fuel' (Py.take i a) (Py.take j b)
             + matching fuel' (drop (i + k) a) (drop (j + k) b)
  end.

Definition sequence_matches (a b : string) : nat := matching (S (String.length a)) a b.

(** A database whose every query is satisfied by every row: it answers
    with the five newest rows, the newest first. *)
Definition whole_table : RAGService.Database :=
  {| RAGService.db_connect := None;
     RAGService.db_select := λ table _, Some (firstn 5 (rev table)) |}.

(** A database that cannot be opened. *)
Definition closed_database : RAGService.Database :=
  {| RAGService.db_connect := Some (Exception "unable to open database file");
     RAGService.db_select := λ _ _, None |}.

End Sample.

(** ** Reference definitions, worded as the specification words them

    They are compared below with the definitions taken from the code. *)

Module Spec.

(** [s.count(sub)] for a non-empty [sub]: the occurrences of [sub] in [s],
    counted from the left without overlap. *)
Fixpoint count_aux (sub : string) (skip : nat) (s : string) : nat :=
  match s with
  | EmptyString => 0
  | String c r =>
      match skip with
      | S k => count_aux sub k r
      | O =>
          if Py.startswith sub s then S (count_aux sub (String.length sub - 1) r)
          else count_aux sub 0 r
      end
  end.

Definition count (sub s : string) : nat := count_aux sub 0 s.

(** The structural keywords the specification lists. *)
Definition structural_keywords : list string :=
  ["def "; "if "; "for "; "while "; "return "; "import "; "class "].

(** "the number of occurrences of the fixed structural keywords" *)
Definition occurrences (code : string) : Z :=
  Z.of_nat (list_sum (map (λ k, count k code) structural_keywords)).

(** "1 − |count₁−count₂| / max(count₁,count₂,1), 1.0 when both counts are
    zero" on the numbers of occurrences. *)
Definition structural (code1 code2 : string) : Q :=
  let count1 := occurrences code1 in
  let count2 := occurrences code2 in
  if (count1 =? 0)%Z && (count2 =? 0)%Z then 1%Q
  else (1 - inject_Z (Z.abs (count1 - count2)) / inject_Z (Z.max (Z.max count1 count2) 1))%Q.

(** What is left of a text when its numeric tokens are taken out. *)
Fixpoint without_numbers_aux (st : Py.num_state) (s : string) : string :=
  match s with
  | EmptyString => EmptyString
  | String c r =>
      match st with
      | Py.NumOut =>
          if Py.isdigit c then without_numbers_aux Py.NumInt r
          else String c (without_numbers_aux Py.NumOut r)
      | Py.NumInt =>
          if Py.isdigit c then without_numbers_aux Py.NumInt r
          else if Ascii.eqb c "." then without_numbers_aux Py.NumFrac r
          else String c (without_numbers_aux Py.NumOut r)
      | Py.NumFrac =>
          if Py.isdigit c then without_numbers_aux Py.NumFrac r
          else String c (without_numbers_aux Py.NumOut r)
      end
  end.

Fixpoint all_spaces (s : string) : bool :=
  match s with
  | EmptyString => true
  | String c r => Py.isspace c && all_spaces r
  end.

(** "contains only numeric tokens": at least one, and nothing but white
    space between them. *)
Definition only_numeric (s : string) : bool :=
  negb (bool_decide (Py.findall_numbers s = []))
  && all_spaces (without_numbers_aux Py.NumOut s).

(** The output similarity as the specification words it. *)
Definition output_similarity (matches : string → string → nat) (output1 output2 : string) : Q :=
  if Py.is_empty output1 || Py.is_empty output2 then 0%Q
  else
    let clean1 := Py.lower (Py.strip output1) in
    let clean2 := Py.lower (Py.strip output2) in
    if String.eqb clean1 clean2 then 1%Q
    else if only_numeric clean1 && only_numeric clean2
            && bool_decide (Py.findall_numbers clean1 = Py.findall_numbers clean2)
    then (4 # 5)%Q
    else sequence_ratio matches clean1 clean2.

(** The priority list of the classifier: each rule is a test on the
    lower-cased text and the kind it gives. *)
Definition priority_list : list ((string → bool) * string) :=
  [ (λ e, Py.contains "indexerror" e || Py.contains "arrayindexoutofbounds" e, "IndexError");
    (Py.contains "syntaxerror", "SyntaxError");
    (λ e, Py.contains "nameerror" e || Py.contains "cannot find symbol" e, "NameError");
    (Py.contains "typeerror", "TypeError");
    (Py.contains "indentationerror", "IndentationError");
    (λ e, Py.contains "zerodivisionerror" e || Py.contains "divide by zero" e, "ZeroDivisionError");
    (Py.contains "keyerror", "KeyError");
    (Py.contains "attributeerror", "AttributeError");
    (Py.contains "valueerror", "ValueError");
    (Py.contains "timeout", "TimeoutError");
    (λ e, Py.contains "off by one" e || (Py.contains "index" e && Py.contains "range" e),
     "off_by_one");
    (λ e, Py.contains "missing return" e || Py.contains "does not return" e, "missing_return");
    (λ e, Py.contains "infinite loop" e || Py.contains "while true" e, "infinite_loop") ].

(** The kind of the first rule of a list that matches. *)
Fixpoint first_match (rules : list ((string → bool) * string)) (e : string) : option string :=
  match rules with
  | [] => None
  | (test, kind) :: rest => if test e then Some kind else first_match rest e
  end.

(** When no rule matches: the text before the first colon of the first
    line, or [RuntimeError]. *)
Definition unlisted_kind (error_message : string) : string :=
  let first_line := hd EmptyString (Py.split Py.nl (Py.strip error_message)) in
  if Py.contains ":" first_line then Py.split_head ":" first_line else "RuntimeError".

(** "ordered, case-insensitive substring search over a fixed priority
    list; the first match wins" *)
Definition classify (error_message : string) : string :=
  if Py.is_empty error_message then "UnknownError"
  else
    match first_match priority_list (Py.lower error_message) with
    | Some kind => kind
    | None => unlisted_kind error_message
    end.

End Spec.

(** ** More Python string primitives *)

Module PyMore.

(** [s.endswith(suffix)] *)
Definition endswith (suffix s : string) : bool :=
  let n := String.length suffix in
  let m := String.length s in
  (n <=? m)%nat && String.eqb (String.substring (m - n) n s) suffix.

(** [s.count(sub)] for a non-empty [sub]: the occurrences of [sub] in [s],
    counted from the left without overlap.  [skip] counts the characters of
    an occurrence still to be passed over. *)
Fixpoint count_aux (sub : string) (skip : nat) (s : string) : nat :=
  match s with
  | EmptyString => 0
  | String c r =>
      match skip with
      | S k => count_aux sub k r
      | O =>
          if Py.startswith sub s then S (count_aux sub (String.length sub - 1) r)
          else count_aux sub 0 r
      end
  end.

Definition count (sub s : string) : nat := count_aux sub 0 s.

(** [enumerate(l)] *)
Definition enumerate {A} (l : list A) : list (nat * A) := combine (seq 0 (List.length l)) l.

(** [os.path.join(a, b)] on POSIX for a non-empty [a] and a relative [b]. *)
Definition path_join (a b : string) : string :=
  if endswith "/" a then a ++ b else a ++ "/" ++ b.

(** [str(x)] for an optional string: [None] prints as [None]. *)
Definition str_of_option (x : option string) : string :=
  match x with
  | Some s => s
  | None => "None"
  end.

(** [x or default] for an optional string: [None] and the empty string
    give the default. *)
Definition or_default (x : option string) (default : string) : string :=
  match x with
  | Some s => if Py.is_empty s then default else s
  | None => default
  end.

End PyMore.

(** ** [backend/services/code_analyzer.py]: the class [CodeAnalyzer] *)

Module CodeAnalyzer.

(** The dictionary [analyze_code] returns. *)
Record Analysis : Type := {
  quality_score : Z;
  issues : list string;
  suggestions : list string
}.

(** [_analyze_python] *)
Definition _analyze_python (code : string) : list string :=
  (if Py.contains "pass" code && Py.contains "def " code
   then ["Function not implemented (using 'pass')"] else [])
  ++ (if Py.contains "range(1," code && Py.contains "len(" code
      then ["Possible off-by-one error in range()"] else [])
  ++ (if negb (Py.contains "print(" code) && negb (Py.contains "return " code)
      then ["No output or return statement"] else [])
  ++ flat_map
       (λ '(i, line),
          if Py.startswith "if " (Py.strip line) && negb (PyMore.endswith ":" (Py.rstrip line))
          then ["Missing colon in if statement (line " ++ pretty (i + 1)%nat ++ ")"]
          else [])
       (PyMore.enumerate (Py.split Py.nl code)).

(** [_analyze_java] *)
Definition _analyze_java (code : string) : list string :=
  (if negb (Py.contains "public static void main" code) then ["Missing main method"] else [])
  ++ (if negb (Py.contains "System.out.println" code)
      then ["No print statements for output"] else []).

(** [_analyze_javascript] *)
Definition _analyze_javascript (code : string) : list string :=
  if negb (Py.contains "console.log" code) then ["No console output"] else [].

(** [_analyze_c] *)
Definition _analyze_c (code : string) : list string :=
  if negb (Py.contains "#include <stdio.h>" code) && Py.contains "printf" code
  then ["Missing stdio.h include for printf"] else [].

(** [_calculate_quality_score] *)
Definition _calculate_quality_score (code : string) (issues : list string) : Z :=
  let score := 5%Z in
  let score := if Py.contains "#" code || Py.contains "//" code then (score + 1)%Z else score in
  let score := if (3 <? List.length (Py.split Py.nl (Py.strip code)))%nat
               then (score + 1)%Z else score in
  let score := if Py.contains "def " code || Py.contains "function " code
                  || Py.contains "public " code
               then (score + 2)%Z else score in
  let score := (score - Z.min (Z.of_nat (List.length issues)) 5)%Z in
  Z.max 0 (Z.min score 10).

(** The suggestion one issue brings in [_generate_suggestions], if any. *)
Definition issue_suggestion (issue : string) : list string :=
  if Py.contains "not implemented" (Py.lower issue)
  then ["Implement the function logic instead of using placeholder"]
  else if Py.contains "off-by-one" (Py.lower issue)
  then ["Check array indices - remember they start at 0"]
  else if Py.contains "no output" (Py.lower issue)
  then ["Add print/return statements to see results"]
  else [].

(** [_generate_suggestions] *)
Definition _generate_suggestions (issues : list string) (language : string) : list string :=
  flat_map issue_suggestion issues
  ++ (if String.eqb language "python"
      then ["Add docstrings to document your functions"; "Consider edge cases in your code"]
      else []).

(** The issues [analyze_code] collects for a language. *)
Definition language_issues (code language : string) : list string :=
  if String.eqb language "python" then _analyze_python code
  else if String.eqb language "java" then _analyze_java code
  else if String.eqb language "javascript" then _analyze_javascript code
  else if String.eqb language "c" then _analyze_c code
  else [].

(** [analyze_code] *)
Definition analyze_code (code language : string) : Analysis :=
  if Py.is_empty (Py.strip code) then
    {| quality_score := 0; issues := ["Empty code"]; suggestions := ["Write some code first"] |}
  else
    let issues := language_issues code language in
    {| quality_score := _calculate_quality_score code issues;
       issues := issues;
       suggestions := _generate_suggestions issues language |}.

(** [extract_elements] of [_calculate_logic_similarity] *)
Definition extract_elements (code language : string) : list string :=
  if String.eqb language "python" then
    ["funcs:" ++ pretty (PyMore.count "def " code);
     "loops:" ++ pretty (PyMore.count "for " code + PyMore.count "while " code)%nat;
     "conditionals:" ++ pretty (PyMore.count "if " code + PyMore.count "elif " code
                                + PyMore.count "else:" code)%nat;
     "returns:" ++ pretty (PyMore.count "return " code)]
  else if String.eqb language "java" then
    ["methods:" ++ pretty (PyMore.count "public " code + PyMore.count "private " code
                           + PyMore.count "protected " code)%nat;
     "loops:" ++ pretty (PyMore.count "for " code + PyMore.count "while " code)%nat;
     "conditionals:" ++ pretty (PyMore.count "if " code + PyMore.count "else " code)%nat;
     "returns:" ++ pretty (PyMore.count "return " code)]
  else [].

(** [_calculate_logic_similarity] *)
Definition _calculate_logic_similarity (code1 code2 language : string) : Q :=
  let elems1 := extract_elements code1 language in
  let elems2 := extract_elements code2 language in
  let matches := List.length (List.filter (λ e1, bool_decide (e1 ∈ elems2)) elems1) in
  let total := Nat.max (List.length elems1) (List.length elems2) in
  if (0 <? total)%nat then (inject_Z (Z.of_nat matches) / inject_Z (Z.of_nat total))%Q else 0%Q.

End CodeAnalyzer.

(** ** [backend/main.py]: issues and suggestions of a debug session *)

(** [analyze_code_issues] *)
Definition analyze_code_issues (code language : string) (execution_result : ExecResult)
    : list string :=
  (if String.eqb language "python" then
     let lines := Py.split Py.nl code in
     let has_print := existsb (Py.contains "print(") lines in
     let has_return := existsb (Py.contains "return ") lines in
     (if Py.contains "pass" code && Py.contains "def " code
      then ["Function contains 'pass' and may not be fully implemented"] else [])
     ++ (if Py.contains "range(1," code && Py.contains "len(" code
         then ["Potential off-by-one error in range() call"] else [])
     ++ (if has_print && negb has_return && Py.contains "def " code
         then ["Using print() instead of return in function"] else [])
     ++ (if Py.contains "while True:" code && negb (Py.contains "break" code)
         then ["Potential infinite loop (no break statement)"] else [])
   else [])
  ++ (if bool_decide (error_type execution_result = Some "IndexError")
      then ["Index out of bounds - check your array/list indices"] else []).

(** [generate_suggestions] *)
Definition generate_suggestions (execution_result : ExecResult) (language : string)
    : list string :=
  (if negb (success execution_result) then ["Fix the error before proceeding"] else [])
  ++ ["Add comments to explain your code"]
  ++ (if String.eqb language "python"
      then ["Consider edge cases (empty list, negative numbers)";
            "Write test cases for your function";
            "Check Python documentation for built-in functions"]
      else []).

(** What an execution returns: it succeeded exactly when it names no
    error and no error type. *)
Definition consistent (r : ExecResult) : Prop :=
  (success r = true ↔ error_type r = None) ∧ (success r = true ↔ error r = None).

(** ** [backend/main.py]: the database and the endpoints *)

Module Api.

(** A row of the table [hints]. *)
Record Hint : Type := {
  hint_error_type : string;
  hint_language : string;
  hint_level : Z;
  hint_text : string
}.

(** A row of the table [lab_tasks], without its key [id]. *)
Record LabTask : Type := {
  lt_title : string;
  lt_description : string;
  lt_language : string;
  lt_difficulty : string;
  lt_starter_code : string;
  lt_solution_code : string;
  lt_manual_code : string;
  lt_uploaded_by : string;
  lt_upload_time : nat
}.

(** A row of [debug_sessions] and a row of [manual_checks], without the
    row number and the time stamp the database adds. *)
Record DebugSession : Type := {
  ds_student_id : string;
  ds_task_id : string;
  ds_language : string;
  ds_error_type : option string;
  ds_success : bool;
  ds_hint_level : Z
}.

Record ManualCheck : Type := {
  mc_task_id : string;
  mc_student_id : string;
  mc_similarity_score : Q;
  mc_errors_found : nat;
  mc_grade : string
}.

(** The database [labta.db]: [lab_tasks] by its primary key, the other
    tables in the order of their rows. *)
Record Database : Type := {
  lab_tasks : gmap string LabTask;
  hints : list Hint;
  debug_sessions : list DebugSession;
  manual_checks : list ManualCheck
}.

(** What surrounds the endpoints: the machine and its floats; what the
    run of a submitted text leaves of the database, since the text runs
    unconfined beside [labta.db] and can rewrite it; the exception
    [sqlite3.connect] raises if it does; the clock of the database; the
    matcher of [difflib]; [hashlib.md5(...).hexdigest()]; and [str] of an
    [HTTPException], which depends on the version of the framework. *)
Record Server : Type := {
  machine : Host;
  arithmetic : Floats;
  left_by_child : string → Database → Database;
  connect_error : option exn;
  current_timestamp : nat;
  sequence_matcher : string → string → nat;
  md5_hexdigest : string → string;
  http_exception_str : nat → string → string
}.

(** How a call of an endpoint ends: with its dictionary, with an
    [HTTPException], or with another exception that leaves the function. *)
Inductive outcome (A : Type) : Type :=
| Returned (a : A)
| HTTPException (status_code : nat) (detail : string)
| Unhandled (e : exn).
Arguments Returned {A} a.
Arguments HTTPException {A} status_code detail.
Arguments Unhandled {A} e.

(** The rows [insert_sample_data] puts into [hints]. *)
Definition sample_hints : list Hint :=
  [ {| hint_error_type := "IndexError"; hint_language := "python"; hint_level := 1;
       hint_text := "Check your array indices. Python lists are 0-indexed." |};
    {| hint_error_type := "IndexError"; hint_language := "python"; hint_level := 2;
       hint_text := "You're trying to access index {index} but the list only has {length} elements." |};
    {| hint_error_type := "IndexError"; hint_language := "python"; hint_level := 3;
       hint_text := "Remember: Python lists start at index 0. The last element is at index len(list)-1." |};
    {| hint_error_type := "IndexError"; hint_language := "python"; hint_level := 4;
       hint_text := "Try changing 'range(1, len(numbers)+1)' to 'range(len(numbers))' or 'range(0, len(numbers))'." |};
    {| hint_error_type := "SyntaxError"; hint_language := "python"; hint_level := 1;
       hint_text := "Check for missing colons, parentheses, or quotes." |};
    {| hint_error_type := "NameError"; hint_language := "python"; hint_level := 1;
       hint_text := "A variable or function name is not defined." |};
    {| hint_error_type := "TypeError"; hint_language := "python"; hint_level := 1;
       hint_text := "Check if you're using the correct data types." |};
    {| hint_error_type := "off_by_one"; hint_language := "all"; hint_level := 1;
       hint_text := "Check your loop boundaries - you might be off by one." |};
    {| hint_error_type := "missing_return"; hint_language := "all"; hint_level := 1;
       hint_text := "Your function needs to return a value." |};
    {| hint_error_type := "infinite_loop"; hint_language := "all"; hint_level := 1;
       hint_text := "Your loop might run forever. Check your exit condition." |} ].

(** [error_type = ?] in a query: a parameter [None] is NULL and equals
    nothing. *)
Definition type_is (error_type : option string) (h : Hint) : bool :=
  match error_type with
  | Some t => String.eqb (hint_error_type h) t
  | None => false
  end.

(** [ORDER BY hint_level DESC LIMIT 1]: a row of the highest level, the
    first of them in the order of the table. *)
Fixpoint highest_level (rows : list Hint) : option Hint :=
  match rows with
  | [] => None
  | h :: rest =>
      match highest_level rest with
      | Some h' => if (hint_level h <? hint_level h')%Z then Some h' else Some h
      | None => Some h
      end
  end.

(** [default_hints.get(hint_level, "Review your code and try again.")] *)
Definition default_hint (error_type : option string) (hint_level : Z) : string :=
  let name := PyMore.str_of_option error_type in
  if (hint_level =? 1)%Z
  then "Error type: " ++ name ++ ". Review your code for common mistakes."
  else if (hint_level =? 2)%Z
  then "The error '" ++ name ++ "' occurred. Check your logic and variable usage."
  else if (hint_level =? 3)%Z
  then "Detailed analysis: The '" ++ name ++ "' suggests a problem with your implementation approach."
  else if (hint_level =? 4)%Z
  then "Let me help you fix this '" ++ name ++ "'. Try this approach: "
  else "Review your code and try again.".

(** The three queries of [get_hint], each read with [fetchone], taken to
    give the first row in the order of the table. *)
Definition hint_row (table : list Hint) (error_type : option string) (language : string)
    (level : Z) : option Hint :=
  match find (λ h, type_is error_type h && String.eqb (hint_language h) language
                   && (hint_level h =? level)%Z) table with
  | Some h => Some h
  | None =>
      match find (λ h, type_is error_type h && String.eqb (hint_language h) "all"
                       && (hint_level h =? level)%Z) table with
      | Some h => Some h
      | None =>
          highest_level
            (List.filter (λ h, type_is error_type h
                               && (String.eqb (hint_language h) language
                                   || String.eqb (hint_language h) "all")) table)
      end
  end.

(** An integer [sqlite3] can bind as a parameter: one of 64 bits. *)
Definition sqlite_integer (n : Z) : bool := (- 2 ^ 63 <=? n)%Z && (n <? 2 ^ 63)%Z.

(** The [OverflowError] of [cursor.execute] for any other integer. *)
Definition overflow_error : exn :=
  Exception "Python int too large to convert to SQLite INTEGER".

(** [get_hint]; the level is bound in the first query. *)
Definition get_hint (srv : Server) (db : Database) (error_type : option string)
    (language : string) (level : Z) : exn + string :=
  match connect_error srv with
  | Some e => inl e
  | None =>
      if negb (sqlite_integer level) then inl overflow_error
      else
        match hint_row (hints db) error_type language level with
        | Some h => inr (hint_text h)
        | None => inr (default_hint error_type level)
        end
  end.

(** [log_debug_session] *)
Definition log_debug_session (srv : Server) (db : Database) (student_id task_id language : string)
    (error_type : option string) (succeeded : bool) (level : Z) : exn + Database :=
  match connect_error srv with
  | Some e => inl e
  | None =>
      if negb (sqlite_integer level) then inl overflow_error
      else
        inr {| lab_tasks := lab_tasks db;
               hints := hints db;
               debug_sessions :=
                 debug_sessions db
                 ++ [{| ds_student_id := student_id; ds_task_id := task_id;
                        ds_language := language; ds_error_type := error_type;
                        ds_success := succeeded; ds_hint_level := level |}];
               manual_checks := manual_checks db |}
  end.

(** [DebugRequest] *)
Record DebugRequest : Type := {
  dr_code : string;
  dr_language : string;
  dr_task_id : string;
  dr_student_id : string;
  dr_hint_level : Z
}.

(** The two dictionaries [debug_code] returns. *)
Record UnsupportedReply : Type := {
  ur_success : bool;
  ur_error : string;
  ur_error_type : string;
  ur_output : string;
  ur_hint : string
}.

Record DebugReply : Type := {
  dbg_success : bool;
  dbg_output : string;
  dbg_error : option string;
  dbg_error_type : option string;
  dbg_hint : string;
  dbg_hint_level : Z;
  dbg_issues : list string;
  dbg_suggestions : list string;
  dbg_task_id : string;
  dbg_language : string
}.

Inductive DebugResponse : Type :=
| Unsupported (r : UnsupportedReply)
| Debugged (r : DebugReply).

(** What [debug_code] does once the code is executed. *)
Definition after_execution (srv : Server) (request : DebugRequest)
    (execution_result : ExecResult) (db : Database) : outcome DebugResponse * Database :=
  let kind := error_type execution_result in
  match get_hint srv db kind (dr_language request) (dr_hint_level request) with
  | inl e => (HTTPException 500 ("Debug error: " ++ exn_str e), db)
  | inr text =>
      let found := analyze_code_issues (dr_code request) (dr_language request) execution_result in
      let advice := generate_suggestions execution_result (dr_language request) in
      match log_debug_session srv db (dr_student_id request) (dr_task_id request)
              (dr_language request) kind (success execution_result) (dr_hint_level request) with
      | inl e => (HTTPException 500 ("Debug error: " ++ exn_str e), db)
      | inr db' =>
          (Returned (Debugged
             {| dbg_success := success execution_result;
                dbg_output := output execution_result;
                dbg_error := error execution_result;
                dbg_error_type := kind;
                dbg_hint := text;
                dbg_hint_level := dr_hint_level request;
                dbg_issues := found;
                dbg_suggestions := advice;
                dbg_task_id := dr_task_id request;
                dbg_language := dr_language request |}),
           db')
      end
  end.

(** The execution both [debug_code] and [execute_code] start with, when
    the language is one of the two they run. *)
Definition run_request (srv : Server) (code language : string) : option (IO ExecResult) :=
  if String.eqb language "python" then Some (execute_python_code (machine srv) code 5)
  else if String.eqb language "javascript"
  then Some (execute_javascript_code (machine srv) code 5)
  else None.

(** [debug_code]; what it reads and writes after the execution is the
    database as the run of the code left it. *)
Definition debug_code (srv : Server) (request : DebugRequest) (fs : gset string)
    (db : Database) : outcome DebugResponse * gset string * Database :=
  match run_request srv (dr_code request) (dr_language request) with
  | None =>
      (Returned (Unsupported
         {| ur_success := false;
            ur_error := "Language " ++ dr_language request ++ " not supported yet";
            ur_error_type := "UnsupportedLanguage";
            ur_output := EmptyString;
            ur_hint := dr_language request ++ " support is coming soon!" |}),
       fs, db)
  | Some run =>
      let left := left_by_child srv (dr_code request) db in
      match run fs with
      | (inl e, fs') => (HTTPException 500 ("Debug error: " ++ exn_str e), fs', left)
      | (inr execution_result, fs') =>
          let '(reply, db') := after_execution srv request execution_result left in
          (reply, fs', db')
      end
  end.

(** [execute_code] *)
Definition execute_code (srv : Server) (code language : string) (fs : gset string)
    : outcome ExecResult * gset string :=
  match run_request srv code language with
  | None =>
      (Returned {| success := false; output := EmptyString;
                   error := Some ("Language " ++ language ++ " not supported yet");
                   error_type := None; return_code := None |},
       fs)
  | Some run =>
      match run fs with
      | (inl e, fs') => (HTTPException 500 ("Execution error: " ++ exn_str e), fs')
      | (inr result, fs') => (Returned result, fs')
      end
  end.

(** What the two runs of [compare] leave of the database: for python the
    student's code runs, then the manual's; for another language nothing
    runs. *)
Definition left_by_runs (srv : Server) (student_code manual_code language : string)
    (db : Database) : Database :=
  if String.eqb language "python"
  then left_by_child srv manual_code (left_by_child srv student_code db)
  else db.

(** [manual_check_code], whose request carries the two code bodies, the
    language and the task; the row is written to the database as the two
    runs left it. *)
Definition manual_check_code (srv : Server) (student_code manual_code language task_id : string)
    (fs : gset string) (db : Database) : outcome CompareResult * gset string * Database :=
  if Py.is_empty (Py.strip manual_code)
  then (Returned (CompareError "Manual code is required for comparison"), fs, db)
  else
    let left := left_by_runs srv student_code manual_code language db in
    match ManualCodeChecker.compare (arithmetic srv) (machine srv) (sequence_matcher srv)
            student_code manual_code language fs with
    | (inl e, fs') => (HTTPException 500 ("Manual check error: " ++ exn_str e), fs', left)
    | (inr (CompareError message), fs') => (Returned (CompareError message), fs', left)
    | (inr (Report r), fs') =>
        match connect_error srv with
        | Some e => (HTTPException 500 ("Manual check error: " ++ exn_str e), fs', left)
        | None =>
            (Returned (Report r), fs',
             {| lab_tasks := lab_tasks left;
                hints := hints left;
                debug_sessions := debug_sessions left;
                manual_checks :=
                  manual_checks left
                  ++ [{| mc_task_id := task_id;
                         mc_student_id :=
                           "manual_check_" ++ Py.take 8 (md5_hexdigest srv student_code);
                         mc_similarity_score := similarity_score r;
                         mc_errors_found := List.length (errors r);
                         mc_grade := grade r |}] |})
        end
    end.

(** [UploadManualRequest] *)
Record UploadManualRequest : Type := {
  um_task_id : string;
  um_language : string;
  um_manual_code : string;
  um_title : option string;
  um_description : option string
}.

(** The dictionary [upload_manual_solution] returns. *)
Record UploadReply : Type := {
  up_message : string;
  up_task_id : string;
  up_title : option string;
  up_language : string;
  up_code_length : nat;
  up_code_preview : string
}.

(** [code[:200]], followed by three dots when the code is longer. *)
Definition preview (code : string) : string :=
  Py.take 200 code ++ (if (200 <? String.length code)%nat then "..." else EmptyString).

Definition with_tasks (db : Database) (tasks : gmap string LabTask) : Database :=
  {| lab_tasks := tasks; hints := hints db;
     debug_sessions := debug_sessions db; manual_checks := manual_checks db |}.

(** [upload_manual_solution].  The two [HTTPException] of status 400 are
    raised inside the [try], whose [except Exception] turns them into one
    of status 500. *)
Definition upload_manual_solution (srv : Server) (request : UploadManualRequest)
    (db : Database) : outcome UploadReply * Database :=
  if Py.is_empty (Py.strip (um_manual_code request))
  then (HTTPException 500
          ("Upload error: " ++ http_exception_str srv 400 "Manual code cannot be empty"), db)
  else if Py.is_empty (Py.strip (um_task_id request))
  then (HTTPException 500
          ("Upload error: " ++ http_exception_str srv 400 "Task ID cannot be empty"), db)
  else
    match connect_error srv with
    | Some e => (HTTPException 500 ("Upload error: " ++ exn_str e), db)
    | None =>
        let reply (shown : option string) :=
          {| up_message := "Manual solution uploaded for task '" ++ um_task_id request ++ "'";
             up_task_id := um_task_id request;
             up_title := shown;
             up_language := um_language request;
             up_code_length := String.length (um_manual_code request);
             up_code_preview := preview (um_manual_code request) |} in
        match lab_tasks db !! um_task_id request with
        | Some task =>
            let task' :=
              {| lt_title := default (lt_title task) (um_title request);
                 lt_description := default (lt_description task) (um_description request);
                 lt_language := um_language request;
                 lt_difficulty := lt_difficulty task;
                 lt_starter_code := lt_starter_code task;
                 lt_solution_code := lt_solution_code task;
                 lt_manual_code := um_manual_code request;
                 lt_uploaded_by := "user";
                 lt_upload_time := lt_upload_time task |} in
            (Returned (reply (um_title request)),
             with_tasks db (<[um_task_id request := task']> (lab_tasks db)))
        | None =>
            let task_title :=
              PyMore.or_default (um_title request) ("Custom Task - " ++ um_task_id request) in
            let task_description :=
              PyMore.or_default (um_description request)
                                "Custom manual solution uploaded by user" in
            let task' :=
              {| lt_title := task_title;
                 lt_description := task_description;
                 lt_language := um_language request;
                 lt_difficulty := "custom";
                 lt_starter_code := "# Add your starter code here";
                 lt_solution_code := "# Add your solution code here";
                 lt_manual_code := um_manual_code request;
                 lt_uploaded_by := "user";
                 lt_upload_time := current_timestamp srv |} in
            (Returned (reply (Some task_title)),
             with_tasks db (<[um_task_id request := task']> (lab_tasks db)))
        end
    end.

(** [delete_manual]: the [HTTPException] of status 404 is passed on by
    [except HTTPException: raise]. *)
Definition delete_manual (srv : Server) (task_id : string) (db : Database)
    : outcome string * Database :=
  match connect_error srv with
  | Some e => (HTTPException 500 ("Delete error: " ++ exn_str e), db)
  | None =>
      match lab_tasks db !! task_id with
      | Some task =>
          if String.eqb (lt_uploaded_by task) "user"
          then (Returned ("Manual '" ++ task_id ++ "' deleted successfully"),
                with_tasks db (delete task_id (lab_tasks db)))
          else (HTTPException 404
                  "Manual not found or cannot be deleted (only user uploads can be deleted)", db)
      | None =>
          (HTTPException 404
             "Manual not found or cannot be deleted (only user uploads can be deleted)", db)
      end
  end.

(** A sort by insertion that keeps equal rows in their order. *)
Fixpoint insert_by {A} (before : A → A → bool) (x : A) (l : list A) : list A :=
  match l with
  | [] => [x]
  | y :: l' => if before x y then x :: y :: l' else y :: insert_by before x l'
  end.

Definition sort_by {A} (before : A → A → bool) (l : list A) : list A :=
  fold_right (insert_by before) [] l.

(** One entry of the list [get_user_manuals] returns. *)
Record ManualEntry : Type := {
  me_id : string;
  me_title : string;
  me_description : string;
  me_language : string;
  me_code_preview : string;
  me_full_code : string;
  me_uploaded_at : nat;
  me_code_length : nat
}.

Definition manual_entry (row : string * LabTask) : ManualEntry :=
  {| me_id := fst row;
     me_title := lt_title (snd row);
     me_description := lt_description (snd row);
     me_language := lt_language (snd row);
     me_code_preview := preview (lt_manual_code (snd row));
     me_full_code := lt_manual_code (snd row);
     me_uploaded_at := lt_upload_time (snd row);
     me_code_length := String.length (lt_manual_code (snd row)) |}.

(** [get_user_manuals]: the rows of the users, the latest upload first;
    the database does not fix the order of two rows of one time. *)
Definition get_user_manuals (srv : Server) (db : Database) : outcome (list ManualEntry) :=
  match connect_error srv with
  | Some e => HTTPException 500 ("Error fetching manuals: " ++ exn_str e)
  | None =>
      let rows := List.filter (λ row, String.eqb (lt_uploaded_by (snd row)) "user")
                              (map_to_list (lab_tasks db)) in
      Returned (map manual_entry
                    (sort_by (λ x y, (lt_upload_time (snd y) <=? lt_upload_time (snd x))%nat) rows))
  end.

(** The dictionary under ["task"] that [get_lab_task] returns. *)
Record TaskReply : Type := {
  tr_id : string;
  tr_title : string;
  tr_description : string;
  tr_language : string;
  tr_difficulty : string;
  tr_starter_code : string;
  tr_solution_code : string;
  tr_manual_code : string;
  tr_uploaded_by : string;
  tr_is_custom : bool
}.

(** [get_lab_task]: it has no [try], so an exception of [sqlite3.connect]
    leaves it as it is. *)
Definition get_lab_task (srv : Server) (task_id : string) (db : Database) : outcome TaskReply :=
  match connect_error srv with
  | Some e => Unhandled e
  | None =>
      match lab_tasks db !! task_id with
      | None => HTTPException 404 "Task not found"
      | Some task =>
          Returned {| tr_id := task_id;
                      tr_title := lt_title task;
                      tr_description := lt_description task;
                      tr_language := lt_language task;
                      tr_difficulty := lt_difficulty task;
                      tr_starter_code := lt_starter_code task;
                      tr_solution_code := lt_solution_code task;
                      tr_manual_code := lt_manual_code task;
                      tr_uploaded_by := lt_uploaded_by task;
                      tr_is_custom := negb (String.eqb (lt_uploaded_by task) "system") |}
      end
  end.

(** One entry of the list [get_all_labs] returns. *)
Record LabEntry : Type := {
  lab_id : string;
  lab_title : string;
  lab_description : string;
  lab_language : string;
  lab_difficulty : string;
  lab_uploaded_by : string;
  lab_is_custom : bool
}.

Definition lab_entry (row : string * LabTask) : LabEntry :=
  {| lab_id := fst row;
     lab_title := lt_title (snd row);
     lab_description := lt_description (snd row);
     lab_language := lt_language (snd row);
     lab_difficulty := lt_difficulty (snd row);
     lab_uploaded_by := lt_uploaded_by (snd row);
     lab_is_custom := negb (String.eqb (lt_uploaded_by (snd row)) "system") |}.

(** [CASE WHEN uploaded_by = 'system' THEN 0 ELSE 1 END] *)
Definition origin (task : LabTask) : nat :=
  if String.eqb (lt_uploaded_by task) "system" then 0 else 1.

(** [ORDER BY] that origin, then [language], then [difficulty], the texts
    compared character by character. *)
Definition labs_before (x y : string * LabTask) : bool :=
  if (origin (snd x) <? origin (snd y))%nat then true
  else if (origin (snd y) <? origin (snd x))%nat then false
  else match String.compare (lt_language (snd x)) (lt_language (snd y)) with
       | Lt => true
       | Gt => false
       | Eq => String.leb (lt_difficulty (snd x)) (lt_difficulty (snd y))
       end.

(** [get_all_labs]: like [get_lab_task] it has no [try]. *)
Definition get_all_labs (srv : Server) (db : Database) : outcome (list LabEntry) :=
  match connect_error srv with
  | Some e => Unhandled e
  | None => Returned (map lab_entry (sort_by labs_before (map_to_list (lab_tasks db))))
  end.

End Api.

(** ** [backend/services/code_executor.py]: the sandbox and the choice of
    a backend *)

Module Sandbox.

(** What becomes of the [try] block of [_execute_docker], in which
    [docker_client.containers.run] is called with an image, a command and
    the code in the mounted directory: the decoded output of the container;
    a [docker.errors.ContainerError], with what
    [e.stderr.decode('utf-8')] gives, the text or the exception it raises
    when [stderr] is [None] or is not UTF-8; or another exception of the
    block. *)
Inductive container_outcome : Type :=
| ContainerOutput (text : string)
| ContainerError (stderr : exn + string)
| DockerException (message : string).

(** The client [docker.from_env()] gave, and the path
    [tempfile.TemporaryDirectory] picks given the existing paths. *)
Record Docker : Type := {
  containers_run : string → list string → string → container_outcome;
  mkdtemp : gset string → string
}.

(** The dictionaries [execute] returns, from either backend; a key that
    is absent is [None]. *)
Record ExecutionResult : Type := {
  er_success : bool;
  er_output : option string;
  er_error : option string;
  er_sandboxed : bool
}.

Definition image_map : gmap string string :=
  list_to_map [("python", "python:3.11-alpine"); ("java", "openjdk:17-alpine");
               ("javascript", "node:18-alpine"); ("c", "gcc:alpine")].

Definition extensions : gmap string string :=
  list_to_map [("python", "code.py"); ("java", "Main.java");
               ("javascript", "code.js"); ("c", "code.c")].

(** [_get_filename] *)
Definition _get_filename (language : string) : string := default "code.txt" (extensions !! language).

Definition commands : gmap string (list string) :=
  list_to_map
    [("python", ["python"; "/code/code.py"]);
     ("java", ["sh"; "-c"; "javac /code/Main.java && java -cp /code Main"]);
     ("javascript", ["node"; "/code/code.js"]);
     ("c", ["sh"; "-c"; "gcc /code/code.c -o /code/program && /code/program"])].

(** [_get_docker_command]; it does not read [code_file]. *)
Definition _get_docker_command (language code_file : string) : list string :=
  default ["echo"; "Unsupported language"] (commands !! language).

(** How [_execute_docker] ends for what became of the block: with a
    dictionary, or with the exception raised inside the handler of
    [ContainerError], which no other handler catches. *)
Definition container_result (o : container_outcome) : exn + ExecutionResult :=
  match o with
  | ContainerOutput text =>
      inr {| er_success := true; er_output := Some text; er_error := None;
             er_sandboxed := true |}
  | ContainerError (inr stderr) =>
      inr {| er_success := false; er_output := None; er_error := Some stderr;
             er_sandboxed := true |}
  | ContainerError (inl e) => inl e
  | DockerException message =>
      inr {| er_success := false; er_output := None;
             er_error := Some ("Docker execution failed: " ++ message);
             er_sandboxed := true |}
  end.

(** [_execute_docker]: the directory and the file in it exist while the
    container runs and are removed when the [with] block is left, however
    it is left. *)
Definition _execute_docker (d : Docker) (code language : string) : IO ExecutionResult :=
  λ fs,
    match image_map !! Py.lower language with
    | None =>
        (inr {| er_success := false; er_output := None;
                er_error := Some ("Unsupported language: " ++ language);
                er_sandboxed := false |}, fs)
    | Some image =>
        let tmpdir := mkdtemp d fs in
        let code_file := PyMore.path_join tmpdir (_get_filename language) in
        (container_result
           (containers_run d image (_get_docker_command language code_file) code),
         (fs ∖ {[tmpdir]}) ∖ {[code_file]})
    end.

(** The dictionary of [_execute_local] among those of [execute]. *)
Definition of_local (r : CodeExecutor.LocalResult) : ExecutionResult :=
  {| er_success := CodeExecutor.local_success r;
     er_output := CodeExecutor.local_output r;
     er_error := Some (CodeExecutor.local_error r);
     er_sandboxed := CodeExecutor.local_sandboxed r |}.

(** [execute]; [docker_client] is [None] when [docker.from_env()] failed. *)
Definition execute (docker_client : option Docker) (h : Host) (code language : string)
    (use_sandbox : bool) : IO ExecutionResult :=
  match use_sandbox, docker_client with
  | true, Some d => _execute_docker d code language
  | _, _ => λ fs, match CodeExecutor._execute_local h code language fs with
                  | (inr r, fs') => (inr (of_local r), fs')
                  | (inl e, fs') => (inl e, fs')
                  end
  end.

End Sandbox.

(** ** A server and a database used in the examples *)

Module SampleSite.

Import Api.

(** A server whose machine runs every program to its end, with a
    database that opens. *)
Definition server : Server :=
  {| machine := Sample.printing_host;
     arithmetic := Sample.ties_to_even;
     left_by_child := λ _ db, db;
     connect_error := None;
     current_timestamp := 7;
     sequence_matcher := Sample.sequence_matches;
     md5_hexdigest := λ _, "d41d8cd98f00b204e9800998ecf8427e";
     http_exception_str := λ status detail, pretty status ++ ": " ++ detail |}.

(** The same server when the database cannot be opened. *)
Definition offline : Server :=
  {| machine := Sample.printing_host;
     arithmetic := Sample.ties_to_even;
     left_by_child := λ _ db, db;
     connect_error := Some (Exception "unable to open database file");
     current_timestamp := 7;
     sequence_matcher := Sample.sequence_matches;
     md5_hexdigest := λ _, "d41d8cd98f00b204e9800998ecf8427e";
     http_exception_str := λ status detail, pretty status ++ ": " ++ detail |}.

(** A task as [insert_sample_data] stores them, uploaded by the system. *)
Definition system_task : LabTask :=
  {| lt_title := "Sum List Function";
     lt_description := "Write a function that sums all numbers in a list";
     lt_language := "python";
     lt_difficulty := "beginner";
     lt_starter_code := "def sum_list(numbers):" ++ Py.nl ++ "    pass";
     lt_solution_code := "def sum_list(numbers):" ++ Py.nl ++ "    return sum(numbers)";
     lt_manual_code := "def sum_list(numbers):" ++ Py.nl ++ "    return sum(numbers)";
     lt_uploaded_by := "system";
     lt_upload_time := 0 |}.

Definition database : Database :=
  {| lab_tasks := {[ "python_sum_list" := system_task ]};
     hints := sample_hints;
     debug_sessions := [];
     manual_checks := [] |}.

(** A solution a user uploaded under a name of their own. *)
Definition user_task : LabTask :=
  {| lt_title := "Custom Task - my_task";
     lt_description := "Custom manual solution uploaded by user";
     lt_language := "python";
     lt_difficulty := "custom";
     lt_starter_code := "# Add your starter code here";
     lt_solution_code := "# Add your solution code here";
     lt_manual_code := "print(6)";
     lt_uploaded_by := "user";
     lt_upload_time := 7 |}.

(** The database after that upload. *)
Definition uploaded : Database :=
  {| lab_tasks := <[ "my_task" := user_task ]> {[ "python_sum_list" := system_task ]};
     hints := sample_hints;
     debug_sessions := [];
     manual_checks := [] |}.

(** A docker client whose containers print what they are told to echo. *)
Definition docker : Sandbox.Docker :=
  {| Sandbox.containers_run := λ _ command _,
       Sandbox.ContainerOutput (Py.join " " (tl command) ++ Py.nl);
     Sandbox.mkdtemp := λ fs, Sample.numbered fs EmptyString |}.

End SampleSite.

(** * Properties *)

(** ** Lexical similarity *)

Section Lexical.

Import ManualCodeChecker.

(** A fraction of two sizes. *)
Lemma Qdiv_Z_bounds (i u : Z) :
  (0 ≤ i ≤ u)%Z → (0 < u)%Z → (0 <= inject_Z i / inject_Z u <= 1)%Q.
Proof.
  intros Hiu Hu.
  assert (Hpos : (0 < inject_Z u)%Q) by (unfold Qlt, inject_Z; simpl; lia).
  split.
  - apply Qle_shift_div_l; [exact Hpos|]. unfold Qle, inject_Z; simpl. lia.
  - apply Qle_shift_div_r; [exact Hpos|]. unfold Qle, inject_Z; simpl. lia.
Qed.

Lemma Qdiv_nat_bounds (i u : nat) :
  (i ≤ u)%nat → (0 < u)%nat →
  (0 <= inject_Z (Z.of_nat i) / inject_Z (Z.of_nat u) <= 1)%Q.
Proof. intros Hiu Hu. apply Qdiv_Z_bounds; lia. Qed.

Lemma Qdiv_nat_same (n : nat) :
  (0 < n)%nat → (inject_Z (Z.of_nat n) / inject_Z (Z.of_nat n) == 1)%Q.
Proof.
  intros Hn. apply Qmult_inv_r.
  change 0%Q with (inject_Z 0). rewrite inject_Z_injective. lia.
Qed.

Lemma size_list_to_set_cons (t : string) (ts : list string) :
  (0 < size (list_to_set (t :: ts) : gset string))%nat.
Proof.
  assert (Hne : size (list_to_set (t :: ts) : gset string) ≠ 0%nat).
  { apply size_non_empty_iff. intros Hempty.
    apply (not_elem_of_empty (C:=gset string) t). rewrite <- Hempty.
    apply elem_of_list_to_set. left. }
  lia.
Qed.

Lemma syntax_match_sym (a b : string) :
  _check_syntax_match a b = _check_syntax_match b a.
Proof.
  unfold _check_syntax_match.
  destruct (Py.findall_words (_normalize_code a)) as [|t1 ts1],
           (Py.findall_words (_normalize_code b)) as [|t2 ts2]; try reflexivity.
  cbv zeta.
  set (s1 := list_to_set (t1 :: ts1) : gset string).
  set (s2 := list_to_set (t2 :: ts2) : gset string).
  assert (Hi : s1 ∩ s2 = s2 ∩ s1) by apply intersection_comm_L.
  assert (Hu : s1 ∪ s2 = s2 ∪ s1) by apply union_comm_L.
  rewrite Hi, Hu. reflexivity.
Qed.

Lemma syntax_match_refl (a : string) :
  (_check_syntax_match a a ==
   match Py.findall_words (_normalize_code a) with [] => 0 | _ :: _ => 1 end)%Q.
Proof.
  unfold _check_syntax_match.
  destruct (Py.findall_words (_normalize_code a)) as [|t ts]; [reflexivity|].
  cbv zeta.
  set (s := list_to_set (t :: ts) : gset string).
  assert (Hi : s ∩ s = s) by apply intersection_idemp_L.
  assert (Hu : s ∪ s = s) by apply union_idemp_L.
  rewrite Hi, Hu.
  pose proof (size_list_to_set_cons t ts) as Hpos. fold s in Hpos.
  destruct (Nat.ltb_spec 0 (size s)) as [_|Hle]; [|lia].
  apply Qdiv_nat_same, Hpos.
Qed.

Lemma syntax_match_bounds (a b : string) :
  (0 <= _check_syntax_match a b <= 1)%Q.
Proof.
  unfold _check_syntax_match.
  destruct (Py.findall_words (_normalize_code a)) as [|t1 ts1],
           (Py.findall_words (_normalize_code b)) as [|t2 ts2]; try (split; apply Qle_bool_imp_le; reflexivity).
  cbv zeta.
  set (s1 := list_to_set (t1 :: ts1) : gset string).
  set (s2 := list_to_set (t2 :: ts2) : gset string).
  destruct (Nat.ltb_spec 0 (size (s1 ∪ s2))) as [Hpos|_];
    [|split; apply Qle_bool_imp_le; reflexivity].
  apply Qdiv_nat_bounds; [|exact Hpos].
  apply subseteq_size.
  etrans; [apply intersection_subseteq_l | apply union_subseteq_l].
Qed.

End Lexical.

(** ** Structural similarity *)

Section Structural.

Import ManualCodeChecker.

Lemma count_elements_range (elems : list string) (code : string) :
  (0 ≤ count_elements elems code ≤ Z.of_nat (List.length elems))%Z.
Proof.
  unfold count_elements. split; [lia|].
  apply Nat2Z.inj_le, List.filter_length_le.
Qed.

Lemma structure_match_formula (a b : string) :
  (_check_structure_match a b ==
   1 - inject_Z (Z.abs (count_elements elements a - count_elements elements b))
       / inject_Z (Z.max (Z.max (count_elements elements a) (count_elements elements b)) 1))%Q.
Proof.
  unfold _check_structure_match.
  destruct (Z.eqb_spec (count_elements elements a) 0) as [-> | Ha]; [|reflexivity].
  destruct (Z.eqb_spec (count_elements elements b) 0) as [-> | Hb]; reflexivity.
Qed.

Lemma structure_match_bounds (a b : string) :
  (0 <= _check_structure_match a b <= 1)%Q.
Proof.
  rewrite structure_match_formula.
  pose proof (count_elements_range elements a) as [Ha _].
  pose proof (count_elements_range elements b) as [Hb _].
  set (c1 := count_elements elements a) in *.
  set (c2 := count_elements elements b) in *.
  destruct (Qdiv_Z_bounds (Z.abs (c1 - c2)) (Z.max (Z.max c1 c2) 1)) as [H0 H1]; [lia | lia |].
  split; lra.
Qed.

Lemma structure_match_refl (a : string) :
  (_check_structure_match a a == 1)%Q.
Proof.
  rewrite structure_match_formula, Z.sub_diag. simpl Z.abs.
  unfold Qdiv. rewrite Qmult_0_l. reflexivity.
Qed.

End Structural.

(** ** The error classifier *)

Section Classifier.

Lemma classify_error_first_match (s : string) :
  classify_error s = Spec.classify s.
Proof.
  unfold classify_error, Spec.classify.
  destruct (Py.is_empty s); [reflexivity|].
  cbn [Spec.priority_list Spec.first_match].
  repeat match goal with
         | |- context [Py.contains ?p (Py.lower s)] =>
             destruct (Py.contains p (Py.lower s)); cbn [orb andb]; try reflexivity
         end.
  all: unfold Spec.unlisted_kind;
    destruct (Py.split Py.nl (Py.strip s)); reflexivity.
Qed.

Lemma classify_error_syntax (s : string) :
  Py.contains "syntaxerror" (Py.lower s) = true →
  Py.contains "indexerror" (Py.lower s) = false →
  Py.contains "arrayindexoutofbounds" (Py.lower s) = false →
  classify_error s = "SyntaxError".
Proof.
  intros Hs Hi Ha. unfold classify_error.
  destruct s as [|c s']; [discriminate Hs|].
  cbn [Py.is_empty]. rewrite Hi, Ha, Hs. reflexivity.
Qed.

End Classifier.

(** ** Output similarity *)

Lemma common_prefix_le (a b : string) :
  (Sample.common_prefix a b ≤ Nat.min (String.length a) (String.length b))%nat.
Proof.
  revert b. induction a as [|x a IH]; intros [|y b]; simpl; try lia.
  destruct (Ascii.eqb x y); [|lia].
  specialize (IH b). lia.
Qed.

Lemma take_length (n : nat) (s : string) : (String.length (Py.take n s) ≤ n)%nat.
Proof.
  revert s. induction n as [|n IH]; intros [|c s]; simpl; try lia.
  specialize (IH s). lia.
Qed.

Lemma drop_length (n : nat) (s : string) :
  String.length (Sample.drop n s) = (String.length s - n)%nat.
Proof.
  revert s. induction n as [|n IH]; intros [|c s]; simpl; try lia. apply IH.
Qed.

Lemma best_in_range (a b : string) (j : nat) :
  (j ≤ fst (Sample.best_in a b j))%nat
  ∧ (fst (Sample.best_in a b j) - j + snd (Sample.best_in a b j) ≤ String.length b)%nat
  ∧ (snd (Sample.best_in a b j) ≤ String.length a)%nat.
Proof.
  revert j. induction b as [|y b IH]; intros j; [simpl; lia|].
  cbn [Sample.best_in]. specialize (IH (S j)).
  destruct (Sample.best_in a b (S j)) as [j' k']. cbn [fst snd] in IH.
  pose proof (common_prefix_le a (String y b)) as Hk.
  destruct (k' <=? Sample.common_prefix a (String y b))%nat; cbn [fst snd String.length] in *; lia.
Qed.

Lemma longest_from_range (a b : string) (i : nat) :
  match Sample.longest_from a b i with
  | (i', j, k) => (i ≤ i')%nat ∧ (i' - i + k ≤ String.length a)%nat
                  ∧ (j + k ≤ String.length b)%nat
  end.
Proof.
  revert i. induction a as [|x a IH]; intros i; [simpl; lia|].
  cbn [Sample.longest_from]. specialize (IH (S i)).
  pose proof (best_in_range (String x a) b 0) as Hb.
  destruct (Sample.best_in (String x a) b 0) as [j k]. cbn [fst snd] in Hb.
  destruct (Sample.longest_from a b (S i)) as [[i' j'] k'].
  destruct (k' <=? k)%nat; cbn [String.length] in *; lia.
Qed.

Lemma matching_le (fuel : nat) (a b : string) :
  (Sample.matching fuel a b ≤ Nat.min (String.length a) (String.length b))%nat.
Proof.
  revert a b. induction fuel as [|fuel IH]; intros a b; [simpl; lia|].
  cbn [Sample.matching]. unfold Sample.find_longest_match.
  pose proof (longest_from_range a b 0) as Hr.
  destruct (Sample.longest_from a b 0) as [[i j] k].
  destruct (k =? 0)%nat; [lia|].
  pose proof (IH (Py.take i a) (Py.take j b)) as H1.
  pose proof (IH (Sample.drop (i + k) a) (Sample.drop (j + k) b)) as H2.
  pose proof (take_length i a). pose proof (take_length j b).
  rewrite !drop_length in H2. lia.
Qed.

Lemma sequence_matches_le (a b : string) :
  (Sample.sequence_matches a b ≤ Nat.min (String.length a) (String.length b))%nat.
Proof. apply matching_le. Qed.

Section Outputs.

Import ManualCodeChecker.

Variable matches : string → string → nat.

(** The matching blocks of [difflib] are disjoint pieces of both strings. *)
Hypothesis matches_le :
  ∀ a b, (matches a b ≤ Nat.min (String.length a) (String.length b))%nat.

Lemma sequence_ratio_bounds (a b : string) :
  (0 <= sequence_ratio matches a b <= 1)%Q.
Proof.
  unfold sequence_ratio.
  destruct (Nat.eqb_spec (String.length a + String.length b) 0) as [_|Hlen].
  - split; apply Qle_bool_imp_le; reflexivity.
  - specialize (matches_le a b). apply Qdiv_Z_bounds; lia.
Qed.

Lemma is_empty_true (s : string) : Py.is_empty s = true ↔ s = EmptyString.
Proof. destruct s; simpl; split; congruence. Qed.

Lemma is_empty_false (s : string) : Py.is_empty s = false ↔ s ≠ EmptyString.
Proof. destruct s; simpl; split; congruence. Qed.

Lemma compare_outputs_bounds (output1 output2 : string) :
  (0 <= _compare_outputs matches output1 output2 <= 1)%Q.
Proof.
  unfold _compare_outputs.
  repeat match goal with
         | |- context [if ?b then _ else _] => destruct b
         end;
    try (split; apply Qle_bool_imp_le; reflexivity).
  apply sequence_ratio_bounds.
Qed.

Lemma compare_outputs_empty (output1 output2 : string) :
  output1 = EmptyString ∨ output2 = EmptyString →
  (_compare_outputs matches output1 output2 == 0)%Q.
Proof.
  intros H. unfold _compare_outputs.
  destruct H as [-> | ->]; [reflexivity|].
  rewrite orb_true_r. reflexivity.
Qed.

Lemma compare_outputs_nonempty (output1 output2 : string) :
  output1 ≠ EmptyString → output2 ≠ EmptyString →
  _compare_outputs matches output1 output2 =
  let clean1 := Py.lower (Py.strip output1) in
  let clean2 := Py.lower (Py.strip output2) in
  if String.eqb clean1 clean2 then 1%Q
  else if negb (bool_decide (Py.findall_numbers clean1 = []))
          && negb (bool_decide (Py.findall_numbers clean2 = []))
          && bool_decide (Py.findall_numbers clean1 = Py.findall_numbers clean2)
       then (4 # 5)%Q
       else sequence_ratio matches clean1 clean2.
Proof.
  intros H1 H2. unfold _compare_outputs.
  apply is_empty_false in H1, H2. rewrite H1, H2. reflexivity.
Qed.

(** C4: the output similarity is 0.0 when either captured output is empty
    as captured; otherwise, on the trimmed and lower-cased outputs, 1.0
    when they are equal, 0.8 when they differ but both have a numeric token
    and the same sequence of numeric tokens (whatever else they contain),
    and else the sequence ratio; it always lies in [0,1]. *)
Theorem output_similarity_cases (output1 output2 : string) :
  let clean1 := Py.lower (Py.strip output1) in
  let clean2 := Py.lower (Py.strip output2) in
  let nums1 := Py.findall_numbers clean1 in
  let nums2 := Py.findall_numbers clean2 in
  let score := _compare_outputs matches output1 output2 in
  (0 <= score <= 1)%Q
  ∧ (output1 = EmptyString ∨ output2 = EmptyString → score == 0)%Q
  ∧ (output1 ≠ EmptyString → output2 ≠ EmptyString → clean1 = clean2 → score == 1)%Q
  ∧ (output1 ≠ EmptyString → output2 ≠ EmptyString → clean1 ≠ clean2 →
     nums1 ≠ [] → nums1 = nums2 → score == 4 # 5)%Q
  ∧ (output1 ≠ EmptyString → output2 ≠ EmptyString → clean1 ≠ clean2 →
     nums1 = [] ∨ nums1 ≠ nums2 →
     score == sequence_ratio matches clean1 clean2
     ∧ 0 <= sequence_ratio matches clean1 clean2 <= 1)%Q.
Proof.
  cbv zeta.
  split; [apply compare_outputs_bounds|].
  split; [apply compare_outputs_empty|].
  split; [|split].
  - intros H1 H2 Heq. rewrite (compare_outputs_nonempty _ _ H1 H2). cbv zeta.
    rewrite Heq, String.eqb_refl. reflexivity.
  - intros H1 H2 Hne Hnums Heq. rewrite (compare_outputs_nonempty _ _ H1 H2). cbv zeta.
    rewrite (proj2 (String.eqb_neq _ _) Hne).
    rewrite <- Heq. rewrite (bool_decide_eq_false_2 _ Hnums).
    rewrite bool_decide_eq_true_2 by reflexivity. reflexivity.
  - intros H1 H2 Hne Hnums. rewrite (compare_outputs_nonempty _ _ H1 H2). cbv zeta.
    rewrite (proj2 (String.eqb_neq _ _) Hne).
    split; [|apply sequence_ratio_bounds].
    destruct Hnums as [Hnil | Hdiff].
    + rewrite (bool_decide_eq_true_2 _ Hnil). reflexivity.
    + rewrite (bool_decide_eq_false_2 _ Hdiff), andb_false_r. reflexivity.
Qed.

End Outputs.

Section OutputExamples.

Import ManualCodeChecker.

(** C4 at two outputs with the same number, with the matcher of [difflib]. *)
Lemma output_similarity_cases_witness :
  let clean1 := Py.lower (Py.strip "Total: 6") in
  let clean2 := Py.lower (Py.strip "sum = 6") in
  let nums1 := Py.findall_numbers clean1 in
  let nums2 := Py.findall_numbers clean2 in
  let score := _compare_outputs Sample.sequence_matches "Total: 6" "sum = 6" in
  (0 <= score <= 1)%Q
  ∧ ("Total: 6" = EmptyString ∨ "sum = 6" = EmptyString → score == 0)%Q
  ∧ ("Total: 6" ≠ EmptyString → "sum = 6" ≠ EmptyString → clean1 = clean2 → score == 1)%Q
  ∧ ("Total: 6" ≠ EmptyString → "sum = 6" ≠ EmptyString → clean1 ≠ clean2 →
     nums1 ≠ [] → nums1 = nums2 → score == 4 # 5)%Q
  ∧ ("Total: 6" ≠ EmptyString → "sum = 6" ≠ EmptyString → clean1 ≠ clean2 →
     nums1 = [] ∨ nums1 ≠ nums2 →
     score == sequence_ratio Sample.sequence_matches clean1 clean2
     ∧ 0 <= sequence_ratio Sample.sequence_matches clean1 clean2 <= 1)%Q.
Proof.
  exact (output_similarity_cases Sample.sequence_matches sequence_matches_le "Total: 6" "sum = 6").
Defined.

(** C4, numeric tokens among other text: [a 5] and [b 5] do not contain
    only numeric tokens, yet their score is 0.8; their sequence ratio is
    2/3 with the matcher of [difflib], and no matcher makes the ratio of
    two strings of three characters 0.8. *)
Lemma output_similarity_counterexample :
  Spec.only_numeric "a 5" = false
  ∧ (sequence_ratio Sample.sequence_matches "a 5" "b 5" == 2 # 3)%Q
  ∧ ∀ matches : string → string → nat,
      (_compare_outputs matches "a 5" "b 5" == 4 # 5)%Q
      ∧ Spec.output_similarity matches "a 5" "b 5" = sequence_ratio matches "a 5" "b 5"
      ∧ ¬ (Spec.output_similarity matches "a 5" "b 5" == 4 # 5)%Q.
Proof.
  split; [reflexivity|]. split; [vm_compute; reflexivity|]. intros matches.
  split; [reflexivity|]. split; [reflexivity|].
  change (Spec.output_similarity matches "a 5" "b 5")
    with (inject_Z (2 * Z.of_nat (matches "a 5" "b 5")) / inject_Z 6)%Q.
  unfold Qeq, Qdiv, Qmult, Qinv, inject_Z. simpl Qnum. simpl Qden. lia.
Qed.

End OutputExamples.

(** ** Rounding and grades *)

Section Rounding.

Import ManualCodeChecker.

Lemma round_half_even_compat (x y : Q) :
  (x == y)%Q → round_half_even x = round_half_even y.
Proof.
  intros Hxy. unfold round_half_even.
  rewrite (Qfloor_comp x y Hxy).
  assert (Hc : (x - inject_Z (Qfloor y) ?= (1 # 2))%Q = (y - inject_Z (Qfloor y) ?= (1 # 2))%Q).
  { apply Qcompare_comp; [rewrite Hxy|]; reflexivity. }
  rewrite Hc. reflexivity.
Qed.

Lemma Qle_bool_compat (a b c d : Q) :
  (a == b)%Q → (c == d)%Q → Qle_bool a c = Qle_bool b d.
Proof.
  intros Hab Hcd. apply eq_true_iff_eq. rewrite !Qle_bool_iff, Hab, Hcd. reflexivity.
Qed.

Lemma round2_compat (fl : Floats) (x y : Q) : (x == y)%Q → (round2 fl x == round2 fl y)%Q.
Proof.
  intros Hxy. unfold round2.
  assert (H100 : (x * 100 == y * 100)%Q) by (rewrite Hxy; reflexivity).
  rewrite (Qfloor_comp _ _ H100), (Qred_complete x y Hxy).
  rewrite (Qle_bool_compat (x * 100 - inject_Z (Qfloor (y * 100)))
             (y * 100 - inject_Z (Qfloor (y * 100))) ((1 # 2) - tie_margin)
             ((1 # 2) - tie_margin)) by (rewrite ?H100; reflexivity).
  rewrite (Qle_bool_compat ((1 # 2) + tie_margin) ((1 # 2) + tie_margin)
             (x * 100 - inject_Z (Qfloor (y * 100)))
             (y * 100 - inject_Z (Qfloor (y * 100)))) by (rewrite ?H100; reflexivity).
  reflexivity.
Qed.

(** The part of a score above its hundredths, in hundredths. *)
Lemma hundredths_rest (x : Q) :
  (0 <= x * 100 - inject_Z (Qfloor (x * 100)) < 1)%Q.
Proof.
  pose proof (Qfloor_le (x * 100)) as Hlo. pose proof (Qlt_floor (x * 100)) as Hhi.
  rewrite inject_Z_plus in Hhi. change (inject_Z 1) with 1%Q in Hhi. split; lra.
Qed.


(** A score between two whole numbers of hundredths is rounded to a
    hundredth between them. *)
Lemma round2_between (fl : Floats) (x : Q) (n m : Z) :
  (inject_Z n <= x * 100 <= inject_Z m)%Q →
  (inject_Z n / 100 <= round2 fl x <= inject_Z m / 100)%Q.
Proof.
  intros [Hn Hm]. unfold round2. pose proof (hundredths_rest x) as [H0 H1].
  set (f := Qfloor (x * 100)) in *.
  assert (Hnf : (n ≤ f)%Z).
  { unfold f. rewrite <- (Qfloor_Z n). apply Qfloor_resp_le, Hn. }
  assert (Hfm : (f ≤ m)%Z).
  { unfold f. rewrite <- (Qfloor_Z m). apply Qfloor_resp_le, Hm. }
  assert (Hup : (0 < x * 100 - inject_Z f)%Q → (f + 1 ≤ m)%Z).
  { intros Hpos. assert (Hlt : (inject_Z f < inject_Z m)%Q) by lra.
    rewrite <- Zlt_Qlt in Hlt. lia. }
  assert (Hdiv : ∀ a b : Z, (a ≤ b)%Z → (inject_Z a / 100 <= inject_Z b / 100)%Q).
  { intros a b Hab. apply Qmult_le_compat_r; [|discriminate].
    rewrite <- Zle_Qle. exact Hab. }
  assert (Hm9 : (tie_margin == 1 # 1000000000)%Q) by reflexivity.
  destruct (Qle_bool (x * 100 - inject_Z f) ((1 # 2) - tie_margin)) eqn:Hlow.
  - split; apply Hdiv; lia.
  - assert (Hpos : (0 < x * 100 - inject_Z f)%Q).
    { apply Qnot_le_lt. intros H.
      assert (Hle : (x * 100 - inject_Z f <= (1 # 2) - tie_margin)%Q) by lra.
      apply Qle_bool_iff in Hle. congruence. }
    specialize (Hup Hpos).
    destruct (Qle_bool ((1 # 2) + tie_margin) (x * 100 - inject_Z f));
      [|destruct (rounds_up fl (Qred x))]; split; apply Hdiv; lia.
Qed.

Lemma round_half_even_le (x : Q) (n : Z) :
  (x <= inject_Z n)%Q → (round_half_even x ≤ n)%Z.
Proof.
  intros Hx. unfold round_half_even.
  pose proof (Qfloor_le x) as Hlo.
  assert (Hfn : (Qfloor x ≤ n)%Z).
  { rewrite Zle_Qle. eapply Qle_trans; eassumption. }
  destruct (Qcompare_spec (x - inject_Z (Qfloor x)) (1 # 2)) as [Heq | Hlt | Hgt].
  - assert (Hne : Qfloor x ≠ n).
    { intros E. rewrite E in *. lra. }
    destruct (Z.even (Qfloor x)); lia.
  - exact Hfn.
  - assert (Hne : Qfloor x ≠ n).
    { intros E. rewrite E in *. lra. }
    lia.
Qed.

Lemma round2_le_three_quarters (fl : Floats) (x : Q) :
  (x <= 3 # 4)%Q → (round2 fl x <= 3 # 4)%Q.
Proof.
  intros Hx.
  destruct (round2_between fl x (Qfloor (x * 100)) 75) as [_ H].
  - split; [apply Qfloor_le|]. change (inject_Z 75) with 75%Q. lra.
  - assert (E : (inject_Z 75 / 100 == 3 # 4)%Q) by reflexivity.
    rewrite E in H. exact H.
Qed.

Lemma calculate_grade_compat (x y : Q) :
  (x == y)%Q → _calculate_grade x = _calculate_grade y.
Proof.
  intros Hxy. unfold _calculate_grade, Qgeb.
  assert (Hb : ∀ c, Qle_bool c x = Qle_bool c y).
  { intros c. apply eq_true_iff_eq. rewrite !Qle_bool_iff, Hxy. reflexivity. }
  rewrite !Hb. reflexivity.
Qed.


Lemma calculate_grade_below_B (x : Q) :
  (x <= 3 # 4)%Q →
  _calculate_grade x = "C" ∨ _calculate_grade x = "D" ∨ _calculate_grade x = "F".
Proof.
  intros Hx. unfold _calculate_grade, Qgeb.
  destruct (Qle_bool (9 # 10) x) eqn:HA; [apply Qle_bool_iff in HA; lra|].
  destruct (Qle_bool (8 # 10) x) eqn:HB; [apply Qle_bool_iff in HB; lra|].
  destruct (Qle_bool (7 # 10) x); [tauto|].
  destruct (Qle_bool (6 # 10) x); tauto.
Qed.

End Rounding.

(** ** Logic indicators *)

Section Logic.

Import ManualCodeChecker.


Lemma logic_indicators_unlisted (language : string) :
  language ≠ "python" → language ≠ "javascript" → language ≠ "java" →
  logic_indicators !! language = None.
Proof.
  intros Hp Hjs Hj. unfold logic_indicators. cbn [list_to_map foldr fst snd uncurry].
  rewrite !lookup_insert_ne by congruence. apply lookup_empty.
Qed.

Lemma logic_step_nonneg (a b : string) (score : Q) (indicator : string) :
  (0 <= score)%Q → (0 <= logic_step a b score indicator)%Q.
Proof.
  intros H. unfold logic_step.
  repeat match goal with |- context [if ?c then _ else _] => destruct c end; lra.
Qed.

Lemma logic_fold_nonneg (a b : string) (indicators : list string) (score : Q) :
  (0 <= score)%Q → (0 <= fold_left (logic_step a b) indicators score)%Q.
Proof.
  revert score. induction indicators as [|i l IH]; intros score H; simpl; [exact H|].
  apply IH, logic_step_nonneg, H.
Qed.

Lemma logic_match_bounds (a b language : string) :
  (0 <= _check_logic_match a b language <= 1)%Q.
Proof.
  unfold _check_logic_match. split.
  - apply Q.min_glb; [|apply Qle_bool_imp_le; reflexivity].
    apply logic_fold_nonneg, Qle_refl.
  - apply Q.le_min_r.
Qed.





End Logic.

(** ** Execution *)

(** Unfolding of the monad of effects. *)
Ltac run_io :=
  unfold io_try, mbind, io_mbind, io_bind, mret, io_mret, io_ret,
    named_temporary_file, subprocess_run; cbv beta zeta.

Section Execution.

Lemma unlink_created (f : string) (fs : gset string) :
  os_unlink f ({[f]} ∪ fs) = (inr tt, ({[f]} ∪ fs) ∖ {[f]}).
Proof.
  unfold os_unlink.
  destruct (decide (f ∈ ({[f]} ∪ fs : gset string))) as [_|Hn]; [reflexivity|].
  exfalso. apply Hn, elem_of_union_l, elem_of_singleton. reflexivity.
Qed.

Lemma execute_python_code_run (h : Host) (code : string) (timeout : nat) (fs : gset string) :
  execute_python_code h code timeout fs =
  let f := mktemp h fs ".py" in
  match store h code with
  | Written =>
      let o := spawn h ["python"; f] code (Some timeout) in
      (inr (python_outcome timeout o),
       match o with
       | inr _ => ({[f]} ∪ fs) ∖ {[f]}
       | inl _ => {[f]} ∪ fs
       end)
  | NotCreated e => (inr (python_outcome timeout (inl e)), fs)
  | NotWritten e => (inr (python_outcome timeout (inl e)), {[f]} ∪ fs)
  end.
Proof.
  unfold execute_python_code. run_io.
  destruct (store h code) as [|e|e]; try (destruct e; reflexivity).
  destruct (spawn h ["python"; mktemp h fs ".py"] code (Some timeout)) as [e|result].
  - destruct e; reflexivity.
  - rewrite unlink_created. reflexivity.
Qed.

Lemma execute_javascript_code_run (h : Host) (code : string) (timeout : nat) (fs : gset string) :
  execute_javascript_code h code timeout fs =
  let f := mktemp h fs ".js" in
  match store h code with
  | Written =>
      let o := spawn h ["node"; f] code (Some timeout) in
      (inr (javascript_outcome timeout o),
       match o with
       | inr _ => ({[f]} ∪ fs) ∖ {[f]}
       | inl _ => {[f]} ∪ fs
       end)
  | NotCreated e => (inr (javascript_outcome timeout (inl e)), fs)
  | NotWritten e => (inr (javascript_outcome timeout (inl e)), {[f]} ∪ fs)
  end.
Proof.
  unfold execute_javascript_code. run_io.
  destruct (store h code) as [|e|e]; try (destruct e; reflexivity).
  destruct (spawn h ["node"; mktemp h fs ".js"] code (Some timeout)) as [e|result].
  - destruct e; reflexivity.
  - rewrite unlink_created. reflexivity.
Qed.

Lemma execute_python_code_returns (h : Host) (code : string) (timeout : nat)
    (fs : gset string) :
  ∃ r fs', execute_python_code h code timeout fs = (inr r, fs').
Proof.
  rewrite execute_python_code_run. cbv zeta.
  destruct (store h code); eexists _, _; reflexivity.
Qed.

End Execution.

(** ** The comparison as a whole *)

Section Compare.

Import ManualCodeChecker.

Lemma sum_scores_quarters (a b c d : Q) :
  (sum_scores [a * (1 # 4); b * (1 # 4); c * (1 # 4); d * (1 # 4)] == (a + b + c + d) / 4)%Q.
Proof. unfold sum_scores. cbn [fold_left]. field. Qed.

Lemma compare_report (fl : Floats) (h : Host) (matches : string → string → nat)
    (student_code manual_code language : string) (fs : gset string) :
  ∃ r, compare fl h matches student_code manual_code language fs
       = (inr (Report r), snd (executions h student_code manual_code language fs))
    ∧ (student_execution r, manual_execution r)
      = fst (executions h student_code manual_code language fs)
    ∧ syntax_match r = _check_syntax_match student_code manual_code
    ∧ structure_match r = _check_structure_match student_code manual_code
    ∧ logic_match r = _check_logic_match student_code manual_code language
    ∧ output_match r = _compare_outputs matches (output (student_execution r))
                                        (output (manual_execution r))
    ∧ (overall_score r ==
       round2 fl ((syntax_match r + structure_match r + logic_match r + output_match r) / 4))%Q
    ∧ grade r = _calculate_grade
                  ((syntax_match r + structure_match r + logic_match r + output_match r) / 4).
Proof.
  unfold compare, executions.
  destruct (String.eqb language "python").
  - unfold io_try, mbind, io_mbind, io_bind.
    destruct (execute_python_code_returns h student_code 5 fs) as (r1 & fs1 & ->).
    cbn [fst snd].
    destruct (execute_python_code_returns h manual_code 5 fs1) as (r2 & fs2 & ->).
    cbn [fst snd returned]. unfold mret, io_mret, io_ret.
    eexists. split; [reflexivity|]. cbn.
    repeat split; try reflexivity.
    + apply round2_compat, sum_scores_quarters.
    + apply calculate_grade_compat, sum_scores_quarters.
  - unfold io_try, mbind, io_mbind, io_bind, mret, io_mret, io_ret.
    eexists. split; [reflexivity|]. cbn.
    repeat split; try reflexivity.
    + apply round2_compat, sum_scores_quarters.
    + apply calculate_grade_compat, sum_scores_quarters.
Qed.

End Compare.

(** ** The settled properties of the grading engine *)

Section Grading.

Import ManualCodeChecker.


Lemma compare_host_irrelevant (fl : Floats) (h h' : Host) (matches : string → string → nat)
    (student_code manual_code language : string) (fs : gset string) :
  language ≠ "python" →
  compare fl h matches student_code manual_code language fs
  = compare fl h' matches student_code manual_code language fs.
Proof.
  intros Hl. apply String.eqb_neq in Hl.
  unfold compare. rewrite Hl. reflexivity.
Qed.

(** C6: the lexical similarity is symmetric; of a text with itself it is
    1.0 when the normalized text has at least one word token and 0.0 when it
    has none, so not for every non-empty text. *)
Theorem lexical_symmetric_reflexive (a b : string) :
  _check_syntax_match a b = _check_syntax_match b a
  ∧ (_check_syntax_match a a ==
     match Py.findall_words (_normalize_code a) with [] => 0 | _ :: _ => 1 end)%Q.
Proof. split; [apply syntax_match_sym | apply syntax_match_refl]. Qed.

(** C6, a text that is not empty and has no word token: the lexical
    similarity of [+] with itself is 0.0, not 1.0. *)
Lemma lexical_reflexive_counterexample :
  Py.is_empty "+" = false ∧ (_check_syntax_match "+" "+" == 0)%Q
  ∧ ¬ (_check_syntax_match "+" "+" == 1)%Q.
Proof. repeat split; vm_compute; congruence. Qed.

(** C5: the structural score is 1 − |count₁−count₂| / max(count₁,count₂,1)
    where a count is the number of the eight keywords ([def], [if], [for],
    [while], [return], [import], [from], [class], each followed by a space)
    that occur at least once in the body; it lies in [0,1] and is 1.0 for a
    body and itself. *)
Theorem structural_formula_bounds (a b : string) :
  let count1 := count_elements elements a in
  let count2 := count_elements elements b in
  (0 ≤ count1 ≤ 8)%Z
  ∧ (_check_structure_match a b ==
     1 - inject_Z (Z.abs (count1 - count2)) / inject_Z (Z.max (Z.max count1 count2) 1))%Q
  ∧ (0 <= _check_structure_match a b <= 1)%Q
  ∧ (_check_structure_match a a == 1)%Q.
Proof.
  cbv zeta. split; [apply (count_elements_range elements a)|].
  split; [apply structure_match_formula|].
  split; [apply structure_match_bounds | apply structure_match_refl].
Qed.

(** C5, presence against occurrences: two [if] in one body and one in the
    other count as one keyword each, so the score is 1.0 where the numbers
    of occurrences give 0.5. *)
Lemma structural_occurrences_counterexample :
  Spec.occurrences "if a: if b: c" = 2%Z ∧ Spec.occurrences "if a: c" = 1%Z
  ∧ (Spec.structural "if a: if b: c" "if a: c" == 1 # 2)%Q
  ∧ (_check_structure_match "if a: if b: c" "if a: c" == 1)%Q.
Proof. repeat split; vm_compute; reflexivity. Qed.

(** C2: a text that contains [syntaxerror] and neither [indexerror] nor
    [arrayindexoutofbounds], whatever its case and whether or not it
    mentions an index, is a SyntaxError; and the classifier is the first
    match in the priority list, on the lower-cased text. *)
Theorem classifier_priority (s : string) :
  Py.contains "syntaxerror" (Py.lower s) = true →
  Py.contains "indexerror" (Py.lower s) = false →
  Py.contains "arrayindexoutofbounds" (Py.lower s) = false →
  classify_error s = "SyntaxError" ∧ ∀ t, classify_error t = Spec.classify t.
Proof.
  intros Hs Hi Ha. split; [apply classify_error_syntax; assumption|].
  apply classify_error_first_match.
Qed.

(** C2 at a syntax error that mentions an index. *)
Lemma classifier_priority_witness :
  classify_error "SyntaxError: bad index in slice" = "SyntaxError"
  ∧ ∀ t, classify_error t = Spec.classify t.
Proof.
  apply (classifier_priority "SyntaxError: bad index in slice"); reflexivity.
Defined.

(** C2, the rule before SyntaxError: a text with [SyntaxError] and [index]
    in it is an IndexError when the index is that of [IndexError]. *)
Lemma classifier_priority_counterexample :
  Py.contains "syntaxerror" (Py.lower "SyntaxError raised while handling IndexError") = true
  ∧ Py.contains "index" (Py.lower "SyntaxError raised while handling IndexError") = true
  ∧ classify_error "SyntaxError raised while handling IndexError" = "IndexError".
Proof. repeat split; reflexivity. Qed.

(** C10: when the language is not python, [compare] runs nothing whatever
    the machine, both executions are the unsuccessful one with no output,
    the output score is 0.0, the overall score is at most 0.75 and the
    grade is C, D or F. *)
Theorem compare_other_language (fl : Floats) (matches : string → string → nat)
    (student_code manual_code language : string) (fs : gset string) :
  language ≠ "python" →
  ∃ r, (∀ h, compare fl h matches student_code manual_code language fs = (inr (Report r), fs))
    ∧ student_execution r = not_executed ∧ manual_execution r = not_executed
    ∧ success not_executed = false ∧ output not_executed = EmptyString
    ∧ (output_match r == 0)%Q
    ∧ ((syntax_match r + structure_match r + logic_match r + output_match r) / 4 <= 3 # 4)%Q
    ∧ (overall_score r <= 3 # 4)%Q
    ∧ (grade r = "C" ∨ grade r = "D" ∨ grade r = "F").
Proof.
  intros Hl.
  destruct (compare_report fl Sample.bare_host matches student_code manual_code language fs)
    as (r & Hrun & Hexec & Hsyn & Hstr & Hlog & Hout & Hall & Hgrade).
  unfold executions in Hrun, Hexec.
  rewrite (proj2 (String.eqb_neq _ _) Hl) in Hrun, Hexec.
  cbn [fst snd] in Hrun, Hexec. injection Hexec as Hs Hm.
  assert (Hzero : (output_match r == 0)%Q).
  { rewrite Hout, Hs, Hm. reflexivity. }
  assert (Hmean : ((syntax_match r + structure_match r + logic_match r + output_match r) / 4
                   <= 3 # 4)%Q).
  { pose proof (syntax_match_bounds student_code manual_code) as [_ H1].
    pose proof (structure_match_bounds student_code manual_code) as [_ H2].
    pose proof (logic_match_bounds student_code manual_code language) as [_ H3].
    rewrite <- Hsyn in H1. rewrite <- Hstr in H2. rewrite <- Hlog in H3.
    apply Qle_shift_div_r; [reflexivity|]. lra. }
  exists r. split.
  { intros h. rewrite <- Hrun. apply compare_host_irrelevant, Hl. }
  repeat split; try assumption; try reflexivity.
  - rewrite Hall. apply round2_le_three_quarters, Hmean.
  - rewrite Hgrade. apply calculate_grade_below_B, Hmean.
Qed.

(** C10 at a javascript pair. *)
Lemma compare_other_language_witness :
  ∃ r, (∀ h, compare Sample.ties_to_even h Sample.sequence_matches
                     "let x = 1;" "let x = 1;" "javascript" ∅
             = (inr (Report r), ∅))
    ∧ student_execution r = not_executed ∧ manual_execution r = not_executed
    ∧ success not_executed = false ∧ output not_executed = EmptyString
    ∧ (output_match r == 0)%Q
    ∧ ((syntax_match r + structure_match r + logic_match r + output_match r) / 4 <= 3 # 4)%Q
    ∧ (overall_score r <= 3 # 4)%Q
    ∧ (grade r = "C" ∨ grade r = "D" ∨ grade r = "F").
Proof.
  apply (compare_other_language Sample.ties_to_even Sample.sequence_matches
           "let x = 1;" "let x = 1;" "javascript" ∅).
  discriminate.
Defined.

End Grading.

Section Identical.

Import ManualCodeChecker.




End Identical.

(** ** Missing runtimes and temporary files *)

Section Runtime.

Lemma execute_python_code_total (h : Host) (code : string) (timeout : nat) (fs : gset string) :
  ∃ r, fst (execute_python_code h code timeout fs) = inr r.
Proof.
  destruct (execute_python_code_returns h code timeout fs) as (r & fs' & ->).
  exists r. reflexivity.
Qed.

Lemma execute_javascript_code_total (h : Host) (code : string) (timeout : nat)
    (fs : gset string) :
  ∃ r, fst (execute_javascript_code h code timeout fs) = inr r.
Proof.
  rewrite execute_javascript_code_run. cbv zeta.
  destruct (store h code); eexists; reflexivity.
Qed.

(** Without the interpreter, python code is an ExecutionError and
    javascript code is RuntimeMissing. *)
Lemma execute_python_code_missing (h : Host) (code : string) (timeout : nat)
    (fs : gset string) (msg : string) :
  store h code = Written →
  spawn h ["python"; mktemp h fs ".py"] code (Some timeout) = inl (FileNotFoundError msg) →
  fst (execute_python_code h code timeout fs) = inr (failed msg "ExecutionError").
Proof.
  intros Hw H. rewrite execute_python_code_run. cbv zeta. rewrite Hw, H. reflexivity.
Qed.

Lemma execute_javascript_code_missing (h : Host) (code : string) (timeout : nat)
    (fs : gset string) (msg : string) :
  store h code = Written →
  spawn h ["node"; mktemp h fs ".js"] code (Some timeout) = inl (FileNotFoundError msg) →
  fst (execute_javascript_code h code timeout fs)
  = inr (failed "Node.js is not installed. Please install Node.js to run JavaScript code."
                "RuntimeMissing").
Proof.
  intros Hw H. rewrite execute_javascript_code_run. cbv zeta. rewrite Hw, H. reflexivity.
Qed.

(** The temporary file of [execute_python_code], once written, is removed
    when the child process ends, and stays when [subprocess.run] raises. *)
Lemma execute_python_code_files (h : Host) (code : string) (timeout : nat) (fs : gset string) :
  store h code = Written →
  let f := mktemp h fs ".py" in
  match spawn h ["python"; f] code (Some timeout) with
  | inr _ => f ∉ snd (execute_python_code h code timeout fs)
  | inl _ => f ∈ snd (execute_python_code h code timeout fs)
  end.
Proof.
  intros Hw. rewrite execute_python_code_run. cbv zeta. rewrite Hw.
  destruct (spawn h _ code (Some timeout)); cbn [snd].
  - apply elem_of_union_l, elem_of_singleton. reflexivity.
  - intros Hin. apply elem_of_difference in Hin as [_ Hn].
    apply Hn, elem_of_singleton. reflexivity.
Qed.

Import CodeExecutor.

Lemma unlink_if_exists_run (p : string) (fs : gset string) :
  ∃ fs', unlink_if_exists p fs = (inr tt, fs') ∧ fs' ⊆ fs.
Proof.
  unfold unlink_if_exists, os_path_exists, os_unlink. run_io.
  destruct (bool_decide_reflect (p ∈ fs)) as [Hin|Hout].
  - destruct (decide (p ∈ fs)) as [_|Hn]; [|contradiction].
    eexists. split; [reflexivity|]. apply subseteq_difference_l. reflexivity.
  - eexists. split; reflexivity.
Qed.

Lemma cleanup_removes (language f : string) (fs : gset string) :
  f ∈ fs → ∃ fs', cleanup language f fs = (inr tt, fs') ∧ (f ∉ fs') ∧ (fs' ⊆ fs).
Proof.
  intros Hin. unfold cleanup. unfold io_try, mbind, io_mbind, io_bind.
  unfold os_unlink at 1. destruct (decide (f ∈ fs)) as [_|Hn]; [|contradiction].
  assert (Hgone : f ∉ (fs ∖ {[f]} : gset string)).
  { intros H. apply elem_of_difference in H as [_ H]. apply H, elem_of_singleton. reflexivity. }
  assert (Hsub : (fs ∖ {[f]} : gset string) ⊆ fs) by (apply subseteq_difference_l; reflexivity).
  destruct (String.eqb language "java");
    [|destruct (String.eqb language "c")].
  - destruct (unlink_if_exists_run (Py.replace ".java" ".class" f) (fs ∖ {[f]}))
      as (fs' & -> & Hs).
    exists fs'. repeat split; [|etrans; eassumption].
    intros H. apply Hgone, Hs, H.
  - destruct (unlink_if_exists_run (f ++ ".out") (fs ∖ {[f]})) as (fs' & -> & Hs).
    exists fs'. repeat split; [|etrans; eassumption].
    intros H. apply Hgone, Hs, H.
  - eexists. split; [reflexivity|]. split; assumption.
Qed.

Lemma run_local_keeps (h : Host) (code language f : string) (fs : gset string) :
  fs ⊆ snd (run_local h code language f fs).
Proof.
  unfold run_local.
  repeat match goal with
         | |- context [if String.eqb ?a ?b then _ else _] => destruct (String.eqb a b)
         end;
    unfold subprocess_run, creates; run_io;
    repeat match goal with
           | |- context [spawn h ?argv code ?t] => destruct (spawn h argv code t) as [?|[? ? ?]]
           | |- context [(?rc =? 0)%Z] => destruct (rc =? 0)%Z
           | |- _ => progress cbn [snd negb returncode]
           end;
    try reflexivity; apply union_subseteq_r.
Qed.

Lemma local_handler_run (e : exn) (fs : gset string) :
  ∃ r, local_handler e fs = (inr r, fs)
       ∧ local_success r = false ∧ local_sandboxed r = false.
Proof. destruct e; eexists; repeat split. Qed.


End Runtime.

(** ** Hints *)

Section Hints.

Import RAGService.

Lemma rule_based_hint_ignores_error (error error' language code : string) :
  _generate_rule_based_hint error language code
  = _generate_rule_based_hint error' language code.
Proof. reflexivity. Qed.

(** [generate_hint] never raises. *)
Lemma generate_hint_total (db : Database) (table : list Solution)
    (student_code error language : string) (task_id : option string) :
  ∃ r, fst (generate_hint db table student_code error language task_id) = inr r.
Proof.
  unfold generate_hint.
  destruct (_search_by_patterns db table _ language task_id error); eexists; reflexivity.
Qed.

(** When a step fails the hint is the checklist of the language. *)
Lemma generate_hint_on_failure (db : Database) (table : list Solution)
    (student_code error language : string) (task_id : option string) (e : exn) :
  db_connect db = Some e →
  ∃ r, generate_hint db table student_code error language task_id = (inr r, table)
       ∧ hint r = _generate_rule_based_hint error language student_code
       ∧ rag_used r = false.
Proof.
  intros He. unfold generate_hint, _search_by_patterns. rewrite He.
  eexists. repeat split.
Qed.

(** When no candidate is found the hint is the checklist of python,
    whatever the language. *)
Lemma generate_hint_no_candidate (db : Database) (table : list Solution)
    (student_code error language : string) (task_id : option string) :
  _search_by_patterns db table (_extract_patterns student_code language) language task_id error
  = inr [] →
  ∃ r, fst (generate_hint db table student_code error language task_id) = inr r
       ∧ hint r = _generate_rule_based_hint error "python" student_code
       ∧ rag_used r = true.
Proof.
  intros Hs. unfold generate_hint. rewrite Hs.
  eexists. repeat split.
Qed.

End Hints.

(** ** Pattern scores and the ranking of candidates *)

Section Patterns.

Import RAGService.

Lemma pattern_weight_le (code pattern : string) : (pattern_weight code pattern ≤ 2)%nat.
Proof.
  unfold pattern_weight.
  repeat match goal with
         | |- context [if ?b then _ else _] => destruct b
         | |- context [match ?o with Some _ => _ | None => _ end] => destruct o as [[? ?]|]
         end; lia.
Qed.

Lemma fold_weights (code : string) (patterns : list string) (acc : nat) :
  fold_left (λ matches pattern, matches + pattern_weight code pattern) patterns acc
  = (acc + list_sum (map (pattern_weight code) patterns))%nat.
Proof.
  revert acc. induction patterns as [|p l IH]; intros acc; simpl; [lia|].
  rewrite IH. lia.
Qed.

Lemma sum_weights_le (code : string) (patterns : list string) :
  (list_sum (map (pattern_weight code) patterns) ≤ 2 * List.length patterns)%nat.
Proof.
  induction patterns as [|p l IH]; simpl; [lia|].
  pose proof (pattern_weight_le code p). lia.
Qed.

Lemma pattern_score_formula (patterns : list string) (code : string) :
  patterns ≠ [] →
  _calculate_pattern_match_score patterns code
  = (inject_Z (Z.of_nat (list_sum (map (pattern_weight code) patterns)))
     / inject_Z (Z.of_nat (List.length patterns)))%Q.
Proof.
  intros Hne. unfold _calculate_pattern_match_score.
  destruct patterns as [|p l]; [contradiction|].
  rewrite fold_weights. reflexivity.
Qed.

Lemma pattern_score_bounds (patterns : list string) (code : string) :
  (0 <= _calculate_pattern_match_score patterns code <= 2)%Q.
Proof.
  destruct patterns as [|p l].
  - split; apply Qle_bool_imp_le; reflexivity.
  - rewrite pattern_score_formula by discriminate.
    pose proof (sum_weights_le code (p :: l)) as Hle.
    assert (Hn : (0 < List.length (p :: l))%nat) by (simpl; lia).
    set (n := List.length (p :: l)) in *.
    set (m := list_sum (map (pattern_weight code) (p :: l))) in *.
    assert (Hpos : (0 < inject_Z (Z.of_nat n))%Q).
    { change 0%Q with (inject_Z 0). rewrite <- Zlt_Qlt. lia. }
    split.
    + apply Qle_shift_div_l; [exact Hpos|].
      rewrite Qmult_0_l. change 0%Q with (inject_Z 0). rewrite <- Zle_Qle. lia.
    + apply Qle_shift_div_r; [exact Hpos|].
      change 2%Q with (inject_Z 2). rewrite <- inject_Z_mult, <- Zle_Qle. lia.
Qed.


Lemma insert_by_score_perm (c : Candidate) (l : list Candidate) :
  insert_by_score c l ≡ₚ c :: l.
Proof.
  induction l as [|d l IH]; simpl; [reflexivity|].
  destruct (Qle_bool (cand_score d) (cand_score c)); [reflexivity|].
  rewrite IH. apply Permutation_swap.
Qed.

Lemma sort_by_score_perm (l : list Candidate) : sort_by_score l ≡ₚ l.
Proof.
  induction l as [|c l IH]; simpl; [reflexivity|].
  rewrite insert_by_score_perm, IH. reflexivity.
Qed.

Lemma insert_by_score_ranked (c : Candidate) (l : list Candidate) :
  ranked l → ranked (insert_by_score c l).
Proof.
  unfold ranked. induction 1 as [|d l Hl IH Hd]; simpl.
  - repeat constructor.
  - destruct (Qle_bool (cand_score d) (cand_score c)) eqn:Hle.
    + apply Qle_bool_iff in Hle.
      constructor; [constructor; assumption|].
      constructor; [exact Hle|].
      eapply Forall_impl; [exact Hd|]. cbn. intros y Hy. lra.
    + assert (Hlt : (cand_score c <= cand_score d)%Q).
      { destruct (Qlt_le_dec (cand_score c) (cand_score d)) as [H|H]; [lra|].
        apply Qle_bool_iff in H. congruence. }
      constructor; [exact IH|].
      rewrite insert_by_score_perm. constructor; assumption.
Qed.

Lemma sort_by_score_ranked (l : list Candidate) : ranked (sort_by_score l).
Proof.
  induction l as [|c l IH]; simpl; [constructor|].
  apply insert_by_score_ranked, IH.
Qed.

Lemma candidate_of_elem (patterns : list string) (row : Solution) (x : Candidate) :
  x ∈ candidate_of patterns row ↔
  (1 # 10 < _calculate_pattern_match_score patterns (sol_code row))%Q
  ∧ x = {| cand_id := sol_id row;
           cand_task_id := sol_task_id row;
           cand_code := if (200 <? String.length (sol_code row))%nat
                        then Py.take 200 (sol_code row) ++ "..." else sol_code row;
           cand_error_type := sol_error_type row;
           cand_hint := sol_hint row;
           cand_score := _calculate_pattern_match_score patterns (sol_code row) |}.
Proof.
  unfold candidate_of, Qltb.
  destruct (Qle_bool (_calculate_pattern_match_score patterns (sol_code row)) (1 # 10)) eqn:Hle;
    cbn [negb].
  - apply Qle_bool_iff in Hle. split.
    + intros H. apply elem_of_nil in H. contradiction.
    + intros [H _]. lra.
  - assert (Hlt : (1 # 10 < _calculate_pattern_match_score patterns (sol_code row))%Q).
    { destruct (Qlt_le_dec (1 # 10) (_calculate_pattern_match_score patterns (sol_code row)))
        as [H|H]; [exact H|]. apply Qle_bool_iff in H. congruence. }
    rewrite list_elem_of_singleton. tauto.
Qed.

End Patterns.

Section RoundTrip.

Import RAGService.

Lemma elem_of_candidates (patterns : list string) (rows : list Solution) (x : Candidate) :
  x ∈ sort_by_score (flat_map (candidate_of patterns) rows) ↔
  ∃ row, row ∈ rows ∧ x ∈ candidate_of patterns row.
Proof.
  rewrite sort_by_score_perm, list_elem_of_In, in_flat_map.
  split; intros (row & Hrow & Hx); exists row; split;
    apply list_elem_of_In; assumption.
Qed.



End RoundTrip.

Section FailingInputs.

Import RAGService.

(** C7: on a machine with no interpreter installed, python code is
    reported as ExecutionError, where javascript code is reported as
    RuntimeMissing; neither call raises. *)
Theorem missing_python_is_execution_error :
  fst (execute_python_code Sample.bare_host "print(1)" 5 ∅)
  = inr (failed "[Errno 2] No such file or directory: 'python'" "ExecutionError")
  ∧ fst (execute_javascript_code Sample.bare_host "console.log(1)" 5 ∅)
    = inr (failed "Node.js is not installed. Please install Node.js to run JavaScript code."
                  "RuntimeMissing").
Proof. split; vm_compute; reflexivity. Qed.

(** C9: when the child process of [execute_python_code] times out, the
    temporary file is still there afterwards, where [_execute_local]
    leaves none. *)
Theorem python_timeout_leaves_temporary_file :
  fst (execute_python_code Sample.slow_host "while True: pass" 5 ∅) = inr (timed_out 5)
  ∧ elements (snd (execute_python_code Sample.slow_host "while True: pass" 5 ∅))
    = ["/tmp/tmp0.py"]
  ∧ elements (snd (CodeExecutor._execute_local Sample.slow_host "while True: pass" "python" ∅))
    = [].
Proof. repeat split; vm_compute; reflexivity. Qed.

(** C8: with no candidate for a java submission, the hint is the
    checklist of python, not the one of java; when the database cannot be
    opened it is the one of java. *)
Theorem java_fallback_is_python_checklist :
  ∃ r r',
    fst (generate_hint Sample.whole_table [] "int x = 1;" EmptyString "java" None) = inr r
    ∧ similar_solutions r = []
    ∧ hint r = _generate_rule_based_hint EmptyString "python" "int x = 1;"
    ∧ hint r ≠ _generate_rule_based_hint EmptyString "java" "int x = 1;"
    ∧ fst (generate_hint Sample.closed_database [] "int x = 1;" EmptyString "java" None) = inr r'
    ∧ hint r' = _generate_rule_based_hint EmptyString "java" "int x = 1;".
Proof.
  eexists _, _. split; [vm_compute; reflexivity|].
  split; [reflexivity|]. split; [vm_compute; reflexivity|].
  split; [vm_compute; discriminate|].
  split; [vm_compute; reflexivity|]. vm_compute; reflexivity.
Qed.

End FailingInputs.

(** ** Further properties of the engine *)

Section Totality.

Import RAGService.

Lemma join_cons_nonempty (sep x : string) (l : list string) :
  x ≠ EmptyString → Py.join sep (x :: l) ≠ EmptyString.
Proof.
  intros Hx. unfold Py.join. destruct x as [|c x']; [contradiction|].
  destruct l; cbn; discriminate.
Qed.

(** X1: [generate_hint] never raises and always returns a hint that is not
    empty, whatever the database does. *)
Theorem generate_hint_returns_hint (db : Database) (table : list Solution)
    (student_code error language : string) (task_id : option string) :
  ∃ r, fst (generate_hint db table student_code error language task_id) = inr r
       ∧ hint r ≠ EmptyString.
Proof.
  unfold generate_hint.
  destruct (_search_by_patterns db table _ language task_id error) as [e|[|best rest]];
    eexists; (split; [reflexivity|]); cbn [hint].
  - cbn. discriminate.
  - cbn. discriminate.
  - unfold _generate_pattern_based_hint. apply join_cons_nonempty. cbn. discriminate.
Qed.

(** X2: [generate_hint] only ever appends to the table of solutions: the
    rows that were there stay as they were, and at most one row is added. *)
Theorem generate_hint_appends (db : Database) (table : list Solution)
    (student_code error language : string) (task_id : option string) :
  ∃ added, snd (generate_hint db table student_code error language task_id) = (table ++ added)%list
           ∧ (List.length added ≤ 1)%nat.
Proof.
  unfold generate_hint, _search_by_patterns, _store_solution_patterns.
  destruct (db_connect db) as [e|].
  - exists []. cbn [snd]. rewrite app_nil_r. split; [reflexivity | simpl; lia].
  - destruct (_extract_patterns student_code language);
      cbn [snd]; eexists; (split; [reflexivity | simpl; lia]).
Qed.


End Totality.

Section Scale.

Import ManualCodeChecker.

Lemma round_half_even_ge (x : Q) (n : Z) :
  (inject_Z n <= x)%Q → (n ≤ round_half_even x)%Z.
Proof.
  intros Hx. unfold round_half_even.
  assert (Hfn : (n ≤ Qfloor x)%Z).
  { rewrite <- (Qfloor_Z n). apply Qfloor_resp_le, Hx. }
  destruct (x - inject_Z (Qfloor x) ?= (1 # 2))%Q; [destruct (Z.even (Qfloor x))| |]; lia.
Qed.

Lemma round2_unit (fl : Floats) (x : Q) : (0 <= x <= 1)%Q → (0 <= round2 fl x <= 1)%Q.
Proof.
  intros [H0 H1].
  destruct (round2_between fl x 0 100) as [Hlo Hhi].
  - change (inject_Z 0) with 0%Q. change (inject_Z 100) with 100%Q. split; lra.
  - assert (E0 : (inject_Z 0 / 100 == 0)%Q) by reflexivity.
    assert (E1 : (inject_Z 100 / 100 == 1)%Q) by reflexivity.
    rewrite E0 in Hlo. rewrite E1 in Hhi. split; assumption.
Qed.

(** X4: whatever the machine does, [compare] returns a report whose four
    scores, their mean and the overall score all lie in [0,1], provided
    the matcher of [difflib] matches no more characters than the shorter
    string has. *)
Theorem compare_scores_in_unit_interval (fl : Floats) (h : Host)
    (matches : string → string → nat)
    (student_code manual_code language : string) (fs : gset string) :
  (∀ a b, (matches a b ≤ Nat.min (String.length a) (String.length b))%nat) →
  ∃ r fs', compare fl h matches student_code manual_code language fs = (inr (Report r), fs')
    ∧ (0 <= syntax_match r <= 1)%Q
    ∧ (0 <= structure_match r <= 1)%Q
    ∧ (0 <= logic_match r <= 1)%Q
    ∧ (0 <= output_match r <= 1)%Q
    ∧ (0 <= (syntax_match r + structure_match r + logic_match r + output_match r) / 4 <= 1)%Q
    ∧ (0 <= overall_score r <= 1)%Q.
Proof.
  intros Hm.
  destruct (compare_report fl h matches student_code manual_code language fs)
    as (r & Hrun & _ & Hsyn & Hstr & Hlog & Hout & Hall & _).
  pose proof (syntax_match_bounds student_code manual_code) as H1.
  pose proof (structure_match_bounds student_code manual_code) as H2.
  pose proof (logic_match_bounds student_code manual_code language) as H3.
  pose proof (compare_outputs_bounds matches Hm (output (student_execution r))
                (output (manual_execution r))) as H4.
  rewrite <- Hsyn in H1. rewrite <- Hstr in H2. rewrite <- Hlog in H3. rewrite <- Hout in H4.
  assert (Hmean : (0 <= (syntax_match r + structure_match r + logic_match r + output_match r) / 4
                   <= 1)%Q).
  { split; [apply Qle_shift_div_l | apply Qle_shift_div_r]; try reflexivity; lra. }
  exists r, (snd (executions h student_code manual_code language fs)).
  repeat split; try tauto; try exact Hrun.
  - rewrite Hall. apply round2_unit, Hmean.
  - rewrite Hall. apply round2_unit, Hmean.
Qed.

(** X4 on the machine that prints, with the matcher of [difflib]. *)
Lemma compare_scores_in_unit_interval_witness :
  ∃ r fs', compare Sample.ties_to_even Sample.printing_host Sample.sequence_matches
                   "print(6)" "print(2 * 3)" "python" ∅
           = (inr (Report r), fs')
    ∧ (0 <= syntax_match r <= 1)%Q
    ∧ (0 <= structure_match r <= 1)%Q
    ∧ (0 <= logic_match r <= 1)%Q
    ∧ (0 <= output_match r <= 1)%Q
    ∧ (0 <= (syntax_match r + structure_match r + logic_match r + output_match r) / 4 <= 1)%Q
    ∧ (0 <= overall_score r <= 1)%Q.
Proof.
  apply (compare_scores_in_unit_interval Sample.ties_to_even Sample.printing_host
           Sample.sequence_matches "print(6)" "print(2 * 3)" "python" ∅).
  apply sequence_matches_le.
Defined.

(** X5: the grade is a step function of the score whose steps are closed
    below: A from 0.9, B from 0.8, C from 0.7, D from 0.6, F under 0.6. *)
Theorem grade_boundaries (score : Q) :
  (_calculate_grade score = "A" ↔ (9 # 10 <= score)%Q)
  ∧ (_calculate_grade score = "B" ↔ (8 # 10 <= score < 9 # 10)%Q)
  ∧ (_calculate_grade score = "C" ↔ (7 # 10 <= score < 8 # 10)%Q)
  ∧ (_calculate_grade score = "D" ↔ (6 # 10 <= score < 7 # 10)%Q)
  ∧ (_calculate_grade score = "F" ↔ (score < 6 # 10)%Q).
Proof.
  unfold _calculate_grade, Qgeb.
  destruct (Qle_bool (9 # 10) score) eqn:HA;
    [apply Qle_bool_iff in HA | apply not_true_iff_false in HA; rewrite Qle_bool_iff in HA;
                                 apply Qnot_le_lt in HA];
  [|destruct (Qle_bool (8 # 10) score) eqn:HB;
    [apply Qle_bool_iff in HB | apply not_true_iff_false in HB; rewrite Qle_bool_iff in HB;
                                 apply Qnot_le_lt in HB];
  [|destruct (Qle_bool (7 # 10) score) eqn:HC;
    [apply Qle_bool_iff in HC | apply not_true_iff_false in HC; rewrite Qle_bool_iff in HC;
                                 apply Qnot_le_lt in HC];
  [|destruct (Qle_bool (6 # 10) score) eqn:HD;
    [apply Qle_bool_iff in HD | apply not_true_iff_false in HD; rewrite Qle_bool_iff in HD;
                                 apply Qnot_le_lt in HD]]]];
  repeat split; intros; try discriminate; try reflexivity; try lra.
Qed.

(** X6: the list of line differences has at most twenty entries. *)
Theorem code_differences_at_most_twenty (code1 code2 : string) :
  (List.length (_find_code_differences code1 code2) ≤ 20)%nat.
Proof. unfold _find_code_differences. apply firstn_le_length. Qed.

End Scale.

(** ** The analyzer *)

Section Analysis.

Import CodeAnalyzer.

Lemma quality_score_range (code : string) (found : list string) :
  (5 - Z.min (Z.of_nat (List.length found)) 5 ≤ _calculate_quality_score code found ≤ 9)%Z.
Proof.
  unfold _calculate_quality_score.
  destruct (Py.contains "#" code || Py.contains "//" code);
    destruct (3 <? List.length (Py.split Py.nl (Py.strip code)))%nat;
    destruct (Py.contains "def " code || Py.contains "function " code
              || Py.contains "public " code); lia.
Qed.

(** X7: the quality score of [analyze_code] lies between 0 and 9: the
    base of 5 and the three bonuses add up to 9 at most, so the 10 that
    [_calculate_quality_score] caps at is never given. *)
Theorem quality_score_never_ten (code language : string) :
  (0 ≤ quality_score (analyze_code code language) ≤ 9)%Z.
Proof.
  unfold analyze_code. destruct (Py.is_empty (Py.strip code)); cbn [quality_score]; [lia|].
  pose proof (quality_score_range code (language_issues code language)) as H.
  unfold _calculate_quality_score in *. lia.
Qed.

Lemma language_issues_other (code language : string) :
  language ≠ "python" →
  (List.length (language_issues code language) ≤ 2)%nat
  ∧ flat_map issue_suggestion (language_issues code language) = [].
Proof.
  intros Hl. unfold language_issues.
  destruct (String.eqb_spec language "python") as [|_]; [contradiction|].
  destruct (String.eqb language "java"); [|destruct (String.eqb language "javascript");
    [|destruct (String.eqb language "c")]].
  - unfold _analyze_java.
    destruct (negb (Py.contains "public static void main" code));
      destruct (negb (Py.contains "System.out.println" code)); split; cbn; try lia; reflexivity.
  - unfold _analyze_javascript.
    destruct (negb (Py.contains "console.log" code)); split; cbn; try lia; reflexivity.
  - unfold _analyze_c.
    destruct (negb (Py.contains "#include <stdio.h>" code) && Py.contains "printf" code);
      split; cbn; try lia; reflexivity.
  - split; cbn; [lia | reflexivity].
Qed.

(** X8: for a language other than python, [analyze_code] gives no
    suggestion at all for code that is not blank, whatever issues it
    reports: no issue of java, javascript or c has one of the three texts
    [_generate_suggestions] looks for (the javascript issue reads
    "No console output", not "no output").  There are at most two issues,
    so the score is 3 at least. *)
Theorem analyze_code_other_language (code language : string) :
  language ≠ "python" →
  Py.is_empty (Py.strip code) = false →
  suggestions (analyze_code code language) = []
  ∧ (List.length (issues (analyze_code code language)) ≤ 2)%nat
  ∧ (3 ≤ quality_score (analyze_code code language))%Z.
Proof.
  intros Hl Hc. unfold analyze_code. rewrite Hc. cbn [suggestions issues quality_score].
  destruct (language_issues_other code language Hl) as [Hlen Hs].
  split; [|split].
  - unfold _generate_suggestions. rewrite Hs.
    destruct (String.eqb_spec language "python") as [|_]; [contradiction | reflexivity].
  - exact Hlen.
  - pose proof (quality_score_range code (language_issues code language)). lia.
Qed.

Lemma analyze_code_other_language_witness :
  analyze_code "let x = 1;" "javascript"
  = {| quality_score := 4; issues := ["No console output"]; suggestions := [] |}
  ∧ suggestions (analyze_code "let x = 1;" "javascript") = []
  ∧ (List.length (issues (analyze_code "let x = 1;" "javascript")) ≤ 2)%nat
  ∧ (3 ≤ quality_score (analyze_code "let x = 1;" "javascript"))%Z.
Proof.
  split; [vm_compute; reflexivity|].
  apply (analyze_code_other_language "let x = 1;" "javascript");
    [discriminate | vm_compute; reflexivity].
Defined.

(** Membership of a tagged counter in a list of four tagged counters. *)
Lemma tagged_elem (tag t1 t2 t3 : string) (n a b c d : nat) :
  (∀ x y, tag ++ x ≠ t1 ++ y) → (∀ x y, tag ++ x ≠ t2 ++ y) → (∀ x y, tag ++ x ≠ t3 ++ y) →
  ∀ l, l ≡ₚ [tag ++ pretty a; t1 ++ pretty b; t2 ++ pretty c; t3 ++ pretty d] →
  bool_decide (tag ++ pretty n ∈ l) = (n =? a)%nat.
Proof.
  intros H1 H2 H3 l Hl.
  destruct (Nat.eqb_spec n a) as [->|Hne].
  - apply bool_decide_eq_true. rewrite Hl. apply elem_of_cons. left. reflexivity.
  - apply bool_decide_eq_false. rewrite Hl. intros Hin.
    repeat (apply elem_of_cons in Hin as [Hin|Hin]).
    + apply Hne. apply (inj pretty). apply (inj (String.append tag)). exact Hin.
    + exact (H1 _ _ Hin).
    + exact (H2 _ _ Hin).
    + exact (H3 _ _ Hin).
    + apply elem_of_nil in Hin. exact Hin.
Qed.

Ltac tags_differ := intros ? ? Heq; cbn in Heq; discriminate Heq.

Lemma filter_tagged (t1 t2 t3 t4 : string) (a1 a2 a3 a4 b1 b2 b3 b4 : nat) :
  (∀ x y, t1 ++ x ≠ t2 ++ y) → (∀ x y, t1 ++ x ≠ t3 ++ y) → (∀ x y, t1 ++ x ≠ t4 ++ y) →
  (∀ x y, t2 ++ x ≠ t3 ++ y) → (∀ x y, t2 ++ x ≠ t4 ++ y) → (∀ x y, t3 ++ x ≠ t4 ++ y) →
  List.length
    (List.filter
       (λ e1, bool_decide (e1 ∈ [t1 ++ pretty b1; t2 ++ pretty b2; t3 ++ pretty b3;
                                 t4 ++ pretty b4]))
       [t1 ++ pretty a1; t2 ++ pretty a2; t3 ++ pretty a3; t4 ++ pretty a4])
  = List.length (List.filter (λ p, (fst p =? snd p)%nat) [(a1, b1); (a2, b2); (a3, b3); (a4, b4)]).
Proof.
  intros H12 H13 H14 H23 H24 H34.
  assert (H21 : ∀ x y, t2 ++ x ≠ t1 ++ y) by (intros x y E; exact (H12 _ _ (eq_sym E))).
  assert (H31 : ∀ x y, t3 ++ x ≠ t1 ++ y) by (intros x y E; exact (H13 _ _ (eq_sym E))).
  assert (H41 : ∀ x y, t4 ++ x ≠ t1 ++ y) by (intros x y E; exact (H14 _ _ (eq_sym E))).
  assert (H32 : ∀ x y, t3 ++ x ≠ t2 ++ y) by (intros x y E; exact (H23 _ _ (eq_sym E))).
  assert (H42 : ∀ x y, t4 ++ x ≠ t2 ++ y) by (intros x y E; exact (H24 _ _ (eq_sym E))).
  assert (H43 : ∀ x y, t4 ++ x ≠ t3 ++ y) by (intros x y E; exact (H34 _ _ (eq_sym E))).
  cbn [List.filter].
  rewrite (tagged_elem t1 t2 t3 t4 a1 b1 b2 b3 b4 H12 H13 H14) by reflexivity.
  rewrite (tagged_elem t2 t1 t3 t4 a2 b2 b1 b3 b4 H21 H23 H24)
    by (apply perm_swap).
  rewrite (tagged_elem t3 t1 t2 t4 a3 b3 b1 b2 b4 H31 H32 H34)
    by (etrans; [apply perm_skip, perm_swap | apply perm_swap]).
  rewrite (tagged_elem t4 t1 t2 t3 a4 b4 b1 b2 b3 H41 H42 H43)
    by (etrans; [apply perm_skip, perm_skip, perm_swap |
                 etrans; [apply perm_skip, perm_swap | apply perm_swap]]).
  cbn [fst snd].
  destruct (a1 =? b1)%nat, (a2 =? b2)%nat, (a3 =? b3)%nat, (a4 =? b4)%nat; reflexivity.
Qed.

(** X9: for python, the logic similarity of [_calculate_logic_similarity]
    is the share, among four counters (function definitions, loops,
    conditionals, returns), of those on which the two codes agree: the
    counter values themselves and what the code does play no part. *)
Theorem logic_similarity_python (code1 code2 : string) :
  let counters code :=
    [PyMore.count "def " code;
     (PyMore.count "for " code + PyMore.count "while " code)%nat;
     (PyMore.count "if " code + PyMore.count "elif " code + PyMore.count "else:" code)%nat;
     PyMore.count "return " code] in
  (_calculate_logic_similarity code1 code2 "python"
   == inject_Z (Z.of_nat (List.length (List.filter (λ p, (fst p =? snd p)%nat)
                                         (combine (counters code1) (counters code2))))) / 4)%Q.
Proof.
  cbv zeta. unfold _calculate_logic_similarity, extract_elements.
  cbn [String.eqb Ascii.eqb Bool.eqb andb].
  rewrite filter_tagged by tags_differ.
  cbn [combine List.length Nat.max Nat.ltb Nat.leb]. reflexivity.
Qed.

(** X10: [_calculate_logic_similarity] is symmetric and lies between 0 and
    1; a code compared with itself scores 1 for python and java, and 0 for
    every other language, javascript and c among them, for which no
    counter is extracted. *)
Theorem logic_similarity_symmetric (code1 code2 language : string) :
  _calculate_logic_similarity code1 code2 language
  = _calculate_logic_similarity code2 code1 language
  ∧ (0 <= _calculate_logic_similarity code1 code2 language <= 1)%Q
  ∧ (_calculate_logic_similarity code1 code1 language
     == if String.eqb language "python" || String.eqb language "java" then 1 else 0)%Q.
Proof.
  unfold _calculate_logic_similarity, extract_elements.
  destruct (String.eqb language "python"); [|destruct (String.eqb language "java")];
    cbn [orb].
  - rewrite !filter_tagged by tags_differ.
    cbn [List.length Nat.max Nat.ltb Nat.leb List.filter fst snd].
    rewrite !Nat.eqb_refl.
    split; [|split].
    + repeat match goal with
             | |- context [(?a =? ?b)%nat] =>
                 rewrite (Nat.eqb_sym b a); destruct (a =? b)%nat
             end; reflexivity.
    + repeat match goal with |- context [(?a =? ?b)%nat] => destruct (a =? b)%nat end;
        apply Qdiv_nat_bounds; cbn; lia.
    + reflexivity.
  - rewrite !filter_tagged by tags_differ.
    cbn [List.length Nat.max Nat.ltb Nat.leb List.filter fst snd].
    rewrite !Nat.eqb_refl.
    split; [|split].
    + repeat match goal with
             | |- context [(?a =? ?b)%nat] =>
                 rewrite (Nat.eqb_sym b a); destruct (a =? b)%nat
             end; reflexivity.
    + repeat match goal with |- context [(?a =? ?b)%nat] => destruct (a =? b)%nat end;
        apply Qdiv_nat_bounds; cbn; lia.
    + reflexivity.
  - cbn. repeat split; try reflexivity; unfold Qle; cbn; lia.
Qed.

End Analysis.

(** ** Hints and debug sessions *)

Section Debugging.

Import Api.

Lemma highest_level_spec (rows : list Hint) :
  match highest_level rows with
  | Some h => h ∈ rows ∧ ∀ h', h' ∈ rows → (hint_level h' ≤ hint_level h)%Z
  | None => rows = []
  end.
Proof.
  induction rows as [|h rest IH]; [reflexivity|]. cbn [highest_level].
  destruct (highest_level rest) as [h'|].
  - destruct IH as [Hin Hmax].
    destruct (Z.ltb_spec (hint_level h) (hint_level h')) as [Hlt|Hge].
    + split; [apply elem_of_cons; right; exact Hin|].
      intros x Hx. apply elem_of_cons in Hx as [->|Hx]; [lia | apply Hmax, Hx].
    + split; [apply elem_of_cons; left; reflexivity|].
      intros x Hx. apply elem_of_cons in Hx as [->|Hx]; [lia|].
      specialize (Hmax x Hx). lia.
  - subst rest. split; [apply elem_of_cons; left; reflexivity|].
    intros x Hx. apply elem_of_cons in Hx as [->|Hx]; [lia|].
    apply elem_of_nil in Hx. contradiction.
Qed.

(** X11: the row [get_hint] reads.  It is a row of the asked error type
    written for the asked language or for all of them.  A row of the asked
    level is taken if there is one, one for the language itself before one
    for all; if there is none, the row of the highest level there is, which
    may reveal more than was asked for.  No row is read only when the
    table has none of that error type for the language, and a missing
    error type ([None]) matches no row. *)
Theorem hint_row_cases (table : list Hint) (kind : option string) (language : string)
    (level : Z) :
  let fits h := type_is kind h && (String.eqb (hint_language h) language
                                   || String.eqb (hint_language h) "all") in
  match hint_row table kind language level with
  | Some h =>
      h ∈ table ∧ fits h = true ∧ kind = Some (hint_error_type h)
      ∧ (hint_level h = level
         ∨ ((∀ h', h' ∈ table → fits h' = true → hint_level h' ≠ level)
            ∧ (∀ h', h' ∈ table → fits h' = true → (hint_level h' ≤ hint_level h)%Z)))
      ∧ ((∃ h', h' ∈ table ∧ type_is kind h' = true ∧ hint_language h' = language
                ∧ hint_level h' = level) → hint_language h = language)
  | None => ∀ h, h ∈ table → fits h = false
  end.
Proof.
  cbv zeta. unfold hint_row.
  assert (Hkind : ∀ h, type_is kind h = true → kind = Some (hint_error_type h)).
  { intros h. unfold type_is. destruct kind as [t|]; [|discriminate].
    intros E. apply String.eqb_eq in E. rewrite E. reflexivity. }
  destruct (find _ table) as [h|] eqn:F1.
  - apply find_some in F1 as [Hin Hp]. apply list_elem_of_In in Hin.
    apply andb_prop in Hp as [Hp Hlev]. apply andb_prop in Hp as [Hty Hlang].
    apply Z.eqb_eq in Hlev. apply String.eqb_eq in Hlang.
    split; [exact Hin|]. split; [|split; [|split]].
    + rewrite Hty, Hlang, String.eqb_refl. reflexivity.
    + apply Hkind, Hty.
    + left. exact Hlev.
    + intros _. exact Hlang.
  - pose proof (find_none _ _ F1) as N1. clear F1.
    destruct (find _ table) as [h|] eqn:F2.
    + apply find_some in F2 as [Hin Hp]. apply list_elem_of_In in Hin.
      apply andb_prop in Hp as [Hp Hlev]. apply andb_prop in Hp as [Hty Hlang].
      apply Z.eqb_eq in Hlev.
      split; [exact Hin|]. split; [|split; [|split]].
      * rewrite Hty, Hlang, orb_true_r. reflexivity.
      * apply Hkind, Hty.
      * left. exact Hlev.
      * intros (h' & Hin' & Hty' & Hlang' & Hlev'). exfalso.
        apply list_elem_of_In in Hin'. specialize (N1 h' Hin'). cbv beta in N1.
        rewrite Hty', Hlang', String.eqb_refl, Hlev', Z.eqb_refl in N1. discriminate.
    + pose proof (find_none _ _ F2) as N2. clear F2.
      pose proof (highest_level_spec
                    (List.filter (λ h, type_is kind h
                                       && (String.eqb (hint_language h) language
                                           || String.eqb (hint_language h) "all")) table)) as Hh.
      destruct (highest_level _) as [h|].
      * destruct Hh as [Hin Hmax]. apply list_elem_of_In, filter_In in Hin as [Hin Hfit].
        apply list_elem_of_In in Hin.
        split; [exact Hin|]. split; [exact Hfit|]. split; [|split].
        -- apply Hkind. apply andb_prop in Hfit as [Hty _]. exact Hty.
        -- right. split.
           ++ intros h' Hin' Hfit' Hlev'. apply list_elem_of_In in Hin'.
              specialize (N1 h' Hin'). specialize (N2 h' Hin'). cbv beta in N1, N2.
              apply andb_prop in Hfit' as [Hty' Hl'].
              rewrite Hty', Hlev', Z.eqb_refl in N1, N2.
              destruct (String.eqb (hint_language h') language);
                destruct (String.eqb (hint_language h') "all"); discriminate.
           ++ intros h' Hin' Hfit'. apply Hmax.
              apply list_elem_of_In, filter_In. split; [apply list_elem_of_In, Hin' | exact Hfit'].
        -- intros (h' & Hin' & Hty' & Hlang' & Hlev'). exfalso.
           apply list_elem_of_In in Hin'. specialize (N1 h' Hin'). cbv beta in N1.
           rewrite Hty', Hlang', String.eqb_refl, Hlev', Z.eqb_refl in N1. discriminate.
      * intros h Hin.
        destruct (type_is kind h && (String.eqb (hint_language h) language
                                     || String.eqb (hint_language h) "all")) eqn:Hfit;
          [|reflexivity].
        exfalso. assert (Hf : In h (List.filter (λ h, type_is kind h
                                       && (String.eqb (hint_language h) language
                                           || String.eqb (hint_language h) "all")) table)).
        { apply filter_In. split; [apply list_elem_of_In, Hin | exact Hfit]. }
        rewrite Hh in Hf. exact Hf.
Qed.

Lemma hint_row_without_kind (table : list Hint) (language : string) (level : Z) :
  hint_row table None language level = None.
Proof.
  unfold hint_row.
  assert (H1 : find (λ h, type_is None h && String.eqb (hint_language h) language
                          && (hint_level h =? level)%Z) table = None).
  { clear. induction table as [|h t IH]; [reflexivity | exact IH]. }
  assert (H2 : find (λ h, type_is None h && String.eqb (hint_language h) "all"
                          && (hint_level h =? level)%Z) table = None).
  { clear. induction table as [|h t IH]; [reflexivity | exact IH]. }
  assert (H3 : List.filter (λ h, type_is None h
                                 && (String.eqb (hint_language h) language
                                     || String.eqb (hint_language h) "all")) table = []).
  { clear. induction table as [|h t IH]; [reflexivity | exact IH]. }
  rewrite H1, H2, H3. reflexivity.
Qed.

Lemma finished_consistent (result : CompletedProcess) (b : bool) : consistent (finished result b).
Proof.
  unfold consistent, finished. cbn.
  destruct (returncode result =? 0)%Z; split; split; intros; try reflexivity; discriminate.
Qed.

Lemma failed_consistent (message kind : string) : consistent (failed message kind).
Proof. unfold consistent, failed. cbn. split; split; intros; discriminate. Qed.

Lemma python_outcome_consistent (timeout : nat) (o : exn + CompletedProcess) :
  consistent (python_outcome timeout o).
Proof.
  destruct o as [[| |]|]; cbn [python_outcome];
    first [apply finished_consistent | apply failed_consistent].
Qed.

Lemma javascript_outcome_consistent (timeout : nat) (o : exn + CompletedProcess) :
  consistent (javascript_outcome timeout o).
Proof.
  destruct o as [[| |]|]; cbn [javascript_outcome];
    first [apply finished_consistent | apply failed_consistent].
Qed.

Lemma run_request_consistent (srv : Server) (code language : string) (run : IO ExecResult)
    (fs : gset string) :
  run_request srv code language = Some run →
  ∃ r, fst (run fs) = inr r ∧ consistent r.
Proof.
  unfold run_request.
  destruct (String.eqb language "python"); [|destruct (String.eqb language "javascript")];
    intros E; [| |discriminate]; injection E as <-.
  - rewrite execute_python_code_run. cbv zeta.
    destruct (store (machine srv) code); eexists; (split; [reflexivity|]);
      apply python_outcome_consistent.
  - rewrite execute_javascript_code_run. cbv zeta.
    destruct (store (machine srv) code); eexists; (split; [reflexivity|]);
      apply javascript_outcome_consistent.
Qed.

Lemma debug_code_run (srv : Server) (request : DebugRequest) (fs : gset string)
    (db : Database) (run : IO ExecResult) :
  run_request srv (dr_code request) (dr_language request) = Some run →
  ∃ r, fst (run fs) = inr r ∧ consistent r
       ∧ debug_code srv request fs db
         = (fst (after_execution srv request r (left_by_child srv (dr_code request) db)),
            snd (run fs),
            snd (after_execution srv request r (left_by_child srv (dr_code request) db))).
Proof.
  intros Hrun. destruct (run_request_consistent _ _ _ _ fs Hrun) as (r & Hr & Hc).
  exists r. split; [exact Hr|]. split; [exact Hc|].
  unfold debug_code. rewrite Hrun. cbv zeta.
  destruct (run fs) as [[e|r'] fs']; cbn [fst snd] in *; [discriminate|].
  injection Hr as ->. destruct (after_execution srv request r _). reflexivity.
Qed.

Lemma run_request_language (srv : Server) (code language : string) :
  match run_request srv code language with
  | Some _ => language = "python" ∨ language = "javascript"
  | None => language ≠ "python" ∧ language ≠ "javascript"
  end.
Proof.
  unfold run_request.
  destruct (String.eqb_spec language "python"); [left; assumption|].
  destruct (String.eqb_spec language "javascript"); [right; assumption|].
  split; assumption.
Qed.

(** What [debug_code] does once the code has run, on the database the run
    left. *)
Lemma after_execution_cases (srv : Server) (request : DebugRequest) (r : ExecResult)
    (db : Database) :
  match after_execution srv request r db with
  | (Returned (Debugged reply), db') =>
      sqlite_integer (dr_hint_level request) = true
      ∧ dbg_success reply = success r ∧ dbg_error_type reply = error_type r
      ∧ dbg_error reply = error r ∧ dbg_language reply = dr_language request
      ∧ dbg_hint reply
        = match hint_row (hints db) (error_type r) (dr_language request)
                  (dr_hint_level request) with
          | Some h => hint_text h
          | None => default_hint (error_type r) (dr_hint_level request)
          end
      ∧ db' = {| lab_tasks := lab_tasks db;
                 hints := hints db;
                 debug_sessions :=
                   (debug_sessions db
                    ++ [{| ds_student_id := dr_student_id request;
                           ds_task_id := dr_task_id request;
                           ds_language := dr_language request;
                           ds_error_type := dbg_error_type reply;
                           ds_success := dbg_success reply;
                           ds_hint_level := dr_hint_level request |}])%list;
                 manual_checks := manual_checks db |}
  | (Returned (Unsupported _), _) => False
  | (HTTPException status detail, db') =>
      status = 500%nat ∧ db' = db ∧ ∃ e, detail = "Debug error: " ++ exn_str e
  | (Unhandled _, _) => False
  end.
Proof.
  unfold after_execution, get_hint, log_debug_session.
  destruct (connect_error srv) as [e|]; [repeat split; exists e; reflexivity|].
  destruct (sqlite_integer (dr_hint_level request)); cbn [negb];
    [|repeat split; eexists; reflexivity].
  destruct (hint_row _ _ _ _); repeat split.
Qed.

(** X12: what [debug_code] itself writes.  The submitted code runs
    unconfined and may leave the database in any state; to that state an
    answer with the debugging dictionary has added exactly one row, the
    last of [debug_sessions], with the success and the error type the
    answer reports, and an answer of status 500 has added nothing.  For a
    language that is not run the database is as it was. *)
Theorem debug_code_logs_one_session (srv : Server) (request : DebugRequest)
    (fs : gset string) (db : Database) :
  let reply := fst (fst (debug_code srv request fs db)) in
  let db' := snd (debug_code srv request fs db) in
  let left := left_by_child srv (dr_code request) db in
  match reply with
  | Returned (Debugged r) =>
      db' = {| lab_tasks := lab_tasks left;
               hints := hints left;
               debug_sessions :=
                 (debug_sessions left
                  ++ [{| ds_student_id := dr_student_id request;
                         ds_task_id := dr_task_id request;
                         ds_language := dr_language request;
                         ds_error_type := dbg_error_type r;
                         ds_success := dbg_success r;
                         ds_hint_level := dr_hint_level request |}])%list;
               manual_checks := manual_checks left |}
  | Returned (Unsupported _) => db' = db
  | HTTPException _ _ => db' = left
  | Unhandled _ => False
  end.
Proof.
  cbv zeta.
  destruct (run_request srv (dr_code request) (dr_language request)) as [run|] eqn:Hrun.
  - destruct (debug_code_run srv request fs db run Hrun) as (r & _ & _ & ->).
    cbn [fst snd].
    pose proof (after_execution_cases srv request r
                  (left_by_child srv (dr_code request) db)) as H.
    destruct (after_execution srv request r _) as [[[u|reply]|status detail|e] db'];
      cbn [fst snd]; try contradiction.
    + destruct H as (_ & _ & _ & _ & _ & _ & ->). reflexivity.
    + destruct H as (_ & -> & _). reflexivity.
  - unfold debug_code. rewrite Hrun. reflexivity.
Qed.

(** X13: how [debug_code] ends.  A language other than python and
    javascript gets the dictionary for an unsupported language, and
    nothing is run or written.  A debugging dictionary is returned only
    for a hint level that fits the 64 bits of an integer of the database,
    and in it the success flag is set exactly when there is no error type
    and no error.  Every exception, of the database or of binding a level
    that does not fit, becomes an error of status 500, which is raised
    only after the code has been run; none reaches the caller as it is. *)
Theorem debug_code_status (srv : Server) (request : DebugRequest) (fs : gset string)
    (db : Database) :
  match fst (fst (debug_code srv request fs db)) with
  | Returned (Unsupported r) =>
      dr_language request ≠ "python" ∧ dr_language request ≠ "javascript"
      ∧ snd (fst (debug_code srv request fs db)) = fs
      ∧ snd (debug_code srv request fs db) = db
      ∧ ur_error_type r = "UnsupportedLanguage"
  | Returned (Debugged r) =>
      (dr_language request = "python" ∨ dr_language request = "javascript")
      ∧ sqlite_integer (dr_hint_level request) = true
      ∧ dbg_language r = dr_language request
      ∧ (dbg_success r = true ↔ dbg_error_type r = None)
      ∧ (dbg_success r = true ↔ dbg_error r = None)
  | HTTPException status detail =>
      status = 500%nat
      ∧ (dr_language request = "python" ∨ dr_language request = "javascript")
      ∧ (∃ e, detail = "Debug error: " ++ exn_str e)
      ∧ ∃ run, run_request srv (dr_code request) (dr_language request) = Some run
               ∧ snd (fst (debug_code srv request fs db)) = snd (run fs)
  | Unhandled _ => False
  end.
Proof.
  pose proof (run_request_language srv (dr_code request) (dr_language request)) as Hl.
  destruct (run_request srv (dr_code request) (dr_language request)) as [run|] eqn:Hrun.
  - destruct (debug_code_run srv request fs db run Hrun) as (r & _ & [Hc1 Hc2] & ->).
    cbn [fst snd].
    pose proof (after_execution_cases srv request r
                  (left_by_child srv (dr_code request) db)) as H.
    destruct (after_execution srv request r _) as [[[u|reply]|status detail|e] db'];
      cbn [fst snd]; try contradiction.
    + destruct H as (Hint & Hs & Ht & He & Hlang & _).
      split; [exact Hl|]. split; [exact Hint|]. split; [exact Hlang|].
      rewrite Hs, Ht, He. split; assumption.
    + destruct H as (-> & _ & Hd).
      split; [reflexivity|]. split; [exact Hl|]. split; [exact Hd|].
      exists run. split; reflexivity.
  - unfold debug_code. rewrite Hrun. cbn. destruct Hl. repeat split; assumption.
Qed.

(** X14: after code that ran without an error, the hint of [debug_code]
    is still the default text for an error, about an error type [None]:
    the query for a hint compares the error type with NULL, which no row
    equals, whatever the table of hints holds. *)
Theorem debug_code_hint_after_success (srv : Server) (request : DebugRequest)
    (fs : gset string) (db : Database) (r : DebugReply) :
  fst (fst (debug_code srv request fs db)) = Returned (Debugged r) →
  dbg_success r = true →
  dbg_hint r = default_hint None (dr_hint_level request)
  ∧ dbg_error_type r = None ∧ dbg_error r = None.
Proof.
  intros Hreply Hok.
  destruct (run_request srv (dr_code request) (dr_language request)) as [run|] eqn:Hrun.
  - destruct (debug_code_run srv request fs db run Hrun) as (er & _ & [Hc1 Hc2] & Heq).
    rewrite Heq in Hreply. cbn [fst snd] in Hreply.
    pose proof (after_execution_cases srv request er
                  (left_by_child srv (dr_code request) db)) as H.
    destruct (after_execution srv request er _) as [reply db']. cbn [fst] in Hreply.
    subst reply. destruct H as (_ & Hs & Ht & He & _ & Hhint & _).
    rewrite Hs in Hok. pose proof (proj1 Hc1 Hok) as Hty. pose proof (proj1 Hc2 Hok) as Herr.
    rewrite Hhint, Ht, He, Hty, Herr, hint_row_without_kind. repeat split.
  - unfold debug_code in Hreply. rewrite Hrun in Hreply. cbn in Hreply. discriminate.
Qed.

Lemma debug_code_hint_after_success_witness :
  ∃ r, fst (fst (debug_code SampleSite.server
                   {| dr_code := "print(42)"; dr_language := "python";
                      dr_task_id := "python_sum_list"; dr_student_id := "s1";
                      dr_hint_level := 1 |} ∅ SampleSite.database))
       = Returned (Debugged r)
     ∧ dbg_success r = true
     ∧ dbg_hint r = "Error type: None. Review your code for common mistakes."
     ∧ dbg_error_type r = None ∧ dbg_error r = None.
Proof.
  eexists. split; [vm_compute; reflexivity|]. split; [reflexivity|].
  apply (debug_code_hint_after_success SampleSite.server
           {| dr_code := "print(42)"; dr_language := "python";
              dr_task_id := "python_sum_list"; dr_student_id := "s1";
              dr_hint_level := 1 |} ∅ SampleSite.database);
    [vm_compute; reflexivity | reflexivity].
Defined.

(** X15: [execute_code] never answers with an error of status 500: both
    execution functions turn every exception into a dictionary.  It
    reports a success only for python or javascript, and then without an
    error; for any other language nothing is run. *)
Theorem execute_code_always_returns (srv : Server) (code language : string)
    (fs : gset string) :
  ∃ r, fst (execute_code srv code language fs) = Returned r
       ∧ (success r = true ↔ error r = None)
       ∧ (success r = true → language = "python" ∨ language = "javascript")
       ∧ ((language = "python" ∨ language = "javascript")
          ∨ snd (execute_code srv code language fs) = fs).
Proof.
  unfold execute_code.
  pose proof (run_request_language srv code language) as Hl.
  destruct (run_request srv code language) as [run|] eqn:Hrun.
  - destruct (run_request_consistent _ _ _ _ fs Hrun) as (r & Hr & [_ Hc]).
    destruct (run fs) as [[e|r'] fs']; cbn [fst] in Hr; [discriminate|].
    injection Hr as ->. exists r. cbn [fst snd]. split; [reflexivity|].
    split; [exact Hc|]. split; [intros _; exact Hl | left; exact Hl].
  - eexists. cbn [fst snd]. split; [reflexivity|]. cbn.
    split; [split; discriminate|]. split; [discriminate | right; reflexivity].
Qed.

End Debugging.

(** ** Manual solutions *)

Section Manuals.

Import Api.

(** X16: what [manual_check_code] itself writes.  A blank manual code is
    refused before anything is run or written.  Otherwise the two codes
    run unconfined, for python, and may leave the database in any state;
    to that state an answer with a report has added exactly one row, the
    last of [manual_checks], holding the similarity score, the number of
    errors and the grade of that report, and an answer of status 500 has
    added nothing.  No exception reaches the caller as it is. *)
Theorem manual_check_code_logs (srv : Server)
    (student_code manual_code language task_id : string) (fs : gset string) (db : Database) :
  let reply := fst (fst (manual_check_code srv student_code manual_code language task_id fs db)) in
  let fs' := snd (fst (manual_check_code srv student_code manual_code language task_id fs db)) in
  let db' := snd (manual_check_code srv student_code manual_code language task_id fs db) in
  let left := left_by_runs srv student_code manual_code language db in
  match reply with
  | Returned (Report r) =>
      Py.is_empty (Py.strip manual_code) = false
      ∧ db' = {| lab_tasks := lab_tasks left;
                 hints := hints left;
                 debug_sessions := debug_sessions left;
                 manual_checks :=
                   (manual_checks left
                    ++ [{| mc_task_id := task_id;
                           mc_student_id :=
                             "manual_check_" ++ Py.take 8 (md5_hexdigest srv student_code);
                           mc_similarity_score := similarity_score r;
                           mc_errors_found := List.length (errors r);
                           mc_grade := grade r |}])%list |}
  | Returned (CompareError message) =>
      Py.is_empty (Py.strip manual_code) = true
      ∧ message = "Manual code is required for comparison"
      ∧ fs' = fs ∧ db' = db
  | HTTPException status detail =>
      status = 500%nat ∧ db' = left
      ∧ Py.is_empty (Py.strip manual_code) = false
      ∧ ∃ e, detail = "Manual check error: " ++ exn_str e
  | Unhandled _ => False
  end.
Proof.
  cbv zeta. unfold manual_check_code.
  destruct (Py.is_empty (Py.strip manual_code)) eqn:Hblank; [cbn; repeat split|].
  destruct (compare_report (arithmetic srv) (machine srv) (sequence_matcher srv)
              student_code manual_code language fs) as (r & -> & _).
  destruct (connect_error srv) as [e|]; cbn [fst snd].
  - repeat split. exists e. reflexivity.
  - repeat split.
Qed.

Lemma with_tasks_lookup (db : Database) (tasks : gmap string LabTask) :
  lab_tasks (with_tasks db tasks) = tasks.
Proof. reflexivity. Qed.

Lemma upload_accepted (srv : Server) (request : UploadManualRequest) (db : Database) :
  connect_error srv = None →
  Py.is_empty (Py.strip (um_manual_code request)) = false →
  Py.is_empty (Py.strip (um_task_id request)) = false →
  ∃ reply task,
    upload_manual_solution srv request db
    = (Returned reply, with_tasks db (<[um_task_id request := task]> (lab_tasks db)))
    ∧ lt_manual_code task = um_manual_code request
    ∧ lt_language task = um_language request
    ∧ lt_uploaded_by task = "user"
    ∧ up_code_length reply = String.length (um_manual_code request).
Proof.
  intros Hc Hcode Hid. unfold upload_manual_solution. rewrite Hcode, Hid, Hc.
  destruct (lab_tasks db !! um_task_id request) as [task|];
    eexists _, _; (split; [reflexivity|]); repeat split.
Qed.

(** X17: a manual solution that was uploaded is there to be fetched.
    When the code and the task id are not blank and the database opens,
    [upload_manual_solution] answers, and [get_lab_task] then returns that
    task with the uploaded code and language, marked as custom and as
    uploaded by a user, also when the task was one of the system before.
    Every other task reads as it did. *)
Theorem upload_then_get (srv : Server) (request : UploadManualRequest) (db : Database) :
  connect_error srv = None →
  Py.is_empty (Py.strip (um_manual_code request)) = false →
  Py.is_empty (Py.strip (um_task_id request)) = false →
  ∃ reply db' t,
    upload_manual_solution srv request db = (Returned reply, db')
    ∧ get_lab_task srv (um_task_id request) db' = Returned t
    ∧ tr_manual_code t = um_manual_code request
    ∧ tr_language t = um_language request
    ∧ tr_uploaded_by t = "user"
    ∧ tr_is_custom t = true
    ∧ (∀ id, id ≠ um_task_id request → get_lab_task srv id db' = get_lab_task srv id db)
    ∧ hints db' = hints db ∧ debug_sessions db' = debug_sessions db
    ∧ manual_checks db' = manual_checks db.
Proof.
  intros Hc Hcode Hid.
  destruct (upload_accepted srv request db Hc Hcode Hid)
    as (reply & task & -> & Hm & Hl & Hu & _).
  eexists reply, _, _. split; [reflexivity|].
  unfold get_lab_task. rewrite Hc, with_tasks_lookup, lookup_insert_eq.
  split; [reflexivity|]. cbn [tr_manual_code tr_language tr_uploaded_by tr_is_custom].
  rewrite Hu. repeat split; try assumption.
  intros id Hne. rewrite lookup_insert_ne by (intros E; apply Hne; symmetry; exact E).
  reflexivity.
Qed.

Lemma upload_then_get_witness :
  ∃ reply db' t,
    upload_manual_solution SampleSite.server
      {| um_task_id := "python_sum_list"; um_language := "python";
         um_manual_code := "print(6)"; um_title := None; um_description := None |}
      SampleSite.database = (Returned reply, db')
    ∧ get_lab_task SampleSite.server "python_sum_list" db' = Returned t
    ∧ tr_manual_code t = "print(6)"
    ∧ tr_language t = "python"
    ∧ tr_uploaded_by t = "user"
    ∧ tr_is_custom t = true
    ∧ (∀ id, id ≠ "python_sum_list" →
             get_lab_task SampleSite.server id db' = get_lab_task SampleSite.server id SampleSite.database)
    ∧ hints db' = hints SampleSite.database
    ∧ debug_sessions db' = debug_sessions SampleSite.database
    ∧ manual_checks db' = manual_checks SampleSite.database.
Proof.
  apply (upload_then_get SampleSite.server
           {| um_task_id := "python_sum_list"; um_language := "python";
              um_manual_code := "print(6)"; um_title := None; um_description := None |}
           SampleSite.database); reflexivity.
Defined.

(** X18: an upload followed by [delete_manual] removes the whole task.
    The upload marks the task as a user's even when it was a task of the
    system, so the deletion that would have been refused now goes through,
    and the title, the starter code and the solution of the system's task
    are gone with the manual: the task can no longer be fetched. *)
Theorem upload_then_delete (srv : Server) (request : UploadManualRequest) (db : Database) :
  connect_error srv = None →
  Py.is_empty (Py.strip (um_manual_code request)) = false →
  Py.is_empty (Py.strip (um_task_id request)) = false →
  ∃ reply db' message db'',
    upload_manual_solution srv request db = (Returned reply, db')
    ∧ delete_manual srv (um_task_id request) db' = (Returned message, db'')
    ∧ lab_tasks db'' = delete (um_task_id request) (lab_tasks db)
    ∧ get_lab_task srv (um_task_id request) db'' = HTTPException 404 "Task not found".
Proof.
  intros Hc Hcode Hid.
  destruct (upload_accepted srv request db Hc Hcode Hid)
    as (reply & task & -> & _ & _ & Hu & _).
  eexists reply, _. unfold delete_manual, get_lab_task.
  rewrite Hc, with_tasks_lookup, lookup_insert_eq, Hu. cbn [String.eqb Ascii.eqb Bool.eqb].
  eexists _, _. split; [reflexivity|]. split; [reflexivity|].
  rewrite !with_tasks_lookup, delete_insert_eq. split; [reflexivity|].
  rewrite lookup_delete_eq. reflexivity.
Qed.

Lemma upload_then_delete_witness :
  get_lab_task SampleSite.server "python_sum_list" SampleSite.database
  = Returned {| tr_id := "python_sum_list";
                tr_title := lt_title SampleSite.system_task;
                tr_description := lt_description SampleSite.system_task;
                tr_language := "python";
                tr_difficulty := "beginner";
                tr_starter_code := lt_starter_code SampleSite.system_task;
                tr_solution_code := lt_solution_code SampleSite.system_task;
                tr_manual_code := lt_manual_code SampleSite.system_task;
                tr_uploaded_by := "system";
                tr_is_custom := false |}
  ∧ fst (delete_manual SampleSite.server "python_sum_list" SampleSite.database)
    = HTTPException 404
        "Manual not found or cannot be deleted (only user uploads can be deleted)"
  ∧ ∃ reply db' message db'',
      upload_manual_solution SampleSite.server
        {| um_task_id := "python_sum_list"; um_language := "python";
           um_manual_code := "print(6)"; um_title := None; um_description := None |}
        SampleSite.database = (Returned reply, db')
      ∧ delete_manual SampleSite.server "python_sum_list" db' = (Returned message, db'')
      ∧ lab_tasks db'' = delete "python_sum_list" (lab_tasks SampleSite.database)
      ∧ get_lab_task SampleSite.server "python_sum_list" db''
        = HTTPException 404 "Task not found".
Proof.
  split; [vm_compute; reflexivity|]. split; [vm_compute; reflexivity|].
  apply (upload_then_delete SampleSite.server
           {| um_task_id := "python_sum_list"; um_language := "python";
              um_manual_code := "print(6)"; um_title := None; um_description := None |}
           SampleSite.database); reflexivity.
Defined.

(** X19: [delete_manual] by itself removes nothing but a user's upload.
    A task that is not marked as uploaded by a user survives every call,
    and no task other than the named one is touched; the call answers with
    a message exactly when the named task was a user's upload, which is
    then gone, and with status 404 or 500 otherwise, the database being as
    it was. *)
Theorem delete_manual_keeps_system_tasks (srv : Server) (task_id : string) (db : Database) :
  let reply := fst (delete_manual srv task_id db) in
  let db' := snd (delete_manual srv task_id db) in
  (∀ id task, lab_tasks db !! id = Some task → lt_uploaded_by task ≠ "user" →
              lab_tasks db' !! id = Some task)
  ∧ (∀ id, id ≠ task_id → lab_tasks db' !! id = lab_tasks db !! id)
  ∧ match reply with
    | Returned _ =>
        lab_tasks db' !! task_id = None
        ∧ ∃ task, lab_tasks db !! task_id = Some task ∧ lt_uploaded_by task = "user"
    | HTTPException status _ =>
        db' = db
        ∧ (status = 500%nat ∧ connect_error srv ≠ None
           ∨ status = 404%nat ∧ connect_error srv = None
             ∧ ∀ task, lab_tasks db !! task_id = Some task → lt_uploaded_by task ≠ "user")
    | Unhandled _ => False
    end.
Proof.
  cbv zeta. unfold delete_manual.
  destruct (connect_error srv) as [e|]; cbn [fst snd].
  { repeat split; auto; try (left; split; [reflexivity | discriminate]). }
  destruct (lab_tasks db !! task_id) as [task|] eqn:Hlook.
  - destruct (String.eqb_spec (lt_uploaded_by task) "user") as [Hu|Hu]; cbn [fst snd].
    + rewrite with_tasks_lookup. split; [|split; [|split]].
      * intros id task' Hid Hsys. rewrite lookup_delete_ne; [exact Hid|].
        intros <-. rewrite Hlook in Hid. injection Hid as <-. contradiction.
      * intros id Hne. apply lookup_delete_ne. intros E. apply Hne. symmetry. exact E.
      * apply lookup_delete_eq.
      * exists task. split; [reflexivity | exact Hu].
    + repeat split; auto; try (right; repeat split; intros task' E; injection E as <-; exact Hu).
  - repeat split; auto; try (right; repeat split; intros task' E; discriminate).
Qed.

(** X20: the status 400 that [upload_manual_solution] raises for a blank
    code or a blank task id never reaches the caller: it is raised inside
    the [try] whose handler turns every exception into one of status 500,
    and the database is left as it was. *)
Theorem upload_blank_is_status_500 (srv : Server) (request : UploadManualRequest)
    (db : Database) :
  Py.is_empty (Py.strip (um_manual_code request)) = true
  ∨ Py.is_empty (Py.strip (um_task_id request)) = true →
  ∃ reason,
    upload_manual_solution srv request db
    = (HTTPException 500 ("Upload error: " ++ http_exception_str srv 400 reason), db)
    ∧ (reason = "Manual code cannot be empty" ∨ reason = "Task ID cannot be empty").
Proof.
  intros H. unfold upload_manual_solution.
  destruct (Py.is_empty (Py.strip (um_manual_code request))) eqn:Hcode.
  - eexists. split; [reflexivity | left; reflexivity].
  - destruct H as [H|H]; [discriminate|]. rewrite H.
    eexists. split; [reflexivity | right; reflexivity].
Qed.

Lemma upload_blank_is_status_500_witness :
  ∃ reason,
    upload_manual_solution SampleSite.server
      {| um_task_id := "t1"; um_language := "python"; um_manual_code := "   ";
         um_title := None; um_description := None |} SampleSite.database
    = (HTTPException 500
         ("Upload error: " ++ http_exception_str SampleSite.server 400 reason),
       SampleSite.database)
    ∧ (reason = "Manual code cannot be empty" ∨ reason = "Task ID cannot be empty").
Proof.
  apply (upload_blank_is_status_500 SampleSite.server
           {| um_task_id := "t1"; um_language := "python"; um_manual_code := "   ";
              um_title := None; um_description := None |} SampleSite.database).
  left. reflexivity.
Defined.

Lemma insert_by_perm {A} (before : A → A → bool) (x : A) (l : list A) :
  insert_by before x l ≡ₚ x :: l.
Proof.
  induction l as [|y l IH]; [reflexivity|]. cbn.
  destruct (before x y); [reflexivity|]. rewrite IH. apply perm_swap.
Qed.

Lemma sort_by_perm {A} (before : A → A → bool) (l : list A) : sort_by before l ≡ₚ l.
Proof.
  induction l as [|x l IH]; [reflexivity|]. cbn. rewrite insert_by_perm, IH. reflexivity.
Qed.

Lemma insert_by_sorted {A} (before : A → A → bool) (R : A → A → Prop) (x : A) (l : list A) :
  (∀ a b c, R a b → R b c → R a c) →
  (∀ a b, before a b = true → R a b) →
  (∀ a b, before a b = false → R b a) →
  StronglySorted R l → StronglySorted R (insert_by before x l).
Proof.
  intros Htrans Hyes Hno. induction 1 as [|y l Hs IH Hy]; cbn.
  - repeat constructor.
  - destruct (before x y) eqn:Hb.
    + constructor; [constructor; assumption|].
      constructor; [apply Hyes, Hb|].
      eapply Forall_impl; [exact Hy|]. cbv beta. intros z Hz.
      exact (Htrans _ _ _ (Hyes _ _ Hb) Hz).
    + constructor; [exact IH|].
      rewrite insert_by_perm. constructor; [apply Hno, Hb | exact Hy].
Qed.

Lemma sort_by_sorted {A} (before : A → A → bool) (R : A → A → Prop) (l : list A) :
  (∀ a b c, R a b → R b c → R a c) →
  (∀ a b, before a b = true → R a b) →
  (∀ a b, before a b = false → R b a) →
  StronglySorted R (sort_by before l).
Proof.
  intros Htrans Hyes Hno. induction l as [|x l IH]; [constructor|]. cbn.
  apply insert_by_sorted; assumption.
Qed.

Lemma NoDup_fst_filter {A B} (p : A * B → bool) (l : list (A * B)) :
  NoDup (l.*1) → NoDup ((List.filter p l).*1).
Proof.
  induction l as [|[a b] l IH]; [intros _; constructor|].
  cbn [List.filter]. rewrite fmap_cons. intros Hnd. apply NoDup_cons in Hnd as [Hnot Hnd].
  destruct (p (a, b)); [|apply IH, Hnd].
  rewrite fmap_cons. apply NoDup_cons. split; [|apply IH, Hnd].
  intros Hin. apply Hnot. apply list_elem_of_fmap in Hin as ([a' b'] & -> & Hin).
  apply list_elem_of_fmap. exists (a', b'). split; [reflexivity|].
  apply list_elem_of_In, filter_In in Hin as [Hin _]. apply list_elem_of_In, Hin.
Qed.

Lemma sorted_entries (l : list (string * LabTask)) :
  StronglySorted (λ a b, (lt_upload_time (snd b) ≤ lt_upload_time (snd a))%nat) l →
  StronglySorted (λ a b, (me_uploaded_at b ≤ me_uploaded_at a)%nat) (map manual_entry l).
Proof.
  induction 1 as [|row l Hs IH Hrow]; [constructor|].
  cbn [map]. constructor; [exact IH|].
  apply Forall_forall. intros entry Hin.
  apply list_elem_of_In, in_map_iff in Hin as (row' & <- & Hin).
  rewrite Forall_forall in Hrow. apply (Hrow row'), list_elem_of_In, Hin.
Qed.

(** X21: [get_user_manuals] lists the user uploads and nothing else: each
    task marked as uploaded by a user appears once, with its whole code
    and the length of that code, no other task appears, and the entries
    come by falling upload time. *)
Theorem get_user_manuals_lists_uploads (srv : Server) (db : Database) :
  connect_error srv = None →
  ∃ entries,
    get_user_manuals srv db = Returned entries
    ∧ NoDup (map me_id entries)
    ∧ (∀ entry, entry ∈ entries ↔
         ∃ task, lab_tasks db !! me_id entry = Some task ∧ lt_uploaded_by task = "user"
                 ∧ entry = manual_entry (me_id entry, task))
    ∧ (∀ id task, lab_tasks db !! id = Some task → lt_uploaded_by task = "user" →
                  manual_entry (id, task) ∈ entries)
    ∧ StronglySorted (λ a b, (me_uploaded_at b ≤ me_uploaded_at a)%nat) entries.
Proof.
  intros Hc. unfold get_user_manuals. rewrite Hc. eexists. split; [reflexivity|].
  set (rows := List.filter (λ row, String.eqb (lt_uploaded_by (snd row)) "user")
                           (map_to_list (lab_tasks db))).
  set (sorted := sort_by (λ x y, (lt_upload_time (snd y) <=? lt_upload_time (snd x))%nat) rows).
  assert (Hperm : sorted ≡ₚ rows) by apply sort_by_perm.
  assert (Hrow : ∀ row, row ∈ sorted ↔
                        lab_tasks db !! fst row = Some (snd row)
                        ∧ lt_uploaded_by (snd row) = "user").
  { intros [id task]. rewrite Hperm. unfold rows.
    rewrite list_elem_of_In, filter_In, <- list_elem_of_In, elem_of_map_to_list.
    cbn [fst snd]. rewrite String.eqb_eq. reflexivity. }
  split; [|split; [|split]].
  - rewrite map_map. cbn [manual_entry me_id].
    change (map (λ x, fst x) sorted) with (sorted.*1).
    rewrite Hperm. apply NoDup_fst_filter, NoDup_fst_map_to_list.
  - intros entry. rewrite list_elem_of_In, in_map_iff. split.
    + intros ([id task] & <- & Hin). apply list_elem_of_In, Hrow in Hin as [Hl Hu].
      exists task. repeat split; assumption.
    + intros (task & Hl & Hu & ->). exists (me_id (manual_entry (me_id entry, task)), task).
      split; [reflexivity|]. apply list_elem_of_In, Hrow. split; assumption.
  - intros id task Hl Hu. apply list_elem_of_In, in_map. apply list_elem_of_In, Hrow.
    split; assumption.
  - apply sorted_entries. apply sort_by_sorted.
    + intros a b c Hab Hbc. lia.
    + intros a b Hb. apply Nat.leb_le, Hb.
    + intros a b Hb. apply Nat.leb_gt in Hb. lia.
Qed.

Lemma get_user_manuals_lists_uploads_witness :
  ∃ entries,
    get_user_manuals SampleSite.server SampleSite.uploaded = Returned entries
    ∧ NoDup (map me_id entries)
    ∧ (∀ entry, entry ∈ entries ↔
         ∃ task, lab_tasks SampleSite.uploaded !! me_id entry = Some task
                 ∧ lt_uploaded_by task = "user"
                 ∧ entry = manual_entry (me_id entry, task))
    ∧ (∀ id task, lab_tasks SampleSite.uploaded !! id = Some task →
                  lt_uploaded_by task = "user" → manual_entry (id, task) ∈ entries)
    ∧ StronglySorted (λ a b, (me_uploaded_at b ≤ me_uploaded_at a)%nat) entries.
Proof.
  apply (get_user_manuals_lists_uploads SampleSite.server SampleSite.uploaded). reflexivity.
Defined.

Lemma labs_before_origin (x y : string * LabTask) :
  (labs_before x y = true → (origin (snd x) ≤ origin (snd y))%nat)
  ∧ (labs_before x y = false → (origin (snd y) ≤ origin (snd x))%nat).
Proof.
  unfold labs_before.
  destruct (Nat.ltb_spec (origin (snd x)) (origin (snd y)));
    [split; [lia | discriminate]|].
  destruct (Nat.ltb_spec (origin (snd y)) (origin (snd x)));
    [split; [discriminate | lia]|].
  split; lia.
Qed.

Lemma origin_custom (row : string * LabTask) :
  lab_is_custom (lab_entry row) = true ↔ origin (snd row) = 1%nat.
Proof.
  unfold lab_entry, origin. cbn [lab_is_custom].
  destruct (String.eqb (lt_uploaded_by (snd row)) "system"); cbn; split; congruence.
Qed.

(** X22: [get_all_labs] lists every task of the table exactly once, marks
    as custom those not uploaded by the system, and puts the tasks of the
    system first: no custom task comes before one of the system. *)
Theorem get_all_labs_system_first (srv : Server) (db : Database) :
  connect_error srv = None →
  ∃ labs,
    get_all_labs srv db = Returned labs
    ∧ NoDup (map lab_id labs)
    ∧ (∀ id task, lab_tasks db !! id = Some task → lab_entry (id, task) ∈ labs)
    ∧ (∀ lab, lab ∈ labs →
         lab_is_custom lab = negb (String.eqb (lab_uploaded_by lab) "system")
         ∧ ∃ task, lab_tasks db !! lab_id lab = Some task
                   ∧ lab = lab_entry (lab_id lab, task))
    ∧ StronglySorted (λ a b, lab_is_custom a = true → lab_is_custom b = true) labs.
Proof.
  intros Hc. unfold get_all_labs. rewrite Hc. eexists. split; [reflexivity|].
  set (sorted := sort_by labs_before (map_to_list (lab_tasks db))).
  assert (Hperm : sorted ≡ₚ map_to_list (lab_tasks db)) by apply sort_by_perm.
  assert (Hrow : ∀ row, row ∈ sorted ↔ lab_tasks db !! fst row = Some (snd row)).
  { intros [id task]. rewrite Hperm. apply elem_of_map_to_list. }
  split; [|split; [|split]].
  - rewrite map_map. cbn [lab_entry lab_id].
    change (map (λ x, fst x) sorted) with (sorted.*1).
    rewrite Hperm. apply NoDup_fst_map_to_list.
  - intros id task Hl. apply list_elem_of_In, in_map. apply list_elem_of_In, Hrow. exact Hl.
  - intros lab Hin. apply list_elem_of_In, in_map_iff in Hin as ([id task] & <- & Hin).
    split; [reflexivity|]. exists task. split; [|reflexivity].
    apply list_elem_of_In, Hrow in Hin. exact Hin.
  - assert (Hs : StronglySorted (λ a b : string * LabTask,
                                   (origin (snd a) ≤ origin (snd b))%nat) sorted).
    { apply sort_by_sorted.
      - intros a b c Hab Hbc. lia.
      - intros a b. apply labs_before_origin.
      - intros a b. apply labs_before_origin. }
    clear Hperm Hrow. induction Hs as [|row l Hs IH Hall]; [constructor|].
    cbn [map]. constructor; [exact IH|].
    apply Forall_forall. intros lab Hin.
    apply list_elem_of_In, in_map_iff in Hin as (row' & <- & Hin).
    rewrite Forall_forall in Hall. specialize (Hall row' (proj2 (list_elem_of_In _ _) Hin)).
    rewrite !origin_custom. unfold origin in *.
    destruct (String.eqb (lt_uploaded_by (snd row)) "system"),
             (String.eqb (lt_uploaded_by (snd row')) "system"); cbn in *; lia.
Qed.

Lemma get_all_labs_system_first_witness :
  ∃ labs,
    get_all_labs SampleSite.server SampleSite.uploaded = Returned labs
    ∧ NoDup (map lab_id labs)
    ∧ (∀ id task, lab_tasks SampleSite.uploaded !! id = Some task →
                  lab_entry (id, task) ∈ labs)
    ∧ (∀ lab, lab ∈ labs →
         lab_is_custom lab = negb (String.eqb (lab_uploaded_by lab) "system")
         ∧ ∃ task, lab_tasks SampleSite.uploaded !! lab_id lab = Some task
                   ∧ lab = lab_entry (lab_id lab, task))
    ∧ StronglySorted (λ a b, lab_is_custom a = true → lab_is_custom b = true) labs.
Proof.
  apply (get_all_labs_system_first SampleSite.server SampleSite.uploaded). reflexivity.
Defined.

End Manuals.

(** ** The sandbox *)

Section Backends.

Import CodeExecutor Sandbox.

Lemma run_local_unsandboxed (h : Host) (code language f : string) (fs : gset string) :
  match fst (run_local h code language f fs) with
  | inr r => local_sandboxed r = false
  | inl _ => True
  end.
Proof.
  unfold run_local.
  repeat match goal with
         | |- context [if String.eqb ?a ?b then _ else _] => destruct (String.eqb a b)
         end;
    unfold subprocess_run, creates; run_io;
    repeat match goal with
           | |- context [spawn h ?argv code ?t] => destruct (spawn h argv code t) as [?|[? ? ?]]
           | |- context [(?rc =? 0)%Z] => destruct (rc =? 0)%Z
           | |- _ => progress cbn [fst negb returncode]
           end;
    try reflexivity; exact I.
Qed.

Lemma execute_local_unsandboxed (h : Host) (code language : string) (fs : gset string) :
  ∃ r fs', _execute_local h code language fs = (inr r, fs') ∧ local_sandboxed r = false.
Proof.
  unfold _execute_local, named_temporary_file.
  set (f := mktemp h fs (_get_suffix language)).
  destruct (store h code) as [|e|e].
  - unfold io_finally, io_try at 1.
    pose proof (run_local_keeps h code language f ({[f]} ∪ fs)) as Hkeep.
    pose proof (run_local_unsandboxed h code language f ({[f]} ∪ fs)) as Hflag.
    destruct (run_local h code language f ({[f]} ∪ fs)) as [[e|r] fs1];
      cbn [fst snd] in Hkeep, Hflag;
      assert (Hin : f ∈ fs1) by (apply Hkeep, elem_of_union_l, elem_of_singleton; reflexivity).
    + destruct (local_handler_run e fs1) as (r & -> & _ & Hr).
      destruct (cleanup_removes language f fs1 Hin) as (fs' & -> & _ & _).
      eexists _, fs'. split; [reflexivity | exact Hr].
    + destruct (cleanup_removes language f fs1 Hin) as (fs' & -> & _ & _).
      eexists _, fs'. split; [reflexivity | exact Hflag].
  - destruct (local_handler_run e fs) as (r & -> & _ & Hr).
    eexists _, _. split; [reflexivity | exact Hr].
  - destruct (local_handler_run e ({[f]} ∪ fs)) as (r & -> & _ & Hr).
    eexists _, _. split; [reflexivity | exact Hr].
Qed.

(** X23: how [execute] ends.  It raises in one case only: the sandbox was
    asked for, a docker client exists, the lower-cased language has an
    image, and the container failed with a standard error that cannot be
    decoded; the decoding raises inside the handler of [ContainerError],
    where no other handler catches it.  When it returns, its flag
    [sandboxed] can be trusted: an answer marked as sandboxed is the one
    built from what became of the container, never that of a process of
    the machine. *)
Theorem execute_sandboxed_flag (docker_client : option Docker) (h : Host)
    (code language : string) (use_sandbox : bool) (fs : gset string) :
  let sandbox d image :=
    docker_client = Some d ∧ use_sandbox = true
    ∧ image_map !! Py.lower language = Some image in
  let outcome d image :=
    containers_run d image
      (_get_docker_command language
         (PyMore.path_join (mkdtemp d fs) (_get_filename language))) code in
  match fst (execute docker_client h code language use_sandbox fs) with
  | inl e => ∃ d image, sandbox d image ∧ outcome d image = ContainerError (inl e)
  | inr r =>
      er_sandboxed r = true →
      ∃ d image, sandbox d image ∧ container_result (outcome d image) = inr r
  end.
Proof.
  cbv zeta.
  assert (Hlocal : ∃ r fs',
             match _execute_local h code language fs with
             | (inr r, fs') => (inr (of_local r), fs')
             | (inl e, fs') => (inl e, fs')
             end = (inr r, fs') ∧ er_sandboxed r = false).
  { destruct (execute_local_unsandboxed h code language fs) as (r & fs' & -> & Hr).
    eexists _, _. split; [reflexivity | exact Hr]. }
  unfold execute.
  destruct use_sandbox, docker_client as [d|];
    try (destruct Hlocal as (r & fs' & -> & Hflag); cbn [fst];
         rewrite Hflag; discriminate).
  unfold _execute_docker.
  destruct (image_map !! Py.lower language) as [image|] eqn:Himage; cbn [fst].
  - destruct (containers_run d image _ code) as [text|[e|stderr]|message] eqn:Hrun;
      cbn [container_result].
    + intros _. exists d, image. rewrite Hrun. repeat split.
    + exists d, image. rewrite Hrun. repeat split.
    + intros _. exists d, image. rewrite Hrun. repeat split.
    + intros _. exists d, image. rewrite Hrun. repeat split.
  - cbn. discriminate.
Qed.

Lemma lookup_other_key {A} (table : list (string * A)) (language : string) :
  language ∉ table.*1 → (list_to_map table : gmap string A) !! language = None.
Proof. apply not_elem_of_list_to_map_1. Qed.

(** X24: the sandbox draws the image from the lower-cased language but the
    file name and the command from the language as it was written.  For a
    language that is supported only once lower-cased ([Python], [JAVA]),
    the code is written to [code.txt], [containers.run] is called with the
    right image and the command [echo Unsupported language], so that the
    code is not run, and [_execute_docker] ends as that call makes it
    end: with a success when the echo succeeds. *)
Theorem execute_docker_mixed_case (d : Docker) (code language image : string)
    (fs : gset string) :
  image_map !! Py.lower language = Some image →
  language ≠ Py.lower language →
  _get_filename language = "code.txt"
  ∧ _get_docker_command language
      (PyMore.path_join (mkdtemp d fs) (_get_filename language))
    = ["echo"; "Unsupported language"]
  ∧ fst (_execute_docker d code language fs)
    = container_result (containers_run d image ["echo"; "Unsupported language"] code).
Proof.
  intros Himage Hcase.
  assert (Hout : language ∉ ["python"; "java"; "javascript"; "c"]).
  { intros Hin. apply Hcase.
    repeat (apply elem_of_cons in Hin as [->|Hin]; [reflexivity|]).
    apply elem_of_nil in Hin. contradiction. }
  assert (Hname : _get_filename language = "code.txt").
  { unfold _get_filename, extensions. rewrite lookup_other_key; [reflexivity | exact Hout]. }
  assert (Hcmd : ∀ f, _get_docker_command language f = ["echo"; "Unsupported language"]).
  { intros f. unfold _get_docker_command, commands.
    rewrite lookup_other_key; [reflexivity | exact Hout]. }
  split; [exact Hname|]. split; [apply Hcmd|].
  unfold _execute_docker. rewrite Himage. cbn [fst]. rewrite Hcmd. reflexivity.
Qed.

Lemma execute_docker_mixed_case_witness :
  _get_filename "Python" = "code.txt"
  ∧ _get_docker_command "Python"
      (PyMore.path_join (mkdtemp SampleSite.docker ∅) (_get_filename "Python"))
    = ["echo"; "Unsupported language"]
  ∧ fst (_execute_docker SampleSite.docker "print(42)" "Python" ∅)
    = container_result
        (containers_run SampleSite.docker "python:3.11-alpine"
           ["echo"; "Unsupported language"] "print(42)").
Proof.
  apply (execute_docker_mixed_case SampleSite.docker "print(42)" "Python"
           "python:3.11-alpine" ∅); [reflexivity | discriminate].
Defined.

End Backends.

(** ** Patterns and line differences *)

Section Retrieval.

Import RAGService.

Lemma line_patterns_vocabulary (language line p : string) :
  p ∈ line_patterns language line →
  p ∈ ["loop_statement"; "conditional_statement"; "return_statement"]
  ∨ (language = "python" ∧ ∃ name, p = "function_def:" ++ name)
  ∨ (∃ v, v ≠ EmptyString ∧ p = "var_assignment:" ++ v).
Proof.
  unfold line_patterns. rewrite !elem_of_app.
  intros [H|[H|[H|[H|H]]]].
  - destruct (String.eqb_spec language "python") as [Hl|Hl]; cbn [andb] in H;
      [|apply elem_of_nil in H; contradiction].
    destruct (Py.startswith "def " line); [|apply elem_of_nil in H; contradiction].
    apply list_elem_of_singleton in H. right. left. split; [exact Hl|]. eexists. exact H.
  - destruct (_ || _); [|apply elem_of_nil in H; contradiction].
    apply list_elem_of_singleton in H as ->. left. rewrite !elem_of_cons. auto.
  - destruct (_ || _); [|apply elem_of_nil in H; contradiction].
    apply list_elem_of_singleton in H as ->. left. rewrite !elem_of_cons. auto.
  - destruct (Py.contains "return " line); [|apply elem_of_nil in H; contradiction].
    apply list_elem_of_singleton in H as ->. left. rewrite !elem_of_cons. auto.
  - destruct (_ && _); [|apply elem_of_nil in H; contradiction].
    destruct (Py.is_empty _) eqn:He; [apply elem_of_nil in H; contradiction|].
    apply list_elem_of_singleton in H. right. right. eexists. split; [|exact H].
    apply is_empty_false, He.
Qed.

(** X25: the patterns [_extract_patterns] returns hold no pattern twice
    and come from a fixed vocabulary: the three tags for loops,
    conditionals and returns, the name of a function (for python only),
    and the name of an assigned variable, which is never empty. *)
Theorem extract_patterns_vocabulary (code language : string) :
  NoDup (_extract_patterns code language)
  ∧ ∀ p, p ∈ _extract_patterns code language →
      p ∈ ["loop_statement"; "conditional_statement"; "return_statement"]
      ∨ (language = "python" ∧ ∃ name, p = "function_def:" ++ name)
      ∨ (∃ v, v ≠ EmptyString ∧ p = "var_assignment:" ++ v).
Proof.
  unfold _extract_patterns. split; [apply NoDup_remove_dups|].
  intros p Hp. apply elem_of_remove_dups, list_elem_of_In, in_flat_map in Hp
    as (line & _ & Hp).
  destruct (_ || _); [contradiction|].
  apply list_elem_of_In in Hp. exact (line_patterns_vocabulary _ _ _ Hp).
Qed.

Lemma firstn_elem {A} (n : nat) (l : list A) (x : A) : x ∈ firstn n l → x ∈ l.
Proof.
  revert l. induction n as [|n IH]; intros [|a l]; cbn; intros H;
    try (apply elem_of_nil in H; contradiction).
  apply elem_of_cons in H as [->|H]; apply elem_of_cons; [left; reflexivity|].
  right. apply IH, H.
Qed.

(** X26: the similarity [generate_hint] reports.  It is 0, with no similar
    solution, or it lies above 0.1 and at most at 2.0, not at 1.0; at most
    two similar solutions are returned, each with a score above 0.1 and
    not above the reported similarity, which is the highest.  The flag
    [rag_used] tells whether the database could be opened. *)
Theorem generate_hint_similarity (db : Database) (table : list Solution)
    (student_code error language : string) (task_id : option string) :
  ∃ r, fst (generate_hint db table student_code error language task_id) = inr r
       ∧ ((hint_similarity_score r == 0)%Q ∧ similar_solutions r = []
          ∨ (1 # 10 < hint_similarity_score r <= 2)%Q ∧ similar_solutions r ≠ [])
       ∧ (List.length (similar_solutions r) ≤ 2)%nat
       ∧ (∀ x, x ∈ similar_solutions r →
               (1 # 10 < cand_score x)%Q ∧ (cand_score x <= hint_similarity_score r)%Q)
       ∧ (rag_used r = true ↔ db_connect db = None).
Proof.
  unfold generate_hint, _search_by_patterns.
  destruct (db_connect db) as [e|].
  { eexists. split; [reflexivity|]. cbn. split; [left; split; reflexivity|].
    split; [lia|]. split; [|split; discriminate].
    intros x Hx. apply elem_of_nil in Hx. contradiction. }
  destruct (_extract_patterns student_code language) as [|p ps].
  { eexists. split; [reflexivity|]. cbn. split; [left; split; reflexivity|].
    split; [lia|]. split; [|split; reflexivity].
    intros x Hx. apply elem_of_nil in Hx. contradiction. }
  set (patterns := p :: ps).
  set (rows := default [] (db_select db table (where_clause patterns language task_id error))).
  pose proof (sort_by_score_ranked (flat_map (candidate_of patterns) rows)) as Hranked.
  assert (Hscore : ∀ x, x ∈ sort_by_score (flat_map (candidate_of patterns) rows) →
                        (1 # 10 < cand_score x <= 2)%Q).
  { intros x Hx. apply elem_of_candidates in Hx as (row & _ & Hx).
    apply candidate_of_elem in Hx as [Hlow ->]. cbn [cand_score].
    split; [exact Hlow | apply pattern_score_bounds]. }
  destruct (sort_by_score (flat_map (candidate_of patterns) rows)) as [|best rest].
  { eexists. split; [reflexivity|]. cbn. split; [left; split; reflexivity|].
    split; [lia|]. split; [|split; reflexivity].
    intros x Hx. apply elem_of_nil in Hx. contradiction. }
  eexists. split; [reflexivity|].
  cbn [hint_similarity_score similar_solutions rag_used fst].
  split; [right; split; [apply Hscore, elem_of_cons; left; reflexivity | discriminate]|].
  split; [destruct rest as [|? [|? ?]]; cbn; lia|].
  split; [|split; reflexivity].
  intros x Hx. split; [apply Hscore, (firstn_elem 2), Hx|].
  apply firstn_elem, elem_of_cons in Hx as [->|Hx]; [apply Qle_refl|].
  unfold ranked in Hranked. apply StronglySorted_inv in Hranked as [_ Hall].
  rewrite Forall_forall in Hall. apply Hall, Hx.
Qed.

End Retrieval.

Section Differences.

Import ManualCodeChecker.

Lemma flat_map_nil {A B} (f : A → list B) (l : list A) :
  flat_map f l = [] ↔ ∀ x, x ∈ l → f x = [].
Proof.
  induction l as [|a l IH]; cbn.
  - split; [intros _ x Hx; apply elem_of_nil in Hx; contradiction | reflexivity].
  - split.
    + intros H. apply app_eq_nil in H as [Ha Hl]. intros x Hx.
      apply elem_of_cons in Hx as [->|Hx]; [exact Ha | apply IH; assumption].
    + intros H. rewrite (H a) by (apply elem_of_cons; left; reflexivity).
      apply IH. intros x Hx. apply H, elem_of_cons. right. exact Hx.
Qed.

Lemma firstn_sorted {A} (R : A → A → Prop) (n : nat) (l : list A) :
  StronglySorted R l → StronglySorted R (firstn n l).
Proof.
  intros Hs. revert n. induction Hs as [|a l Hs IH Ha]; intros [|n]; cbn; try constructor.
  - apply IH.
  - apply Forall_forall. intros x Hx. rewrite Forall_forall in Ha.
    apply Ha. apply (firstn_elem n), Hx.
Qed.

Lemma flat_map_seq_sorted (f : nat → list Difference) (start n : nat) :
  (∀ i d, d ∈ f i → diff_line d = S i) →
  (∀ i, (List.length (f i) ≤ 1)%nat) →
  StronglySorted (λ a b, (diff_line a < diff_line b)%nat) (flat_map f (seq start n))
  ∧ Forall (λ d, (start < diff_line d)%nat) (flat_map f (seq start n)).
Proof.
  intros Hline Hone. revert start. induction n as [|n IH]; intros start; cbn [seq flat_map].
  - split; constructor.
  - destruct (IH (S start)) as [Hs Hall].
    pose proof (Hone start) as Hlen. pose proof (Hline start) as Hl.
    destruct (f start) as [|d [|? ?]]; cbn in Hlen; [| |lia]; cbn [app].
    + split; [exact Hs|]. eapply Forall_impl; [exact Hall|]. cbv beta. intros; lia.
    + assert (Hd : diff_line d = S start) by (apply Hl, elem_of_cons; left; reflexivity).
      split.
      * constructor; [exact Hs|]. eapply Forall_impl; [exact Hall|]. cbv beta. intros; lia.
      * constructor; [lia|]. eapply Forall_impl; [exact Hall|]. cbv beta. intros; lia.
Qed.

(** X27: the line differences of [_find_code_differences].  Each entry
    names a line that exists in one of the two codes, carries the two
    texts of that line (the empty text past the end of a code), which
    differ, and is of type [missing] when the student's text is empty,
    [extra] when the manual's is, [different] otherwise; the entries come
    by rising line number.  There is no entry exactly when the codes agree
    line by line once empty lines at the end are disregarded, so a code
    and the same code with blank lines added have no difference. *)
Theorem code_differences_entries (code1 code2 : string) :
  let lines1 := Py.split Py.nl code1 in
  let lines2 := Py.split Py.nl code2 in
  (∀ d, d ∈ _find_code_differences code1 code2 →
     (1 ≤ diff_line d ≤ Nat.max (List.length lines1) (List.length lines2))%nat
     ∧ diff_student d = nth (diff_line d - 1) lines1 EmptyString
     ∧ diff_manual d = nth (diff_line d - 1) lines2 EmptyString
     ∧ diff_student d ≠ diff_manual d
     ∧ diff_type d = (if Py.is_empty (diff_student d) then "missing"
                      else if Py.is_empty (diff_manual d) then "extra" else "different"))
  ∧ StronglySorted (λ a b, (diff_line a < diff_line b)%nat)
                   (_find_code_differences code1 code2)
  ∧ (_find_code_differences code1 code2 = [] ↔
     ∀ i, nth i lines1 EmptyString = nth i lines2 EmptyString).
Proof.
  cbv zeta. unfold _find_code_differences.
  set (lines1 := Py.split Py.nl code1). set (lines2 := Py.split Py.nl code2).
  set (n := Nat.max (List.length lines1) (List.length lines2)).
  set (f := λ i : nat,
         if String.eqb (nth i lines1 EmptyString) (nth i lines2 EmptyString) then []
         else [{| diff_line := i + 1;
                  diff_student := nth i lines1 EmptyString;
                  diff_manual := nth i lines2 EmptyString;
                  diff_type :=
                    if negb (Py.is_empty (nth i lines1 EmptyString))
                       && negb (Py.is_empty (nth i lines2 EmptyString)) then "different"
                    else if Py.is_empty (nth i lines1 EmptyString) then "missing"
                         else "extra" |}]).
  assert (Hf : ∀ i d, d ∈ f i →
                 nth i lines1 EmptyString ≠ nth i lines2 EmptyString
                 ∧ d = {| diff_line := i + 1;
                          diff_student := nth i lines1 EmptyString;
                          diff_manual := nth i lines2 EmptyString;
                          diff_type :=
                            if negb (Py.is_empty (nth i lines1 EmptyString))
                               && negb (Py.is_empty (nth i lines2 EmptyString))
                            then "different"
                            else if Py.is_empty (nth i lines1 EmptyString) then "missing"
                                 else "extra" |}).
  { intros i d. unfold f.
    destruct (String.eqb_spec (nth i lines1 EmptyString) (nth i lines2 EmptyString)) as [E|E];
      intros Hd; [apply elem_of_nil in Hd; contradiction|].
    apply list_elem_of_singleton in Hd. split; assumption. }
  split; [|split].
  - intros d Hd. apply firstn_elem, list_elem_of_In, in_flat_map in Hd as (i & Hi & Hd).
    apply in_seq in Hi. apply list_elem_of_In, Hf in Hd as [Hne ->].
    cbn [diff_line diff_student diff_manual diff_type].
    replace (i + 1 - 1)%nat with i by lia.
    split; [lia|]. split; [reflexivity|]. split; [reflexivity|]. split; [exact Hne|].
    destruct (nth i lines1 EmptyString) as [|c1 s1], (nth i lines2 EmptyString) as [|c2 s2];
      reflexivity.
  - apply firstn_sorted. apply (flat_map_seq_sorted f 0 n).
    + intros i d Hd. apply Hf in Hd as [_ ->]. cbn. lia.
    + intros i. unfold f. destruct (String.eqb _ _); cbn; lia.
  - assert (Hnil : ∀ l : list Difference, firstn 20 l = [] ↔ l = []).
    { intros [|? ?]; cbn; split; congruence. }
    rewrite Hnil, flat_map_nil. split.
    + intros H i. destruct (Nat.lt_ge_cases i n) as [Hlt|Hge].
      * specialize (H i). unfold f in H.
        destruct (String.eqb_spec (nth i lines1 EmptyString) (nth i lines2 EmptyString))
          as [E|E]; [exact E|].
        assert (Hin : i ∈ seq 0 n) by (apply list_elem_of_In, in_seq; lia).
        specialize (H Hin). discriminate.
      * rewrite !nth_overflow by lia. reflexivity.
    + intros H i _. unfold f. rewrite (H i), String.eqb_refl. reflexivity.
Qed.

End Differences.

(** ** Errors and suggestions of a comparison *)

Section Findings.

Import ManualCodeChecker.

(** X28: what [_find_errors] reports for a code compared with itself.
    The three errors about a missing implementation, function definition
    or return statement never appear; what can still appear is the
    complaint about single-letter names, for python only, and the
    off-by-one warning, when the code holds both [range(1,] and
    [range(0,]. *)
Theorem find_errors_identical (s language : string) :
  ∀ e, e ∈ _find_errors s s language →
    (language = "python" ∧ ∃ names, e = "Poor variable naming: " ++ names)
    ∨ (e = "Potential off-by-one error in range"
       ∧ Py.contains "range(1," s = true ∧ Py.contains "range(0," s = true).
Proof.
  intros e. unfold _find_errors. rewrite !elem_of_app.
  intros [H|[H|[H|[H|H]]]].
  - destruct (Py.contains "pass" s); cbn in H;
      [rewrite andb_false_r in H|]; apply elem_of_nil in H; contradiction.
  - destruct (Py.contains "def " s); cbn in H; apply elem_of_nil in H; contradiction.
  - destruct (Py.contains "return " s); cbn in H; apply elem_of_nil in H; contradiction.
  - destruct (String.eqb_spec language "python") as [Hl|Hl];
      [|apply elem_of_nil in H; contradiction].
    destruct (List.filter _ _); [apply elem_of_nil in H; contradiction|].
    apply list_elem_of_singleton in H. left. split; [exact Hl|]. eexists. exact H.
  - destruct (Py.contains "range(1," s); [|apply elem_of_nil in H; contradiction].
    destruct (Py.contains "range(0," s); [|apply elem_of_nil in H; contradiction].
    apply list_elem_of_singleton in H. right. repeat split. exact H.
Qed.

Lemma find_errors_identical_witness :
  _find_errors "for q in range(1, n): t = range(0, n)"
               "for q in range(1, n): t = range(0, n)" "python"
  = ["Poor variable naming: q, n, t, n"; "Potential off-by-one error in range"]
  ∧ (("python" = "python"
      ∧ ∃ names, "Potential off-by-one error in range" = "Poor variable naming: " ++ names)
     ∨ ("Potential off-by-one error in range" = "Potential off-by-one error in range"
        ∧ Py.contains "range(1," "for q in range(1, n): t = range(0, n)" = true
        ∧ Py.contains "range(0," "for q in range(1, n): t = range(0, n)" = true)).
Proof.
  split; [vm_compute; reflexivity|].
  apply (find_errors_identical "for q in range(1, n): t = range(0, n)" "python"
           "Potential off-by-one error in range").
  apply list_elem_of_In. vm_compute. auto.
Defined.

(** X29: for a language other than python, the first suggestion of
    [compare] is always to get the correct output first, also for a code
    compared with itself: nothing is run, so the output score is 0.0. *)
Theorem compare_other_language_suggestion (fl : Floats) (h : Host)
    (matches : string → string → nat)
    (student_code manual_code language : string) (fs : gset string) :
  language ≠ "python" →
  ∃ r rest,
    compare fl h matches student_code manual_code language fs = (inr (Report r), fs)
    ∧ suggestions r = "Focus on getting the correct output first" :: rest
    ∧ errors r = _find_errors student_code manual_code language
    ∧ code_differences r = _find_code_differences student_code manual_code.
Proof.
  intros Hl. unfold compare.
  rewrite (proj2 (String.eqb_neq _ _) Hl).
  unfold io_try, mbind, io_mbind, io_bind, mret, io_mret, io_ret.
  eexists _, _. split; [reflexivity|]. cbn [suggestions errors code_differences].
  split; [|split; reflexivity].
  unfold _generate_suggestions. cbn [output not_executed _compare_outputs Py.is_empty orb].
  reflexivity.
Qed.

Lemma compare_other_language_suggestion_witness :
  ∃ r rest,
    compare Sample.ties_to_even Sample.printing_host Sample.sequence_matches
            "console.log(1);" "console.log(1);" "javascript" ∅ = (inr (Report r), ∅)
    ∧ suggestions r = "Focus on getting the correct output first" :: rest
    ∧ errors r = _find_errors "console.log(1);" "console.log(1);" "javascript"
    ∧ code_differences r = _find_code_differences "console.log(1);" "console.log(1);".
Proof.
  apply (compare_other_language_suggestion Sample.ties_to_even Sample.printing_host
           Sample.sequence_matches "console.log(1);" "console.log(1);" "javascript" ∅).
  discriminate.
Defined.

End Findings.
